(** * Vehicle registration dashboard: harvesting, persistence and growth

    A shallow embedding of the scraper
    ([sql_based_investor_dashboard/sql_vahan_data_scrapper.py]), of the
    CSV migration ([migrate_csv_to_sql.py]) and of the growth computation
    of the dashboard ([sql_based_investor_dashboard/sql_app.py]).

    Conventions of the embedding.
    - A pandas cell is a [cell]: missing ([NaN]), a number or a text.
      The dashboard reports vehicle counts, so numbers are integers ([Z]).
    - pandas' conversion of a text to a number ([pandas.to_numeric]) is
      library code: it is the operation of the class [Pandas].
    - SQLite holds integers of 64 bits and stores a name under the
      [TEXT] affinity of its column; a batch is one transaction.
    - The growth is computed on doubles: the binary64 numbers of the
      kernel, with the additions of [int64] wrapping around.
    - Selenium, the clock and the file system are the operations of the
      class [Driver], each of which may raise.
    - Python exceptions are explicit: a computation returns an [outcome]
      together with the world it leaves behind. *)

From Stdlib Require Import List ZArith Bool String Ascii Arith Lia.
From Stdlib Require Import Decimal DecimalString DecimalZ Permutation Sorted.
From Stdlib Require Import OrderedTypeEx RelationClasses.
From Stdlib Require Floats.
Import ListNotations.
Local Open Scope string_scope.
Local Open Scope Z_scope.
Local Open Scope list_scope.

(** ** Text operations of the Python [str] type used by the code *)

Module Text.

Definition is_digit (c : ascii) : bool :=
  (48 <=? nat_of_ascii c)%nat && (nat_of_ascii c <=? 57)%nat.

Definition digit_value (c : ascii) : Z := Z.of_nat (nat_of_ascii c) - 48.

(** [str.isspace] on the ASCII range. *)
Definition isspace (c : ascii) : bool :=
  let n := nat_of_ascii c in
  ((9 <=? n)%nat && (n <=? 13)%nat) || ((28 <=? n)%nat && (n <=? 32)%nat).

(** [pat in s] *)
Fixpoint contains (pat s : string) : bool :=
  String.prefix pat s ||
  match s with
  | EmptyString => false
  | String _ s' => contains pat s'
  end.

(** [s.startswith(pat)] *)
Definition startswith (s pat : string) : bool := String.prefix pat s.

(** [s.endswith(suffix)] *)
Fixpoint endswith (s suffix : string) : bool :=
  (s =? suffix)%string ||
  match s with
  | EmptyString => false
  | String _ s' => endswith s' suffix
  end.

Fixpoint lstrip (s : string) : string :=
  match s with
  | EmptyString => EmptyString
  | String c s' => if isspace c then lstrip s' else s
  end.

Fixpoint rstrip (s : string) : string :=
  match s with
  | EmptyString => EmptyString
  | String c s' =>
      match rstrip s' with
      | EmptyString => if isspace c then EmptyString else String c EmptyString
      | r => String c r
      end
  end.

(** [s.strip()] *)
Definition strip (s : string) : string := rstrip (lstrip s).

Fixpoint remove_from (pat : string) (skip : nat) (s : string) : string :=
  match s with
  | EmptyString => EmptyString
  | String c s' =>
      match skip with
      | S k => remove_from pat k s'
      | O =>
          if String.prefix pat s
          then remove_from pat (String.length pat - 1) s'
          else String c (remove_from pat O s')
      end
  end.

(** [s.replace(pat, '')] for a non-empty [pat]: every occurrence of
    [pat], scanning from the left, is deleted. *)
Definition remove_all (pat s : string) : string := remove_from pat O s.

(** [sep.join(parts)] *)
Definition join (sep : string) (parts : list string) : string :=
  String.concat sep parts.

(** [s.split(sep)[-1]] for a one-character separator. *)
Fixpoint last_field (sep : ascii) (s : string) : string :=
  match s with
  | EmptyString => EmptyString
  | String c s' =>
      if contains (String sep EmptyString) s' then last_field sep s'
      else if Ascii.eqb c sep then s' else s
  end.

Fixpoint drop (n : nat) (s : string) : string :=
  match n, s with
  | O, _ => s
  | S k, String _ s' => drop k s'
  | S _, EmptyString => EmptyString
  end.

(** The value of a non-empty run of decimal digits. *)
Definition digits (s : string) : option Z :=
  option_map (fun d => Z.of_int (Decimal.Pos d)) (NilZero.uint_of_string s).

(** [str(n)] for an integer. *)
Definition str_of_int (n : Z) : string := NilZero.string_of_int (Z.to_int n).

(** [int(s)] on a text without underscores: surrounding blanks, an
    optional sign, decimal digits; [None] is [ValueError]. *)
Definition py_int (s : string) : option Z :=
  match strip s with
  | String "+"%char t => digits t
  | String "-"%char t => option_map Z.opp (digits t)
  | t => digits t
  end.

(** The number read by [\d{4}] at the head of [s]. *)
Definition four_digits (s : string) : option Z :=
  match s with
  | String a (String b (String c (String d _))) =>
      if is_digit a && is_digit b && is_digit c && is_digit d
      then Some (((digit_value a * 10 + digit_value b) * 10
                  + digit_value c) * 10 + digit_value d)
      else None
  | _ => None
  end.

(** [re.search(r'(\d{4})', s)]: the leftmost run of four digits. *)
Fixpoint search_four_digits (s : string) : option Z :=
  match four_digits s with
  | Some y => Some y
  | None =>
      match s with
      | EmptyString => None
      | String _ s' => search_four_digits s'
      end
  end.

(** [re.match(r'Calendar Year_(\d{4})', col)]: anchored at the start. *)
Definition match_calendar_year (col : string) : option Z :=
  if String.prefix "Calendar Year_" col then four_digits (drop 14 col)
  else None.

(** [re.search(r'Year_(\d{4})\.csv', file)]: the year of the leftmost
    match. *)
Fixpoint search_year_csv (s : string) : option Z :=
  match
    (if String.prefix "Year_" s then
       match four_digits (drop 5 s) with
       | Some y => if String.prefix ".csv" (drop 9 s) then Some y else None
       | None => None
       end
     else None)
  with
  | Some y => Some y
  | None =>
      match s with
      | EmptyString => None
      | String _ s' => search_year_csv s'
      end
  end.

End Text.

(** ** pandas values *)

Inductive cell : Type :=
| NaN
| Num (n : Z)
| Str (s : string).

Definition cell_eq_dec (a b : cell) : {a = b} + {a <> b}.
Proof. decide equality; [apply Z.eq_dec | apply string_dec]. Defined.

Definition isna (c : cell) : bool :=
  match c with NaN => true | _ => false end.

(** What [pandas.to_numeric] makes of one text: [None] when the text is
    not a number, [Some None] for a not-a-number literal, [Some (Some n)]
    for the number [n]. *)
Class Pandas : Type := { to_numeric_text : string -> option (option Z) }.

(** [pd.to_numeric(series, errors='coerce')], cell by cell. *)
Definition to_numeric_coerce {pd : Pandas} (c : cell) : cell :=
  match c with
  | NaN => NaN
  | Num n => Num n
  | Str s =>
      match to_numeric_text s with
      | Some (Some n) => Num n
      | _ => NaN
      end
  end.

(** [series.fillna(0)], cell by cell. *)
Definition fillna0 (c : cell) : cell :=
  match c with NaN => Num 0 | _ => c end.

(** [series > 0], cell by cell, on a numeric series. *)
Definition gt0 (c : cell) : bool :=
  match c with Num n => 0 <? n | _ => false end.

(** A frame with flat column labels: the labels and the rows, each row
    holding one cell per column. *)
Record DataFrame : Type := { columns : list string; rows : list (list cell) }.

Definition shape0 (df : DataFrame) : nat := List.length (rows df).
Definition shape1 (df : DataFrame) : nat := List.length (columns df).
Definition size (df : DataFrame) : nat := (shape0 df * shape1 df)%nat.

Fixpoint position (label : string) (cols : list string) : option nat :=
  match cols with
  | [] => None
  | c :: cs =>
      if (c =? label)%string then Some O
      else option_map S (position label cs)
  end.

(** The cell of [row] in the [i]-th column. *)
Definition at_column (i : nat) (row : list cell) : cell := nth i row NaN.

(** No label occurs twice. *)
Fixpoint distinct (labels : list string) : bool :=
  match labels with
  | [] => true
  | l :: rest =>
      negb (existsb (fun x => (x =? l)%string) rest) && distinct rest
  end.

(** [df.melt(id_vars, value_vars, ...)] read through the
    column [name_col]: for each melted column in turn, one entry per row,
    holding the name, the melted label and the cell. *)
Definition melt (data_df : DataFrame) (name_col : nat) (value_vars : list string)
  : list (cell * string * cell) :=
  flat_map
    (fun col =>
       match position col (columns data_df) with
       | None => []
       | Some j =>
           map (fun row => (at_column name_col row, col, at_column j row))
             (rows data_df)
       end)
    value_vars.

(** ** Exceptions *)

Inductive exn : Type :=
| TimeoutException
| WebDriverException
| IntegrityError
| OperationalError
| KeyError
| IndexError
| ValueError
| AttributeError
| OSError
| OverflowError
| TypeError.

Inductive outcome (A : Type) : Type :=
| Return (a : A)
| Raise (e : exn).
Arguments Return {A} a.
Arguments Raise {A} e.

Definition raises {A : Type} (o : outcome A) : bool :=
  match o with Return _ => false | Raise _ => true end.

(** A computation in a world [W]: it returns or raises, and leaves a
    world behind in both cases. *)
Definition M (W A : Type) : Type := W -> outcome A * W.

Section Control.
Context {W : Type}.

Definition ret {A : Type} (a : A) : M W A := fun w => (Return a, w).

Definition bind {A B : Type} (m : M W A) (k : A -> M W B) : M W B :=
  fun w =>
    match m w with
    | (Return a, w') => k a w'
    | (Raise e, w') => (Raise e, w')
    end.

Definition raise {A : Type} (e : exn) : M W A := fun w => (Raise e, w).

(** [try: m  except Exception as e: h e] *)
Definition try_except {A : Type} (m : M W A) (h : exn -> M W A) : M W A :=
  fun w =>
    match m w with
    | (Return a, w') => (Return a, w')
    | (Raise e, w') => h e w'
    end.

(** [try: m  finally: f] *)
Definition try_finally {A : Type} (m : M W A) (f : M W unit) : M W A :=
  fun w =>
    let (r, w') := m w in
    match f w' with
    | (Return _, w'') => (r, w'')
    | (Raise e, w'') => (Raise e, w'')
    end.

(** [for x in xs: body x]: an exception of the body leaves the loop. *)
Fixpoint for_each {X : Type} (xs : list X) (body : X -> M W unit) : M W unit :=
  match xs with
  | [] => ret tt
  | x :: rest => bind (body x) (fun _ => for_each rest body)
  end.

End Control.

Declare Scope py_scope.
Delimit Scope py_scope with py.
Notation "x <- m ;; k" := (bind m (fun x => k))
  (at level 100, m at next level, right associativity) : py_scope.
Notation "m ;; k" := (bind m (fun _ => k))
  (at level 100, right associativity) : py_scope.

(** ** The SQLite tables *)

(** An SQLite [INTEGER] is a signed integer of 64 bits. *)
Definition fits_int64 (n : Z) : bool := (- 2 ^ 63 <=? n) && (n <? 2 ^ 63).

(** Whether sqlite3 binds the cell as a parameter of a statement: a
    Python integer outside of the 64 bits makes it raise
    [OverflowError]. *)
Definition bindable (c : cell) : bool :=
  match c with
  | Num n => fits_int64 n
  | _ => true
  end.

(** What a column declared [TEXT] holds for a cell: the [TEXT] affinity
    turns a number into its decimal text. *)
Definition text_affinity (c : cell) : cell :=
  match c with
  | Num n => Str (Text.str_of_int n)
  | _ => c
  end.

Module Annual.

Record row : Type :=
  { Name : cell; DataType : string; Year : Z; Registrations : cell }.

(** [UNIQUE(Name, DataType, Year)], on the values as the columns hold
    them: [Name] is declared [TEXT]. *)
Definition key (r : row) : cell * string * Z :=
  (text_affinity (Name r), DataType r, Year r).

Definition key_eq_dec (a b : cell * string * Z) : {a = b} + {a <> b}.
Proof.
  decide equality; [apply Z.eq_dec | ].
  decide equality; [apply string_dec | apply cell_eq_dec].
Defined.

(** The [NOT NULL] columns a frame can leave empty. *)
Definition not_null (r : row) : bool :=
  negb (isna (Name r)) && negb (isna (Registrations r)).

(** The integers of the row are integers of SQLite. *)
Definition fits (r : row) : bool :=
  bindable (Name r) && fits_int64 (Year r) && bindable (Registrations r).

(** The row as the table holds it. *)
Definition stored (r : row) : row :=
  {| Name := text_affinity (Name r); DataType := DataType r; Year := Year r;
     Registrations := Registrations r |}.

End Annual.

Module Monthly.

Record row : Type :=
  { Name : cell; DataType : string; Year : Z; Month : string;
    MonthlyRegistrations : cell }.

(** [UNIQUE(Name, DataType, Year, Month)], on the values as the columns
    hold them. *)
Definition key (r : row) : cell * string * Z * string :=
  (text_affinity (Name r), DataType r, Year r, Month r).

Definition key_eq_dec (a b : cell * string * Z * string) : {a = b} + {a <> b}.
Proof.
  decide equality; [apply string_dec | apply Annual.key_eq_dec].
Defined.

Definition not_null (r : row) : bool :=
  negb (isna (Name r)) && negb (isna (MonthlyRegistrations r)).

Definition fits (r : row) : bool :=
  bindable (Name r) && fits_int64 (Year r) && bindable (MonthlyRegistrations r).

Definition stored (r : row) : row :=
  {| Name := text_affinity (Name r); DataType := DataType r; Year := Year r;
     Month := Month r; MonthlyRegistrations := MonthlyRegistrations r |}.

End Monthly.

(** The rows of a table, oldest first.  The [id] column is generated by
    SQLite and read by nothing in the code; it is left out.  A name is
    held under the [TEXT] affinity of its column.  The registrations are
    held as the frame has them: they are numbers on every path but the
    calendar-year path of the scraper, where a column that did not
    convert is a column of texts, of which the [INTEGER] affinity of
    SQLite would store those that read as numbers as these numbers. *)
Section Table.
Context {R K : Type}.
Variable key : R -> K.
Variable key_eq_dec : forall a b : K, {a = b} + {a <> b}.
Variable not_null : R -> bool.
Variable fits : R -> bool.
Variable stored : R -> R.

Definition has_key (k : K) (t : list R) : bool :=
  existsb (fun r => if key_eq_dec (key r) k then true else false) t.

(** One [INSERT] of [executemany]: sqlite3 binds the values of the row,
    then SQLite checks the [NOT NULL] columns and the [UNIQUE] index and
    stores the row. *)
Definition insert_row (r : R) (t : list R) : outcome (list R) :=
  if negb (fits r) then Raise OverflowError
  else if negb (not_null r) then Raise IntegrityError
  else if has_key (key r) t then Raise IntegrityError
  else Return (t ++ [stored r]).

Fixpoint executemany (rs : list R) (t : list R) : outcome (list R) :=
  match rs with
  | [] => Return t
  | r :: rest =>
      match insert_row r t with
      | Return t' => executemany rest t'
      | Raise e => Raise e
      end
  end.

(** [df.to_sql(table, conn, if_exists='append', index=False)] on an
    existing table: the rows are inserted in one transaction, which is
    committed when every insert succeeds and rolled back otherwise. *)
Definition to_sql (rs : list R) (t : list R) : outcome unit * list R :=
  match executemany rs t with
  | Return t' => (Return tt, t')
  | Raise e => (Raise e, t)
  end.

(** The rows of [before] go through on the table [t]: their integers
    fit, they have no null, and their keys are pairwise distinct and
    none is in the table. *)
Definition accepted (before t : list R) : Prop :=
  (forall r, In r before -> fits r = true) /\
  (forall r, In r before -> not_null r = true) /\
  NoDup (map key before) /\
  (forall r, In r before -> ~ In (key r) (map key t)).

(** The first row of the batch [rs] that does not go through on the
    table [t] is refused with [e]: [OverflowError] when one of its
    integers does not fit, else [IntegrityError] for a null or for a key
    that is in the table or in an earlier row of the batch. *)
Definition refused_with (rs t : list R) (e : exn) : Prop :=
  exists before r after,
    rs = before ++ r :: after /\ accepted before t /\
    ((e = OverflowError /\ fits r = false) \/
     (e = IntegrityError /\ fits r = true /\
      (not_null r = false \/ In (key r) (map key (t ++ before))))).

End Table.

Record database : Type :=
  { annual_registrations : list Annual.row;
    monthly_registrations : list Monthly.row }.

(** The frame handed to the persistence layer, by the table it is built
    for. *)
Inductive records : Type :=
| annual_records (rs : list Annual.row)
| monthly_records (rs : list Monthly.row).

(** [df.empty] *)
Definition empty (df : records) : bool :=
  match df with
  | annual_records [] | monthly_records [] => true
  | _ => false
  end.

(** [len(df)] *)
Definition len (df : records) : nat :=
  match df with
  | annual_records rs => List.length rs
  | monthly_records rs => List.length rs
  end.

(** [df.to_sql(table_name, conn, if_exists='append', index=False)]
    against the two tables of the schema.  A frame whose columns are not
    those of the table is refused by SQLite; a name that is neither table
    makes pandas create a third table and leaves the two alone. *)
Definition df_to_sql (df : records) (table_name : string) (d : database)
  : outcome unit * database :=
  if (table_name =? "annual_registrations")%string then
    match df with
    | annual_records rs =>
        let (r, t) := to_sql Annual.key Annual.key_eq_dec Annual.not_null
                        Annual.fits Annual.stored
                        rs (annual_registrations d) in
        (r, {| annual_registrations := t;
               monthly_registrations := monthly_registrations d |})
    | monthly_records _ => (Raise OperationalError, d)
    end
  else if (table_name =? "monthly_registrations")%string then
    match df with
    | monthly_records rs =>
        let (r, t) := to_sql Monthly.key Monthly.key_eq_dec Monthly.not_null
                        Monthly.fits Monthly.stored
                        rs (monthly_registrations d) in
        (r, {| annual_registrations := annual_registrations d;
               monthly_registrations := t |})
    | annual_records _ => (Raise OperationalError, d)
    end
  else (Return tt, d).

(** ** Tables as [pandas.read_html] returns them *)

Inductive Index : Type :=
| FlatIndex (labels : list string)
| MultiIndex (labels : list (list string)).

Record table : Type := { header : Index; body : list (list cell) }.

(** [str(col)] for a tuple of texts: [('a', 'b')], and [('a',)] for one. *)
Definition tuple_str (parts : list string) : string :=
  match parts with
  | [p] => String.append "('" (String.append p "',)")
  | _ =>
      String.append "("
        (String.append
           (Text.join ", "
              (map (fun p => String.append "'" (String.append p "'")) parts))
           ")")
  end.

(** [[str(col) for col in df.columns]] *)
Definition column_strs (df : table) : list string :=
  match header df with
  | FlatIndex labels => labels
  | MultiIndex labels => map tuple_str labels
  end.

Definition table_shape0 (df : table) : nat := List.length (body df).
Definition table_shape1 (df : table) : nat := List.length (column_strs df).
Definition table_size (df : table) : nat :=
  (table_shape0 df * table_shape1 df)%nat.

(** ** The browser, the clock and the files *)

Inductive locator : Type :=
| dropdown_trigger (dropdown_parent_id : string)
| checkbox_trigger (dropdown_parent_id : string)
| dropdown_panel (dropdown_parent_id : string)
| checkbox_items_wrapper (dropdown_parent_id : string)
| checkbox_labels (dropdown_parent_id : string)
| dropdown_options (dropdown_parent_id : string)
| option_with_text (dropdown_parent_id opt_val : string)
| filter_button (dropdown_parent_id : string)
| body_tag
| refresh_button
| loading_overlay_blocker
| by_id (id : string).

Inductive condition : Type :=
| element_to_be_clickable (l : locator)
| visibility_of_element_located (l : locator)
| invisibility_of_element_located (l : locator)
| presence_of_element_located (l : locator)
| presence_of_all_elements_located (l : locator).

Class Driver (D : Type) : Type :=
  { (** [WebDriverWait(driver, timeout).until(condition)] *)
    wait_until : Z -> condition -> D -> outcome unit * D;
    (** [element.click()] on the element found at the locator *)
    click : locator -> D -> outcome unit * D;
    (** [driver.execute_script("arguments[0].scrollIntoView(true);", e)] *)
    scroll_into_view : locator -> D -> outcome unit * D;
    (** [[e.text for e in elements]] *)
    element_texts : locator -> D -> outcome (list string) * D;
    (** [pd.read_html(io.StringIO(container.get_attribute('outerHTML')))] *)
    read_html : string -> D -> outcome (list table) * D;
    (** [time.sleep(seconds)] *)
    sleep : Z -> D -> D;
    (** [datetime.now().year] and [datetime.now().strftime(...)] *)
    current_year : D -> Z;
    timestamp : D -> string;
    (** [os.makedirs(path, exist_ok=True)] *)
    makedirs : string -> D -> outcome unit * D;
    (** [open(filepath, "w").write(driver.page_source)] *)
    write_page_source : string -> D -> outcome unit * D;
    (** [sqlite3.connect(path)] on a database file that exists: the file
        is opened as it is, or the call raises *)
    sqlite3_connect : string -> D -> outcome unit }.

(** A printed line: its fixed text and the values formatted into it. *)
Definition message : Type := (string * list string)%type.

(** The world of the scraper: the browser with its surroundings, the
    database file on which [initialize_db] has run, and what was
    printed. *)
Record world (D : Type) : Type :=
  { ext : D; db : database; stdout : list message }.
Arguments ext {D} w.
Arguments db {D} w.
Arguments stdout {D} w.

(** ** The scraper *)

Module Scraper.

Definition DB_FILE : string := "../vahan_data.db".
Definition WAIT_TIMEOUT : Z := 30.
Definition SLEEP_AFTER_ACTION : Z := 3.
Definition single_select_year_dropdown_id : string := "selectedYear".
Definition multi_select_year_dropdown_id : string := "yearList".

(** *** Choice of the data table among the parsed tables *)

Definition s_no_found (df : table) : bool :=
  existsb (fun col => Text.contains "S No" col || Text.contains "S. No" col)
    (column_strs df).

(** The loop over [tables] with the running [best_df]. *)
Fixpoint best_df_from (tables : list table) (best_df : option table)
  : option table :=
  match tables with
  | [] => best_df
  | df :: rest =>
      if s_no_found df && (1 <? table_shape0 df)%nat then Some df
      else if (1 <? table_shape0 df)%nat && (2 <? table_shape1 df)%nat
              && match best_df with
                 | None => true
                 | Some b => (table_size b <? table_size df)%nat
                 end
      then best_df_from rest (Some df)
      else best_df_from rest best_df
  end.

Definition best_df (tables : list table) : option table :=
  best_df_from tables None.

(** *** Header flattening and cleaning of the chosen table *)

Definition flatten_columns (df : table) : list string :=
  match header df with
  | MultiIndex labels => map (fun col => Text.strip (Text.join "_" col)) labels
  | FlatIndex labels => map Text.strip labels
  end.

Definition is_text (c : cell) : bool :=
  match c with Str _ => true | _ => false end.

(** [series.astype(str)] *)
Definition astype_str (c : cell) : string :=
  match c with
  | Str s => s
  | Num n => Text.str_of_int n
  | NaN => "nan"
  end.

(** One column: a column of dtype [object] has its commas and blanks
    removed, and becomes numeric when every text converts
    ([errors='ignore'] leaves it as it is otherwise). *)
Definition clean_column {pd : Pandas} (cs : list cell) : list cell :=
  if existsb is_text cs then
    let texts := map (fun c => Text.strip (Text.remove_all "," (astype_str c))) cs in
    if forallb (fun s => match to_numeric_text s with
                         | Some _ => true
                         | None => false
                         end) texts
    then map (fun s => match to_numeric_text s with
                       | Some (Some n) => Num n
                       | _ => NaN
                       end) texts
    else map Str texts
  else cs.

Definition clean_rows {pd : Pandas} (ncols : nat) (rs : list (list cell))
  : list (list cell) :=
  map (fun i =>
         map (fun j => nth i (clean_column (map (at_column j) rs)) NaN)
           (seq 0 ncols))
    (seq 0 (List.length rs)).

(** The chosen table with flat labels and cleaned columns.  With a
    repeated label [data_df[col]] is a frame, which has no [dtype]. *)
Definition clean {pd : Pandas} (df : table) : outcome DataFrame :=
  let cols := flatten_columns df in
  if distinct cols
  then Return {| columns := cols;
                 rows := clean_rows (List.length cols) (body df) |}
  else Raise AttributeError.

(** *** The frames built for the two tables *)

(** [x_axis_option == 'Calendar Year']: [None] when no column is a year
    column, else the frame to insert. *)
Definition calendar_year_records (data_df : DataFrame) (y_axis_option : string)
  : option (outcome records) :=
  match find (fun col => match Text.match_calendar_year col with
                         | Some _ => true
                         | None => false
                         end) (columns data_df) with
  | None => None
  | Some year_col_name =>
      Some
        (if (shape1 data_df <? 2)%nat then Raise IndexError
         else
           match Text.py_int (Text.last_field "_" year_col_name) with
           | None => Raise ValueError
           | Some year =>
               match position year_col_name (columns data_df) with
               | None => Raise KeyError
               | Some j =>
                   Return
                     (annual_records
                        (map (fun row =>
                                {| Annual.Name := at_column 1 row;
                                   Annual.DataType := y_axis_option;
                                   Annual.Year := year;
                                   Annual.Registrations := at_column j row |})
                           (rows data_df)))
               end
           end)
  end.

(** [x_axis_option == 'Month Wise'] *)
Definition month_wise_records {pd : Pandas} (data_df : DataFrame)
  (y_axis_option : string) (year_val : Z) : option (outcome records) :=
  let month_cols :=
    filter (fun col => Text.contains "Month Wise_" col) (columns data_df) in
  match position "Name" (columns data_df), month_cols with
  | Some name_col, _ :: _ =>
      Some
        (match position "S No_S No" (columns data_df) with
         | None => Raise KeyError
         | Some _ =>
             Return
               (monthly_records
                  (map (fun e =>
                          match e with
                          | (name, month, value) =>
                              {| Monthly.Name := name;
                                 Monthly.DataType := y_axis_option;
                                 Monthly.Year := year_val;
                                 Monthly.Month :=
                                   Text.remove_all "Month Wise_" month;
                                 Monthly.MonthlyRegistrations :=
                                   fillna0 (to_numeric_coerce value) |}
                          end)
                     (melt data_df name_col month_cols)))
         end)
  | _, _ => None
  end.

(** *** Effects *)

Section Effects.
Context {D : Type}.
Local Open Scope py_scope.

Definition drive {A : Type} (f : D -> outcome A * D) : M (world D) A :=
  fun w =>
    let (r, d) := f (ext w) in
    (r, {| ext := d; db := db w; stdout := stdout w |}).

Definition time_sleep {drv : Driver D} (seconds : Z) : M (world D) unit :=
  fun w =>
    (Return tt,
     {| ext := sleep seconds (ext w); db := db w; stdout := stdout w |}).

Definition datetime_now {A : Type} (f : D -> A) : M (world D) A :=
  fun w => (Return (f (ext w)), w).

Definition print (text : string) (values : list string) : M (world D) unit :=
  fun w =>
    (Return tt,
     {| ext := ext w; db := db w; stdout := stdout w ++ [(text, values)] |}).

Definition on_database {A : Type} (f : database -> outcome A * database)
  : M (world D) A :=
  fun w =>
    let (r, d) := f (db w) in
    (r, {| ext := ext w; db := d; stdout := stdout w |}).

(** A value computed by pandas or Python that may raise. *)
Definition evaluate {A : Type} (o : outcome A) : M (world D) A :=
  fun w => (o, w).

(** *** Database functions *)

(** [conn = sqlite3.connect(DB_FILE)] *)
Definition connect {drv : Driver D} : M (world D) unit :=
  fun w => (sqlite3_connect DB_FILE (ext w), w).

(** [CREATE TABLE IF NOT EXISTS] on both tables: the rows already in the
    file stay. *)
Definition initialize_db {drv : Driver D} : M (world D) unit :=
  connect ;;
  on_database (fun d => (Return tt, d)) ;;
  print "Database initialized successfully." [].

(** Every caller passes [if_exists='append'].  The connection is opened
    before the [try]: an exception of [sqlite3.connect] leaves the
    function. *)
Definition insert_data_into_db {drv : Driver D} (df : records)
  (table_name : string) : M (world D) unit :=
  if empty df then print "No data to insert into" [table_name]
  else
    connect ;;
    try_finally
      (try_except
         (on_database (df_to_sql df table_name) ;;
          print "Successfully inserted rows into"
            [Text.str_of_int (Z.of_nat (len df)); table_name])
         (fun e =>
            match e with
            | IntegrityError =>
                print "Integrity error inserting data. Likely duplicate key."
                  [table_name] ;;
                print "Attempting to update existing records if supported, or skipping duplicates." []
            | _ => print "Error inserting data into" [table_name]
            end))
      (* conn.close() *)
      (ret tt).

(** *** Browser functions *)

Section Browser.
Context {drv : Driver D} {pd : Pandas}.

Definition HTML_BACKUP_DIR : string := "html_backups".

Definition save_html_backup (filename : string) : M (world D) unit :=
  drive (makedirs HTML_BACKUP_DIR) ;;
  try_except
    (drive (write_page_source filename) ;;
     print "HTML backup saved" [filename])
    (fun _ => print "Error saving HTML backup" []).

(** [[t.strip() for t in texts if t.strip()]] *)
Definition stripped_texts (texts : list string) : list string :=
  filter (fun t => negb (t =? "")%string) (map Text.strip texts).

Definition get_dropdown_options (dropdown_parent_id dropdown_name : string)
  : M (world D) (list string) :=
  try_except
    (drive (wait_until WAIT_TIMEOUT
              (element_to_be_clickable (dropdown_trigger dropdown_parent_id))) ;;
     drive (click (dropdown_trigger dropdown_parent_id)) ;;
     time_sleep SLEEP_AFTER_ACTION ;;
     drive (wait_until WAIT_TIMEOUT
              (visibility_of_element_located (dropdown_panel dropdown_parent_id))) ;;
     option_texts <-
       (if (dropdown_parent_id =? multi_select_year_dropdown_id)%string then
          drive (wait_until WAIT_TIMEOUT
                   (presence_of_element_located
                      (checkbox_items_wrapper dropdown_parent_id))) ;;
          drive (wait_until WAIT_TIMEOUT
                   (presence_of_all_elements_located
                      (checkbox_labels dropdown_parent_id))) ;;
          texts <- drive (element_texts (checkbox_labels dropdown_parent_id)) ;;
          ret (stripped_texts texts)
        else
          drive (wait_until WAIT_TIMEOUT
                   (presence_of_all_elements_located
                      (dropdown_options dropdown_parent_id))) ;;
          texts <- drive (element_texts (dropdown_options dropdown_parent_id)) ;;
          ret (stripped_texts texts)) ;;
     print "Found options" (dropdown_name :: option_texts) ;;
     (if negb (dropdown_parent_id =? multi_select_year_dropdown_id)%string then
        drive (click (dropdown_trigger dropdown_parent_id)) ;;
        try_except
          (drive (wait_until WAIT_TIMEOUT
                    (invisibility_of_element_located
                       (dropdown_panel dropdown_parent_id))) ;;
           time_sleep SLEEP_AFTER_ACTION)
          (fun _ =>
             print "Warning: Panel invisibility check failed" [dropdown_name] ;;
             drive (click body_tag) ;;
             time_sleep SLEEP_AFTER_ACTION)
      else ret tt) ;;
     ret option_texts)
    (fun _ => print "Error extracting options" [dropdown_name] ;; ret []).

(** [option_text] is one text at every call, so [options_to_select] is
    the one-element list. *)
Definition select_dropdown_option
  (dropdown_parent_id option_text dropdown_name : string) : M (world D) bool :=
  try_except
    (print "Selecting" [option_text; dropdown_name; dropdown_parent_id] ;;
     drive (wait_until WAIT_TIMEOUT
              (element_to_be_clickable (dropdown_trigger dropdown_parent_id))) ;;
     drive (click (dropdown_trigger dropdown_parent_id)) ;;
     time_sleep SLEEP_AFTER_ACTION ;;
     drive (wait_until WAIT_TIMEOUT
              (visibility_of_element_located (dropdown_panel dropdown_parent_id))) ;;
     for_each [option_text]
       (fun opt_val =>
          drive (wait_until WAIT_TIMEOUT
                   (visibility_of_element_located
                      (dropdown_panel dropdown_parent_id))) ;;
          drive (wait_until WAIT_TIMEOUT
                   (element_to_be_clickable
                      (option_with_text dropdown_parent_id opt_val))) ;;
          drive (scroll_into_view (option_with_text dropdown_parent_id opt_val)) ;;
          drive (click (option_with_text dropdown_parent_id opt_val)) ;;
          time_sleep 1) ;;
     (if (dropdown_parent_id =? multi_select_year_dropdown_id)%string then
        try_except
          (drive (wait_until 5
                    (element_to_be_clickable (filter_button dropdown_parent_id))) ;;
           drive (click (filter_button dropdown_parent_id)) ;;
           print "Filter button clicked." [])
          (fun _ =>
             print "No Filter button found, clicking trigger to close panel." [] ;;
             drive (click (dropdown_trigger dropdown_parent_id)))
      else ret tt) ;;
     try_except
       (drive (wait_until WAIT_TIMEOUT
                 (invisibility_of_element_located
                    (dropdown_panel dropdown_parent_id))) ;;
        time_sleep SLEEP_AFTER_ACTION)
       (fun _ =>
          print "Warning: Panel invisibility check failed" [dropdown_name] ;;
          drive (click body_tag) ;;
          time_sleep SLEEP_AFTER_ACTION) ;;
     print "Successfully selected" [option_text; dropdown_name] ;;
     ret true)
    (fun _ =>
       print "Error while selecting" [option_text; dropdown_name] ;;
       ret false).

Definition empty_frame : DataFrame := {| columns := []; rows := [] |}.

(** The container id is one of two non-empty texts, so the test
    [if not main_table_container_id] never holds once it is found. *)
Definition scrape_table_data_to_db (y_axis_option x_axis_option : string)
  (year_val : Z) : M (world D) DataFrame :=
  let combination :=
    [y_axis_option; x_axis_option; Text.str_of_int year_val] in
  try_except
    (drive (wait_until WAIT_TIMEOUT
              (invisibility_of_element_located loading_overlay_blocker)) ;;
     print "Loading overlay disappeared." [] ;;
     time_sleep 1 ;;
     main_table_container_id <-
       try_except
         (drive (wait_until 5 (presence_of_element_located (by_id "groupingTable"))) ;;
          ret (Some "groupingTable"))
         (fun _ =>
            try_except
              (drive (wait_until 5
                        (presence_of_element_located (by_id "vchgroupTable"))) ;;
               ret (Some "vchgroupTable"))
              (fun _ =>
                 print "Error: Neither 'groupingTable' nor 'vchgroupTable' found." [] ;;
                 ret None)) ;;
     match main_table_container_id with
     | None => ret empty_frame
     | Some id =>
         drive (wait_until WAIT_TIMEOUT
                  (visibility_of_element_located (by_id id))) ;;
         tables <- drive (read_html id) ;;
         match tables with
         | [] =>
             print "No tables found at all" (id :: combination) ;;
             ret empty_frame
         | _ :: _ =>
             match best_df tables with
             | None =>
                 print "No usable data table found after parsing HTML" combination ;;
                 ret empty_frame
             | Some best =>
                 data_df <- evaluate (clean best) ;;
                 (if (x_axis_option =? "Calendar Year")%string then
                    match calendar_year_records data_df y_axis_option with
                    | Some built =>
                        df_to_insert <- evaluate built ;;
                        insert_data_into_db df_to_insert "annual_registrations"
                    | None =>
                        print "Warning: Could not find Calendar Year column" combination
                    end
                  else if (x_axis_option =? "Month Wise")%string then
                    match month_wise_records data_df y_axis_option year_val with
                    | Some built =>
                        df_to_insert <- evaluate built ;;
                        insert_data_into_db df_to_insert "monthly_registrations"
                    | None =>
                        print "Warning: Could not find Name or Month Wise columns" combination
                    end
                  else ret tt) ;;
                 print "Data saved to DB" combination ;;
                 ret data_df
             end
         end
     end)
    (fun _ => print "Error scraping data table" combination ;; ret empty_frame).

(** [int(year_to_scrape)] *)
Definition int_of (text : string) : M (world D) Z :=
  evaluate (match Text.py_int text with
            | Some n => Return n
            | None => Raise ValueError
            end).

Definition backup_name (y_axis_option x_axis_option year_to_scrape stamp : string)
  : string :=
  Text.join ""
    ["Y_"; y_axis_option; "_X_"; x_axis_option; "_Year_"; year_to_scrape; "_";
     stamp; ".html"].

(** Click Refresh and wait for the reload; [false] is the early exit of
    the [except] branch. *)
Definition refresh : M (world D) bool :=
  try_except
    (drive (wait_until WAIT_TIMEOUT (element_to_be_clickable refresh_button)) ;;
     drive (click refresh_button) ;;
     drive (wait_until WAIT_TIMEOUT
              (invisibility_of_element_located loading_overlay_blocker)) ;;
     time_sleep SLEEP_AFTER_ACTION ;;
     print "Refresh button clicked and page reloaded." [] ;;
     ret true)
    (fun _ =>
       print "Error clicking Refresh button or waiting for page reload. Skipping to next year." [] ;;
       ret false).

Definition select_and_unselect_year
  (year_to_scrape y_axis_option x_axis_option active_year_dropdown_id : string)
  : M (world D) unit :=
  try_finally
    (try_except
       (selected <- select_dropdown_option active_year_dropdown_id
                      year_to_scrape "Year" ;;
        if negb selected then ret tt
        else
          print "Processing combination"
            [y_axis_option; x_axis_option; year_to_scrape] ;;
          refreshed <- refresh ;;
          if negb refreshed then ret tt
          else
            stamp <- datetime_now timestamp ;;
            save_html_backup
              (backup_name y_axis_option x_axis_option year_to_scrape stamp) ;;
            year_val <- int_of year_to_scrape ;;
            scrape_table_data_to_db y_axis_option x_axis_option year_val ;;
            ret tt)
       (fun _ =>
          print "An error occurred while processing year" [year_to_scrape]))
    (if (active_year_dropdown_id =? multi_select_year_dropdown_id)%string then
       try_except
         (print "Unselecting year" [year_to_scrape] ;;
          drive (wait_until WAIT_TIMEOUT
                   (element_to_be_clickable
                      (checkbox_trigger active_year_dropdown_id))) ;;
          drive (click (checkbox_trigger active_year_dropdown_id)) ;;
          time_sleep SLEEP_AFTER_ACTION ;;
          drive (wait_until WAIT_TIMEOUT
                   (element_to_be_clickable
                      (option_with_text active_year_dropdown_id year_to_scrape))) ;;
          drive (click (option_with_text active_year_dropdown_id year_to_scrape)) ;;
          time_sleep SLEEP_AFTER_ACTION ;;
          drive (click (checkbox_trigger active_year_dropdown_id)) ;;
          print "Successfully unselected year" [year_to_scrape])
         (fun _ => print "Error unselecting year" [year_to_scrape])
     else ret tt).

(** [[str(y) for y in range(2016, datetime.now().year + 1)]] *)
Definition target_years (this_year : Z) : list string :=
  map (fun k => Text.str_of_int (2016 + Z.of_nat k))
    (seq 0 (Z.to_nat (this_year + 1 - 2016))).

Definition relevant_year_options (fetched_year_options : list string)
  (this_year : Z) : list string :=
  filter (fun opt => existsb (fun t => (t =? opt)%string) (target_years this_year))
    fetched_year_options.

(** The body of the loop of [handle_year_selection_month_wise]; each
    [continue] ends the body. *)
Definition month_wise_year (x_axis_option y_axis_option year_to_scrape : string)
  : M (world D) unit :=
  selected <- select_dropdown_option single_select_year_dropdown_id
                year_to_scrape "Year" ;;
  if negb selected then ret tt
  else
    print "Processing combination" [y_axis_option; x_axis_option; year_to_scrape] ;;
    refreshed <- refresh ;;
    if negb refreshed then ret tt
    else
      stamp <- datetime_now timestamp ;;
      save_html_backup
        (backup_name y_axis_option x_axis_option year_to_scrape stamp) ;;
      year_val <- int_of year_to_scrape ;;
      scrape_table_data_to_db y_axis_option x_axis_option year_val ;;
      ret tt.

Definition handle_year_selection_month_wise (x_axis_option y_axis_option : string)
  : M (world D) unit :=
  let active_year_dropdown_id := single_select_year_dropdown_id in
  print "Detected single-select Year dropdown" [active_year_dropdown_id] ;;
  fetched_year_options <- get_dropdown_options active_year_dropdown_id "Year" ;;
  match fetched_year_options with
  | [] => print "No year options available. Skipping year iteration." []
  | _ :: _ =>
      this_year <- datetime_now current_year ;;
      match relevant_year_options fetched_year_options this_year with
      | [] => print "No relevant years found to scrape. Skipping." []
      | years =>
          for_each years (month_wise_year x_axis_option y_axis_option)
      end
  end.

(** The body of the loop of [handle_year_selection_calendar]. *)
Definition calendar_year (x_axis_option y_axis_option year_to_scrape : string)
  : M (world D) unit :=
  select_and_unselect_year year_to_scrape y_axis_option x_axis_option
    multi_select_year_dropdown_id ;;
  try_except
    (drive (wait_until 5
              (invisibility_of_element_located
                 (dropdown_panel multi_select_year_dropdown_id))))
    (fun _ => ret tt).

Definition handle_year_selection_calendar (x_axis_option y_axis_option : string)
  : M (world D) unit :=
  let active_year_dropdown_id := multi_select_year_dropdown_id in
  print "Detected multi-select Year dropdown" [active_year_dropdown_id] ;;
  fetched_year_options <- get_dropdown_options active_year_dropdown_id "Year" ;;
  match fetched_year_options with
  | [] => print "No year options available. Skipping year iteration." []
  | _ :: _ =>
      this_year <- datetime_now current_year ;;
      match relevant_year_options fetched_year_options this_year with
      | [] => print "No relevant years found to scrape. Skipping." []
      | years =>
          for_each years (calendar_year x_axis_option y_axis_option)
      end
  end.

Definition y_axis_dropdown_id : string := "yaxisVar".
Definition x_axis_dropdown_id : string := "xaxisVar".
Definition target_y_axis_options : list string := ["Vehicle Category"; "Maker"].
Definition target_x_axis_options : list string := ["Month Wise"; "Calendar Year"].

(** [opt in options] *)
Definition among (opt : string) (options : list string) : bool :=
  existsb (fun o => (o =? opt)%string) options.

(** The body of the inner loop of [main]. *)
Definition main_x_axis (y_axis_option x_axis_option : string)
  : M (world D) unit :=
  selected <- select_dropdown_option x_axis_dropdown_id x_axis_option "X-Axis" ;;
  if negb selected then ret tt
  else if (x_axis_option =? "Calendar Year")%string then
    handle_year_selection_calendar x_axis_option y_axis_option
  else if (x_axis_option =? "Month Wise")%string then
    handle_year_selection_month_wise x_axis_option y_axis_option
  else print "Skipping direct scrape, expected to be handled by year iterators."
         [x_axis_option].

(** The body of the outer loop of [main]. *)
Definition main_y_axis (y_axis_options_available : list string)
  (y_axis_option : string) : M (world D) unit :=
  if negb (among y_axis_option y_axis_options_available) then
    print "Y-Axis option not available. Skipping." [y_axis_option]
  else
    selected <- select_dropdown_option y_axis_dropdown_id y_axis_option "Y-Axis" ;;
    if negb selected then ret tt
    else
      fetched_x_axis_options <- get_dropdown_options x_axis_dropdown_id "X-Axis" ;;
      match filter (fun opt => among opt target_x_axis_options)
              fetched_x_axis_options with
      | [] => print "No relevant X-Axis options found. Skipping." [y_axis_option]
      | relevant_x_axis_options =>
          for_each relevant_x_axis_options (main_x_axis y_axis_option)
      end.

(** The sweep of [main]: from the reading of the Y-axis options to the
    end of the two loops. *)
Definition main_sweep : M (world D) unit :=
  y_axis_options_available <- get_dropdown_options y_axis_dropdown_id "Y-Axis" ;;
  match y_axis_options_available with
  | [] => print "Failed to retrieve Y-Axis options. Script exiting." []
  | _ :: _ =>
      for_each target_y_axis_options (main_y_axis y_axis_options_available)
  end.

End Browser.

End Effects.

End Scraper.

(** ** The migration of the CSV files *)

Module Migrate.

(** An entry of [os.listdir(DATA_DIR)]: its name and what
    [pd.read_csv] makes of it. *)
Record csv_file : Type := { file : string; read_csv : outcome DataFrame }.

(** [DROP TABLE IF EXISTS] then [CREATE TABLE] on both tables. *)
Definition initialize_db (d : database) : database :=
  {| annual_registrations := []; monthly_registrations := [] |}.

Definition df_type (file : string) : string :=
  if Text.contains "Y_Vehicle_Category_" file then "Vehicle Category"
  else "Manufacturer".

(** [df.rename(columns={col: 'Name' for col in df.columns if ... in col})] *)
Definition rename_name (df_type : string) (cols : list string) : list string :=
  if (df_type =? "Manufacturer")%string then
    map (fun col => if Text.contains "Maker_Maker" col then "Name" else col) cols
  else if (df_type =? "Vehicle Category")%string then
    map (fun col =>
           if Text.contains "Vehicle Category_Vehicle Category" col then "Name"
           else col) cols
  else cols.

Definition is_year_col (col : string) : bool :=
  match Text.match_calendar_year col with Some _ => true | None => false end.

(** [dropna(subset=['Name', value])] then [df[df[value] > 0]] *)
Definition kept (name value : cell) : bool :=
  negb (isna name) && negb (isna value) && gt0 value.

(** [.str.extract(r'(\d{4})').astype(int)] on one label. *)
Definition extract_year (label : string) : outcome Z :=
  match Text.search_four_digits label with
  | Some y => Return y
  | None => Raise ValueError
  end.

Fixpoint annual_rows {pd : Pandas} (df_type : string)
  (melted : list (cell * string * cell)) : outcome (list Annual.row) :=
  match melted with
  | [] => Return []
  | (name, year_column, value) :: rest =>
      match extract_year year_column with
      | Raise e => Raise e
      | Return year =>
          match annual_rows df_type rest with
          | Raise e => Raise e
          | Return rs =>
              Return ({| Annual.Name := name;
                         Annual.DataType := df_type;
                         Annual.Year := year;
                         Annual.Registrations :=
                           fillna0 (to_numeric_coerce value) |} :: rs)
          end
      end
  end.

(** The frame built from one calendar-year file: [None] when the file
    is skipped with a warning.  With two [Name] columns [melt] fails on
    the second. *)
Definition annual_frame {pd : Pandas} (file : string) (df : DataFrame)
  : option (outcome (list Annual.row)) :=
  let df_type := df_type file in
  let cols := rename_name df_type (columns df) in
  let year_cols := filter is_year_col cols in
  match position "Name" cols, year_cols with
  | Some name_col, _ :: _ =>
      Some
        (if negb (distinct cols) then Raise KeyError
         else
           match annual_rows df_type
                   (melt {| columns := cols; rows := rows df |} name_col year_cols)
           with
           | Raise e => Raise e
           | Return rs =>
               Return
                 (filter (fun r => kept (Annual.Name r) (Annual.Registrations r))
                    rs)
           end)
  | _, _ => None
  end.

(** The frame built from one month-wise file whose name gives [year]. *)
Definition monthly_frame {pd : Pandas} (file : string) (year : Z) (df : DataFrame)
  : option (outcome (list Monthly.row)) :=
  let df_type := df_type file in
  let cols := rename_name df_type (columns df) in
  let month_cols := filter (fun col => Text.contains "Month Wise_" col) cols in
  match position "Name" cols, month_cols with
  | Some name_col, _ :: _ =>
      Some
        (if negb (distinct cols) then Raise KeyError
         else
           Return
             (filter
                (fun r => kept (Monthly.Name r) (Monthly.MonthlyRegistrations r))
                (map (fun e =>
                        match e with
                        | (name, month, value) =>
                            {| Monthly.Name := name;
                               Monthly.DataType := df_type;
                               Monthly.Year := year;
                               Monthly.Month := Text.remove_all "Month Wise_" month;
                               Monthly.MonthlyRegistrations :=
                                 fillna0 (to_numeric_coerce value) |}
                        end)
                   (melt {| columns := cols; rows := rows df |} name_col
                      month_cols))))
  | _, _ => None
  end.

(** One turn of the first loop; the [except] branch prints and goes on.
    [method='multi'] sends the frame in one statement inside the same
    transaction: the frame is taken whole or the table stays as it is.
    That SQLite also refuses a statement with more values than it binds
    at once is left out. *)
Definition migrate_annual {pd : Pandas} (d : database) (f : csv_file) : database :=
  match read_csv f with
  | Raise _ => d
  | Return df =>
      match annual_frame (file f) df with
      | Some (Return (r :: rs)) =>
          snd (df_to_sql (annual_records (r :: rs)) "annual_registrations" d)
      | _ => d
      end
  end.

(** One turn of the second loop. *)
Definition migrate_monthly {pd : Pandas} (d : database) (f : csv_file) : database :=
  match read_csv f with
  | Raise _ => d
  | Return df =>
      match Text.search_year_csv (file f) with
      | None => d
      | Some year =>
          match monthly_frame (file f) year df with
          | Some (Return (r :: rs)) =>
              snd (df_to_sql (monthly_records (r :: rs))
                     "monthly_registrations" d)
          | _ => d
          end
      end
  end.

Definition is_calendar_year_file (f : csv_file) : bool :=
  Text.startswith (file f) "Y_"
  && Text.contains "X_Calendar_Year_Year_" (file f)
  && Text.endswith (file f) ".csv".

Definition is_month_wise_file (f : csv_file) : bool :=
  Text.startswith (file f) "Y_"
  && Text.contains "X_Month_Wise_Year_" (file f)
  && Text.endswith (file f) ".csv".

(** [data_dir] is [None] when [DATA_DIR] does not exist, else its
    listing.  What is printed is left out. *)
Definition migrate_csvs {pd : Pandas} (data_dir : option (list csv_file))
  (d : database) : database :=
  match data_dir with
  | None => d
  | Some listing =>
      let d0 := initialize_db d in
      let d1 :=
        fold_left migrate_annual (filter is_calendar_year_file listing) d0 in
      fold_left migrate_monthly (filter is_month_wise_file listing) d1
  end.

(** The script: the data directory is created when it is missing, and
    [migrate_csvs] runs. *)
Definition main {pd : Pandas} (data_dir : option (list csv_file))
  (d : database) : database :=
  match data_dir with
  | None => migrate_csvs (Some []) d
  | Some listing => migrate_csvs (Some listing) d
  end.

End Migrate.

(** ** The growth computation of the dashboard *)

Module App.
Import PrimFloat FloatOps SpecFloat.

(** The registrations are a column of [int64], the growth a column of
    [float64]: the doubles are the binary64 numbers of the kernel. *)

(** The sum of two [int64] wraps around. *)
Definition wrap64 (n : Z) : Z := (n + 2 ^ 63) mod 2 ^ 64 - 2 ^ 63.

Definition add_int64 (a b : Z) : Z := wrap64 (a + b).

(** An [int64] as a [float64]: the nearest double, a tie going to the
    even one. *)
Definition of_int64 (n : Z) : float :=
  SF2Prim (binary_normalize prec emax n 0 false).

(** [numpy.rint]: the nearest integer, a tie going to the even one.  A
    double of magnitude [2 ** 52] or more is an integer; below, adding
    and subtracting [2 ** 52] rounds the magnitude. *)
Definition rint (x : float) : float :=
  let a := abs x in
  if (a <? 0x1p52)%float then
    let r := (a + 0x1p52 - 0x1p52)%float in
    if get_sign x then (- r)%float else r
  else x.

(** [series.round(2)] on a column of [float64]: numpy multiplies by
    [10 ** 2], rounds to the nearest integer and divides by
    [10 ** 2]. *)
Definition round2 (x : float) : float := (rint (x * 100) / 100)%float.

(** [((cur - prev) / prev) * 100] on the two columns. *)
Definition percent_change (cur prev : Z) : float :=
  ((of_int64 cur - of_int64 prev) / of_int64 prev * 100)%float.

(** The quotient is infinite: registrations after a period with none. *)
Definition infinite (cur : Z) (prev : option Z) : bool :=
  match prev with
  | Some p => (p =? 0) && negb (cur =? 0)
  | None => false
  end.

(** The growth of a row in a column without infinite quotient, after
    [round(2)].  [None] is a missing value: there is no previous row, or
    the value and the previous value are zero and the quotient is not a
    number. *)
Definition growth_of (cur : Z) (prev : option Z) : option float :=
  match prev with
  | None => None
  | Some p =>
      if p =? 0 then None
      else Some (round2 (percent_change cur p))
  end.

Section Growth.
(** The period: a year, or a year and a quarter. *)
Context {P : Type}.
Variable compare_period : P -> P -> comparison.

(** A row of the input: the grouping column ([MappedName], else
    [Name]), the period and the registrations. *)
Record entry : Type := { group : string; period : P; value : Z }.

Record growth_row : Type :=
  { row : entry; previous : option Z; growth : option float }.

Definition compare_key (a b : entry) : comparison :=
  match String.compare (group a) (group b) with
  | Eq => compare_period (period a) (period b)
  | c => c
  end.

(** The sum of a group starts at zero. *)
Definition new_group (e : entry) : entry :=
  {| group := group e; period := period e; value := add_int64 0 (value e) |}.

Fixpoint add_to_groups (e : entry) (groups : list entry) : list entry :=
  match groups with
  | [] => [new_group e]
  | g :: rest =>
      match compare_key e g with
      | Lt => new_group e :: groups
      | Eq =>
          {| group := group g; period := period g;
             value := add_int64 (value g) (value e) |}
          :: rest
      | Gt => g :: add_to_groups e rest
      end
  end.

(** [df.groupby([group_col, period])[value].sum().reset_index()]: one
    row per key, the keys in increasing order, each with the [int64]
    sum of its rows. *)
Definition groupby_sum (df : list entry) : list entry :=
  fold_left (fun groups e => add_to_groups e groups) df [].

Fixpoint insert_by_key (e : entry) (sorted : list entry) : list entry :=
  match sorted with
  | [] => [e]
  | x :: rest =>
      match compare_key e x with
      | Gt => x :: insert_by_key e rest
      | _ => e :: sorted
      end
  end.

(** [df.sort_values(by=[group_col, period])] *)
Definition sort_values (df : list entry) : list entry :=
  fold_right insert_by_key [] df.

Fixpoint last_of (g : string) (seen : list (string * Z)) : option Z :=
  match seen with
  | [] => None
  | (g', v) :: rest => if (g' =? g)%string then Some v else last_of g rest
  end.

(** [df.groupby([group_col])[value].shift(1)]: beside each row, the
    value of the row before it in the same group. *)
Fixpoint shift1 (seen : list (string * Z)) (df : list entry)
  : list (entry * option Z) :=
  match df with
  | [] => []
  | e :: rest =>
      (e, last_of (group e) seen) :: shift1 ((group e, value e) :: seen) rest
  end.

(** The quotients, then [.replace([inf, -inf], pd.NA).round(2)].  On a
    column that holds an infinite quotient [replace] gives a column of
    objects, on which [round] raises [TypeError] (pandas 2.0 and 2.3;
    pandas 2.2 hands the column back as it is); a column without one
    stays a column of [float64] and is rounded. *)
Definition calculate_growth (df : list entry) : outcome (list growth_row) :=
  let shifted := shift1 [] (sort_values (groupby_sum df)) in
  if existsb (fun ep => infinite (value (fst ep)) (snd ep)) shifted
  then Raise TypeError
  else
    Return
      (map (fun ep =>
              {| row := fst ep; previous := snd ep;
                 growth := growth_of (value (fst ep)) (snd ep) |})
         shifted).

End Growth.

Arguments entry P : clear implicits.
Arguments growth_row P : clear implicits.

(** [calculate_yoy_growth]: the period is the year. *)
Definition calculate_yoy_growth (df_annual : list (entry Z))
  : outcome (list (growth_row Z)) :=
  calculate_growth Z.compare df_annual.

(** A row of [monthly_registrations] as loaded: the month is that of
    its [Date]. *)
Record monthly : Type :=
  { MappedName : string; Year : Z; month_of_date : Z; MonthlyRegistrations : Z }.

(** [Date.dt.quarter] *)
Definition quarter (m : monthly) : Z := (month_of_date m - 1) / 3 + 1.

Definition compare_quarter (a b : Z * Z) : comparison :=
  match Z.compare (fst a) (fst b) with
  | Eq => Z.compare (snd a) (snd b)
  | c => c
  end.

(** [calculate_qoq_growth]: the period is the year and the quarter. *)
Definition calculate_qoq_growth (df_monthly : list monthly)
  : outcome (list (growth_row (Z * Z))) :=
  calculate_growth compare_quarter
    (map (fun m =>
            {| group := MappedName m; period := (Year m, quarter m);
               value := MonthlyRegistrations m |})
       df_monthly).

End App.

(** ** Reachable states of the database file *)

(** What the two programs do to the file, one call at a time. *)
Inductive operation : Type :=
| scraper_initialize_db
| scraper_insert_data_into_db (df : records) (table_name : string)
| migrate_initialize_db
| migrate_annual_file (f : Migrate.csv_file)
| migrate_monthly_file (f : Migrate.csv_file)
| migrate_csvs_run (data_dir : option (list Migrate.csv_file)).

(** A page on which every wait and click succeeds and whose container
    holds the given tables. *)
Definition still_page (tables : list table) : Driver unit :=
  {| wait_until := fun _ _ d => (Return tt, d);
     click := fun _ d => (Return tt, d);
     scroll_into_view := fun _ d => (Return tt, d);
     element_texts := fun _ d => (Return ["2022"; "2023"], d);
     read_html := fun _ d => (Return tables, d);
     sleep := fun _ d => d;
     current_year := fun _ => 2023;
     timestamp := fun _ => "20230101_000000";
     makedirs := fun _ d => (Return tt, d);
     write_page_source := fun _ d => (Return tt, d);
     sqlite3_connect := fun _ _ => Return tt |}.

Definition quiet_world (d : database) : world unit :=
  {| ext := tt; db := d; stdout := [] |}.

(** The database after [insert_data_into_db(df, table_name)], on a
    file that opens. *)
Definition persist (df : records) (table_name : string) (d : database)
  : database :=
  db (snd (Scraper.insert_data_into_db (drv := still_page []) df table_name
             (quiet_world d))).

Definition perform {pd : Pandas} (op : operation) (d : database) : database :=
  match op with
  | scraper_initialize_db =>
      db (snd (Scraper.initialize_db (drv := still_page []) (quiet_world d)))
  | scraper_insert_data_into_db df table_name => persist df table_name d
  | migrate_initialize_db => Migrate.initialize_db d
  | migrate_annual_file f => Migrate.migrate_annual d f
  | migrate_monthly_file f => Migrate.migrate_monthly d f
  | migrate_csvs_run data_dir => Migrate.migrate_csvs data_dir d
  end.

(** The file starts with the two empty tables that the first
    [initialize_db] creates. *)
Inductive reachable {pd : Pandas} : database -> Prop :=
| reachable_new :
    reachable {| annual_registrations := []; monthly_registrations := [] |}
| reachable_step :
    forall d op, reachable d -> reachable (perform op d).

(** ** Vocabulary of the statements *)

(** What [insert_data_into_db] prints. *)
Definition integrity_lines (table_name : string) : list message :=
  [("Integrity error inserting data. Likely duplicate key.", [table_name]);
   ("Attempting to update existing records if supported, or skipping duplicates.",
    [])].

(** What its handlers print for an exception of [to_sql]. *)
Definition handler_lines (e : exn) (table_name : string) : list message :=
  match e with
  | IntegrityError => integrity_lines table_name
  | _ => [("Error inserting data into", [table_name])]
  end.

Definition insert_lines (df : records) (table_name : string) (d : database)
  : list message :=
  if empty df then [("No data to insert into", [table_name])]
  else
    match fst (df_to_sql df table_name d) with
    | Return _ =>
        [("Successfully inserted rows into",
          [Text.str_of_int (Z.of_nat (len df)); table_name])]
    | Raise e => handler_lines e table_name
    end.

(** The connection that the call needs: none for an empty frame. *)
Definition connection {D : Type} {drv : Driver D} (df : records) (w : world D)
  : outcome unit :=
  if empty df then Return tt else sqlite3_connect Scraper.DB_FILE (ext w).

(** The integers of every row of the frame are integers of SQLite. *)
Definition all_fit (df : records) : Prop :=
  match df with
  | annual_records rs => forall r, In r rs -> Annual.fits r = true
  | monthly_records rs => forall r, In r rs -> Monthly.fits r = true
  end.

(** The first row of the frame that its table does not take is refused
    with [e]. *)
Definition refuses (df : records) (table_name : string) (d : database)
  (e : exn) : Prop :=
  match df with
  | annual_records rs =>
      table_name = "annual_registrations" /\
      refused_with Annual.key Annual.not_null Annual.fits rs
        (annual_registrations d) e
  | monthly_records rs =>
      table_name = "monthly_registrations" /\
      refused_with Monthly.key Monthly.not_null Monthly.fits rs
        (monthly_registrations d) e
  end.

(** A row of the frame has a key that is already in the table it is
    inserted into. *)
Definition conflicts (df : records) (table_name : string) (d : database) : Prop :=
  match df with
  | annual_records rs =>
      table_name = "annual_registrations" /\
      exists r, In r rs /\
                In (Annual.key r) (map Annual.key (annual_registrations d))
  | monthly_records rs =>
      table_name = "monthly_registrations" /\
      exists r, In r rs /\
                In (Monthly.key r) (map Monthly.key (monthly_registrations d))
  end.

(** No two rows of a table have the same natural key. *)
Definition unique_keys (d : database) : Prop :=
  NoDup (map Annual.key (annual_registrations d)) /\
  NoDup (map Monthly.key (monthly_registrations d)).

(** The rows of a table that are stored under a key. *)
Definition annual_under (k : cell * string * Z) (t : list Annual.row)
  : list Annual.row :=
  filter (fun x => if Annual.key_eq_dec (Annual.key x) k then true else false) t.

Definition monthly_under (k : cell * string * Z * string) (t : list Monthly.row)
  : list Monthly.row :=
  filter (fun x => if Monthly.key_eq_dec (Monthly.key x) k then true else false)
    t.

(** Replace-by-key, for two batches written to an empty annual table:
    the rows of the second batch, and the rows of the first whose key
    the second does not have. *)
Definition replace_by_key (B1 B2 result : list Annual.row) : Prop :=
  forall r,
    In r result <->
    In r B2 \/ (In r B1 /\ ~ In (Annual.key r) (map Annual.key B2)).

Definition empty_database : database :=
  {| annual_registrations := []; monthly_registrations := [] |}.

Definition honda (year registrations : Z) : Annual.row :=
  {| Annual.Name := Str "HONDA"; Annual.DataType := "Maker";
     Annual.Year := year; Annual.Registrations := Num registrations |}.

Definition honda_month (month : string) (registrations : Z) : Monthly.row :=
  {| Monthly.Name := Str "HONDA"; Monthly.DataType := "Maker";
     Monthly.Year := 2023; Monthly.Month := month;
     Monthly.MonthlyRegistrations := Num registrations |}.

(** Rule (a) of the choice of the table: a serial-number column and
    more than one row. *)
Definition serial_rule (df : table) : bool :=
  Scraper.s_no_found df && (1 <? table_shape0 df)%nat.

(** Rule (b): more than one row and more than two columns. *)
Definition size_rule (df : table) : bool :=
  (1 <? table_shape0 df)%nat && (2 <? table_shape1 df)%nat.

(** A column label contains "S No". *)
Definition has_S_No (df : table) : bool :=
  existsb (fun col => Text.contains "S No" col) (column_strs df).

(** The serial-number rule read with "S No" alone: when a table with
    such a column and more than one row is among the candidates, the
    chosen table is one. *)
Definition S_No_table_is_chosen (tables : list table) : Prop :=
  (exists t, In t tables /\ has_S_No t = true /\ (1 < table_shape0 t)%nat) ->
  exists t, Scraper.best_df tables = Some t /\ has_S_No t = true.

Definition dotted_table : table :=
  {| header := FlatIndex ["S. No"; "Maker"];
     body := [[Num 1; Str "HONDA"]; [Num 2; Str "TVS"]] |}.

Definition undotted_table : table :=
  {| header := FlatIndex ["S No"; "Maker"; "TOTAL"];
     body := [[Num 1; Str "HONDA"; Num 10]; [Num 2; Str "TVS"; Num 20];
              [Num 3; Str "BAJAJ"; Num 30]] |}.

Definition layout_table : table :=
  {| header := FlatIndex ["0"; "1"];
     body := [[Str "Vahan"; Str "Dashboard"]; [Str "a"; Str "b"]] |}.

Definition plain_table : table :=
  {| header := FlatIndex ["Maker"; "2021"; "2022"];
     body := [[Str "HONDA"; Num 10; Num 20]; [Str "TVS"; Num 30; Num 40]] |}.

(** The wide table of the calendar-year claim, with its two rows. *)
Definition wide_columns : list string :=
  ["S No"; "Name"; "Calendar Year_2021"; "Calendar Year_2022"; "TOTAL"].

Definition wide (row1 row2 : list cell) : DataFrame :=
  {| columns := wide_columns; rows := [row1; row2] |}.

(** The normalizer builds exactly four annual records. *)
Definition four_annual_records (built : option (outcome records)) : Prop :=
  exists rs,
    built = Some (Return (annual_records rs)) /\ List.length rs = 4%nat.

Definition annual (name : cell) (data_type : string) (year : Z) (value : cell)
  : Annual.row :=
  {| Annual.Name := name; Annual.DataType := data_type; Annual.Year := year;
     Annual.Registrations := value |}.

(** The columns melted by the month-wise path. *)
Definition month_cols (data_df : DataFrame) : list string :=
  filter (fun col => Text.contains "Month Wise_" col) (columns data_df).

(** The number the month-wise path stores for a cell: the number the
    cell converts to, and 0 when it is missing or does not convert. *)
Definition stored_number {pd : Pandas} (c : cell) : Z :=
  match to_numeric_coerce c with
  | Num n => n
  | _ => 0
  end.

(** A pandas that converts no text, for frames without numeric texts. *)
Definition no_numeric_text : Pandas := {| to_numeric_text := fun _ => None |}.

(** A page on which every wait runs out of time. *)
Definition stuck_page : Driver unit :=
  {| wait_until := fun _ _ d => (Raise TimeoutException, d);
     click := fun _ d => (Raise WebDriverException, d);
     scroll_into_view := fun _ d => (Raise WebDriverException, d);
     element_texts := fun _ d => (Raise WebDriverException, d);
     read_html := fun _ d => (Raise ValueError, d);
     sleep := fun _ d => d;
     current_year := fun _ => 2023;
     timestamp := fun _ => "20230101_000000";
     makedirs := fun _ d => (Return tt, d);
     write_page_source := fun _ d => (Raise OSError, d);
     sqlite3_connect := fun _ _ => Return tt |}.

Definition month_wise_table : table :=
  {| header :=
       FlatIndex ["S No_S No"; "Name"; "Month Wise_JAN"; "Month Wise_FEB";
                  "Month Wise_MAR"; "TOTAL_TOTAL"];
     body := [[Num 1; Str "HONDA"; Num 10; Num 0; Num 5; Num 15];
              [Num 2; Str "TVS"; Num 7; Num 8; Num 9; Num 24]] |}.

Definition month_wise_frame : DataFrame :=
  {| columns := ["S No_S No"; "Name"; "Month Wise_JAN"; "Month Wise_FEB";
                 "Month Wise_MAR"; "TOTAL_TOTAL"];
     rows := [[Num 1; Str "HONDA"; Num 10; Num 0; Num 5; Num 15]] |}.

(** The annual row [r] is built from a calendar-year file of the
    listing: it is what the table holds for a row of the frame of the
    file. *)
Definition from_annual_csv {pd : Pandas} (listing : list Migrate.csv_file)
  (r : Annual.row) : Prop :=
  exists f df rs,
    In f listing /\ Migrate.is_calendar_year_file f = true /\
    Migrate.read_csv f = Return df /\
    Migrate.annual_frame (Migrate.file f) df = Some (Return rs) /\
    In r (map Annual.stored rs).

(** The monthly row [r] is built from a month-wise file of the listing. *)
Definition from_monthly_csv {pd : Pandas} (listing : list Migrate.csv_file)
  (r : Monthly.row) : Prop :=
  exists f df year rs,
    In f listing /\ Migrate.is_month_wise_file f = true /\
    Migrate.read_csv f = Return df /\
    Text.search_year_csv (Migrate.file f) = Some year /\
    Migrate.monthly_frame (Migrate.file f) year df = Some (Return rs) /\
    In r (map Monthly.stored rs).

(** The CSV files in the data directory when the migration runs. *)
Definition listing_of (data_dir : option (list Migrate.csv_file))
  : list Migrate.csv_file :=
  match data_dir with
  | None => []
  | Some listing => listing
  end.

Definition honda_csv : Migrate.csv_file :=
  {| Migrate.file := "Y_Maker_X_Calendar_Year_Year_2022.csv";
     Migrate.read_csv :=
       Return {| columns := ["S No_S No"; "Maker_Maker"; "Calendar Year_2022";
                             "TOTAL_TOTAL"];
                 rows := [[Num 1; Str "HONDA"; Num 20; Num 20]] |} |}.





Definition key_lt {P : Type} (cmp : P -> P -> comparison) (a b : App.entry P)
  : Prop :=
  App.compare_key cmp a b = Lt.


Definition growth_row_of {P : Type} (ep : App.entry P * option Z)
  : App.growth_row P :=
  {| App.row := fst ep; App.previous := snd ep;
     App.growth := App.growth_of (App.value (fst ep)) (snd ep) |}.

(** The table that the growth computation returns when it returns
    one. *)
Definition growth_table {P : Type} (cmp : P -> P -> comparison)
  (df : list (App.entry P)) : list (App.growth_row P) :=
  map growth_row_of
    (App.shift1 [] (App.sort_values cmp (App.groupby_sum cmp df))).

Definition yearly (g : string) (year value : Z) : App.entry Z :=
  {| App.group := g; App.period := year; App.value := value |}.

(** The computation returns in every world: no exception leaves it. *)
Definition never_raises {W A : Type} (m : M W A) : Prop :=
  forall w, exists a, fst (m w) = Return a.

(** The year named by a printed line, when the line is the one
    [select_dropdown_option] prints on entry for the "Year" dropdown. *)
Definition year_attempt (line : message) : list string :=
  if (fst line =? "Selecting")%string then
    match snd line with
    | [option_text; dropdown_name; _] =>
        if (dropdown_name =? "Year")%string then [option_text] else []
    | _ => []
    end
  else [].

(** The years whose selection was attempted, in the order of the
    attempts. *)
Definition year_attempts (out : list message) : list string :=
  flat_map year_attempt out.

(** The computation attempts the years [years], in this order, in every
    world, whether it returns or raises. *)
Definition emits {D A : Type} (years : list string) (m : M (world D) A) : Prop :=
  forall w,
    year_attempts (stdout (snd (m w))) = year_attempts (stdout w) ++ years.

(** ** What a computation does to the database *)

(** In every world the computation leaves a database related by [P] to
    the one it found, whether it returns or raises. *)
Definition writes {D A : Type} (P : database -> database -> Prop)
  (m : M (world D) A) : Prop :=
  forall w, P (db w) (db (snd (m w))).

(** The frame and the table of the one call of [insert_data_into_db] in
    [scrape_table_data_to_db]. *)
Definition built_by_scrape {pd : Pandas} (y_axis_option x_axis_option : string)
  (year_val : Z) (df : records) (table_name : string) : Prop :=
  (x_axis_option = "Calendar Year" /\ table_name = "annual_registrations" /\
   exists data_df,
     Scraper.calendar_year_records data_df y_axis_option = Some (Return df))
  \/
  (x_axis_option = "Month Wise" /\ table_name = "monthly_registrations" /\
   exists data_df,
     Scraper.month_wise_records data_df y_axis_option year_val
     = Some (Return df)).

(** The same for some Y-axis option, X-axis option and year among the
    given ones. *)
Definition built_for {pd : Pandas} (y_axis_options x_axis_options : string -> Prop)
  (years : Z -> Prop) (df : records) (table_name : string) : Prop :=
  exists y_axis_option x_axis_option year_val,
    y_axis_options y_axis_option /\ x_axis_options x_axis_option /\
    years year_val /\
    built_by_scrape y_axis_option x_axis_option year_val df table_name.

(** [d'] is what a sequence of calls of [insert_data_into_db], each on a
    frame and a table that [ok] allows, makes of [d]. *)
Inductive inserts (ok : records -> string -> Prop) : database -> database -> Prop :=
| inserts_refl : forall d, inserts ok d d
| inserts_step : forall d df table_name,
    ok df table_name -> inserts ok d (persist df table_name d)
| inserts_trans : forall d1 d2 d3,
    inserts ok d1 d2 -> inserts ok d2 d3 -> inserts ok d1 d3.

(** [d'] holds the rows of [d] in their order, followed in each table by
    new rows that satisfy [new_annual] and [new_monthly]. *)
Definition adds (new_annual : Annual.row -> Prop) (new_monthly : Monthly.row -> Prop)
  (d d' : database) : Prop :=
  exists annual_rows monthly_rows,
    annual_registrations d' = annual_registrations d ++ annual_rows /\
    monthly_registrations d' = monthly_registrations d ++ monthly_rows /\
    Forall new_annual annual_rows /\ Forall new_monthly monthly_rows.

(** The years the scraper asks for: from 2016 to a year that the clock
    has shown. *)
Definition swept_year {D : Type} {drv : Driver D} (year_val : Z) : Prop :=
  2016 <= year_val /\ exists d : D, year_val <= current_year d.

(** What is known of an annual row and of a monthly row that the scraper
    adds for Y-axis options [ys], X-axis options [xs] and years [years]. *)
Definition scraped_annual (ys xs : string -> Prop) (r : Annual.row) : Prop :=
  ys (Annual.DataType r) /\ xs "Calendar Year".

Definition scraped_monthly (ys xs : string -> Prop) (years : Z -> Prop)
  (r : Monthly.row) : Prop :=
  ys (Monthly.DataType r) /\ xs "Month Wise" /\ years (Monthly.Year r) /\
  exists n, Monthly.MonthlyRegistrations r = Num n.

(** A page of the dashboard that offers the makers by month for 2023 and
    for 2015, and shows the month-wise table. *)
Definition maker_page : Driver unit :=
  {| wait_until := fun _ _ d => (Return tt, d);
     click := fun _ d => (Return tt, d);
     scroll_into_view := fun _ d => (Return tt, d);
     element_texts := fun l d =>
       (Return
          match l with
          | dropdown_options id =>
              if (id =? "yaxisVar")%string then ["Maker"]
              else if (id =? "xaxisVar")%string then ["Month Wise"]
              else ["2023"; "2015"]
          | _ => []
          end, d);
     read_html := fun _ d => (Return [month_wise_table], d);
     sleep := fun _ d => d;
     current_year := fun _ => 2023;
     timestamp := fun _ => "20230101_000000";
     makedirs := fun _ d => (Return tt, d);
     write_page_source := fun _ d => (Return tt, d);
     sqlite3_connect := fun _ _ => Return tt |}.

Definition maker_month (name month : string) (registrations : Z) : Monthly.row :=
  {| Monthly.Name := Str name; Monthly.DataType := "Maker";
     Monthly.Year := 2023; Monthly.Month := month;
     Monthly.MonthlyRegistrations := Num registrations |}.

(** What the migration stores in a row: a name, one of its two types, a
    year of four digits and a positive number. *)
Definition migrated (name : cell) (data_type : string) (year : Z)
  (registrations : cell) : Prop :=
  isna name = false /\
  (data_type = "Vehicle Category" \/ data_type = "Manufacturer") /\
  0 <= year <= 9999 /\
  exists n, registrations = Num n /\ 0 < n.

(** ** The CSV files of the first scraper
    ([csv_based_invester_dashboard/csv_vahan_data_scrapper.py]) *)

Module CsvScraper.

Definition OUTPUT_DIR : string := "vahan_data".

(** [c.isalnum()] on the ASCII range. *)
Definition isalnum (c : ascii) : bool :=
  let n := nat_of_ascii c in
  ((48 <=? n)%nat && (n <=? 57)%nat)
  || ((65 <=? n)%nat && (n <=? 90)%nat)
  || ((97 <=? n)%nat && (n <=? 122)%nat).

(** [f"Y_{y_axis_option}_X_{x_axis_option}_Year_{year_to_scrape}"], the
    name under which the two year handlers scrape. *)
Definition combination_name (y_axis_option x_axis_option year_to_scrape : string)
  : string :=
  Text.join "" ["Y_"; y_axis_option; "_X_"; x_axis_option; "_Year_"; year_to_scrape].

(** ["".join([c if c.isalnum() else "_" for c in combination_name])] *)
Fixpoint safe_combination_name (combination_name : string) : string :=
  match combination_name with
  | EmptyString => EmptyString
  | String c rest =>
      String (if isalnum c then c else "_"%char) (safe_combination_name rest)
  end.

(** [f"{safe_combination_name}.csv"]: the name of the file that
    [scrape_table_data] writes, as [os.listdir] shows it. *)
Definition csv_name (combination_name : string) : string :=
  String.append (safe_combination_name combination_name) ".csv".

(** [os.path.join(OUTPUT_DIR, f"{safe_combination_name}.csv")] *)
Definition output_filename (combination_name : string) : string :=
  Text.join "/" [OUTPUT_DIR; csv_name combination_name].

End CsvScraper.

(** The ten digits. *)
Definition digit_chars : list ascii :=
  ["0"; "1"; "2"; "3"; "4"; "5"; "6"; "7"; "8"; "9"]%char.

Definition year_text (a b c d : ascii) : string :=
  String a (String b (String c (String d EmptyString))).

(** ** Vocabulary of the grouping *)

(** The row [e] has the group and the period of [k]. *)
Definition same_key {P : Type} (cmp : P -> P -> comparison) (k e : App.entry P)
  : bool :=
  match App.compare_key cmp e k with Eq => true | _ => false end.

Definition key_eq {P : Type} (a b : App.entry P) : Prop :=
  App.group a = App.group b /\ App.period a = App.period b.

(** The sum of the registrations of the rows. *)
Definition registrations {P : Type} (df : list (App.entry P)) : Z :=
  fold_right Z.add 0 (map App.value df).

(** The total of the group and period of [k] in the frame, as pandas
    sums it. *)
Definition total {P : Type} (cmp : P -> P -> comparison) (k : App.entry P)
  (df : list (App.entry P)) : Z :=
  App.wrap64 (registrations (filter (same_key cmp k) df)).

(** No group has a period whose total is zero. *)
Definition no_zero_total {P : Type} (cmp : P -> P -> comparison)
  (df : list (App.entry P)) : Prop :=
  forall k, In k df -> total cmp k df <> 0.

(** The annual rows of the group [g] in the year [year]. *)
Definition in_year (g : string) (year : Z) (e : App.entry Z) : bool :=
  (App.group e =? g)%string && (App.period e =? year).

(** The monthly rows of the group [g] in the quarter [q] of [year]. *)
Definition in_quarter (g : string) (year q : Z) (m : App.monthly) : bool :=
  (App.MappedName m =? g)%string && (App.Year m =? year) && (App.quarter m =? q).

Definition sum_monthly (df_monthly : list App.monthly) : Z :=
  fold_right Z.add 0 (map App.MonthlyRegistrations df_monthly).

(** The entry that [calculate_qoq_growth] groups for a monthly row. *)
Definition quarterly (m : App.monthly) : App.entry (Z * Z) :=
  {| App.group := App.MappedName m; App.period := (App.Year m, App.quarter m);
     App.value := App.MonthlyRegistrations m |}.

Definition month (g : string) (year month_of_date registrations : Z)
  : App.monthly :=
  {| App.MappedName := g; App.Year := year; App.month_of_date := month_of_date;
     App.MonthlyRegistrations := registrations |}.

(** ** The grouping of the vehicle categories *)

(** [c.upper()] on the ASCII range. *)
Definition upper_char (c : ascii) : ascii :=
  let n := nat_of_ascii c in
  if (97 <=? n)%nat && (n <=? 122)%nat then ascii_of_nat (n - 32) else c.

(** [s.upper()] *)
Fixpoint upper (s : string) : string :=
  match s with
  | EmptyString => EmptyString
  | String c rest => String (upper_char c) (upper rest)
  end.

(** [any(keyword in category_name for keyword in keywords)] *)
Definition any_keyword (keywords : list string) (category_name : string) : bool :=
  existsb (fun keyword => Text.contains keyword category_name) keywords.

(** [map_vehicle_category] of [sql_app.py]; the argument is the text
    [str(category_name)]. *)
Module SqlApp.

Definition four_wheeler_keywords : list string :=
  ["FOUR WHEELER"; "LIGHT MOTOR VEHICLE"; "MEDIUM MOTOR VEHICLE";
   "HEAVY MOTOR VEHICLE"; "GOODS VEHICLE"; "PASSENGER VEHICLE";
   "BUS"; "TRAC"; "EARTH MOVING"; "DUMPER"; "CRANE"].

Definition map_vehicle_category (category_name : string) : string :=
  let category_name := upper (Text.strip category_name) in
  if Text.contains "TWO WHEELER" category_name then "2W"
  else if Text.contains "THREE WHEELER" category_name then "3W"
  else if any_keyword four_wheeler_keywords category_name then "4W"
  else "Other".

End SqlApp.

(** [map_vehicle_category] of [csv_app.py], which [migrate_csv_to_sql.py]
    copies. *)
Module CsvApp.

Definition four_wheeler_keywords : list string :=
  ["FOUR WHEELER"; "GOODS VEHICLE"; "PASSENGER VEHICLE"; "MOTOR VEHICLE";
   "TRAC"; "EARTH MOVING"].

Definition map_vehicle_category (category_name : string) : string :=
  let category_name := upper (Text.strip category_name) in
  if Text.contains "TWO WHEELER" category_name then "2W"
  else if Text.contains "THREE WHEELER" category_name then "3W"
  else if any_keyword four_wheeler_keywords category_name then "4W"
  else "Other".

End CsvApp.

(** The name as both functions test it. *)
Definition normalized (category_name : string) : string :=
  upper (Text.strip category_name).

(** ** Vocabulary of the cleaning *)

(** The cells of the column [j] of a frame. *)
Definition column_cells (j : nat) (data_df : DataFrame) : list cell :=
  map (at_column j) (rows data_df).

(** A column of texts, and a column without a text. *)
Definition all_text (cs : list cell) : Prop :=
  forall c, In c cs -> Scraper.is_text c = true.

Definition no_text (cs : list cell) : Prop :=
  forall c, In c cs -> Scraper.is_text c = false.

(** * Properties *)

(** ** Tables *)

Section TableFacts.
Context {R K : Type}.
Variable key : R -> K.
Variable key_eq_dec : forall a b : K, {a = b} + {a <> b}.
Variable not_null : R -> bool.
Variable fits : R -> bool.
Variable stored : R -> R.
Hypothesis key_stored : forall r, key (stored r) = key r.

Lemma has_key_In (k : K) (t : list R) :
  has_key key key_eq_dec k t = true <-> In k (map key t).
Proof.
  unfold has_key. rewrite existsb_exists, in_map_iff. split.
  - intros [r [Hin Hk]]. exists r. split; [ | exact Hin].
    destruct (key_eq_dec (key r) k); [assumption | discriminate].
  - intros [r [Hk Hin]]. exists r. split; [exact Hin | ].
    destruct (key_eq_dec (key r) k); [reflexivity | contradiction].
Qed.

Lemma has_key_false (k : K) (t : list R) :
  has_key key key_eq_dec k t = false <-> ~ In k (map key t).
Proof.
  rewrite <- has_key_In.
  destruct (has_key key key_eq_dec k t); split; intros H;
    try discriminate; try reflexivity; try (intros H'; discriminate).
  exfalso. now apply H.
Qed.

Lemma map_key_stored (rs : list R) : map key (map stored rs) = map key rs.
Proof. rewrite map_map. apply map_ext. intros r. apply key_stored. Qed.

(** Only [IntegrityError] and [OverflowError] come out of an insert. *)
Lemma executemany_raise (rs t : list R) (e : exn) :
  executemany key key_eq_dec not_null fits stored rs t = Raise e ->
  e = IntegrityError \/ e = OverflowError.
Proof.
  revert t. induction rs as [ | r rs IH]; simpl; intros t H.
  - discriminate.
  - unfold insert_row in H.
    destruct (negb (fits r)); [inversion H; now right | ].
    destruct (negb (not_null r)); [inversion H; now left | ].
    destruct (has_key key key_eq_dec (key r) t); [inversion H; now left | ].
    eapply IH; eassumption.
Qed.

(** When every row fits, only [IntegrityError] does. *)
Lemma executemany_raise_fits (rs t : list R) (e : exn) :
  (forall r, In r rs -> fits r = true) ->
  executemany key key_eq_dec not_null fits stored rs t = Raise e ->
  e = IntegrityError.
Proof.
  revert t. induction rs as [ | r rs IH]; simpl; intros t Hfit H.
  - discriminate.
  - unfold insert_row in H. rewrite (Hfit r (or_introl eq_refl)) in H.
    simpl in H.
    destruct (negb (not_null r)); [now inversion H | ].
    destruct (has_key key key_eq_dec (key r) t); [now inversion H | ].
    eapply IH; [ | eassumption]. intros x Hx. apply Hfit. now right.
Qed.

(** A batch that goes through is appended, each row as the table holds
    it. *)
Lemma executemany_return (rs t t' : list R) :
  executemany key key_eq_dec not_null fits stored rs t = Return t' ->
  t' = t ++ map stored rs.
Proof.
  revert t. induction rs as [ | r rs IH]; simpl; intros t H.
  - inversion H. now rewrite app_nil_r.
  - unfold insert_row in H.
    destruct (negb (fits r)); [discriminate | ].
    destruct (negb (not_null r)); [discriminate | ].
    destruct (has_key key key_eq_dec (key r) t); [discriminate | ].
    apply IH in H. now rewrite <- app_assoc in H.
Qed.

(** A key already in the table stops the batch. *)
Lemma executemany_conflict (rs t : list R) :
  (exists r, In r rs /\ In (key r) (map key t)) ->
  exists e, executemany key key_eq_dec not_null fits stored rs t = Raise e.
Proof.
  revert t. induction rs as [ | r rs IH]; simpl; intros t [x [Hin Hk]].
  - contradiction.
  - unfold insert_row.
    destruct (negb (fits r)); [now eexists | ].
    destruct (negb (not_null r)); [now eexists | ].
    destruct (has_key key key_eq_dec (key r) t) eqn:Hr; [now eexists | ].
    apply has_key_false in Hr.
    destruct Hin as [-> | Hin]; [contradiction | ].
    apply IH. exists x. split; [exact Hin | ].
    rewrite map_app. apply in_or_app. now left.
Qed.

(** A batch without nulls whose rows fit, with pairwise distinct keys of
    which none is in the table, goes through. *)
Lemma executemany_fresh (rs t : list R) :
  accepted key not_null fits rs t ->
  executemany key key_eq_dec not_null fits stored rs t
  = Return (t ++ map stored rs).
Proof.
  revert t. induction rs as [ | r rs IH]; simpl;
    intros t (Hfit & Hnn & Hnd & Hfresh).
  - now rewrite app_nil_r.
  - unfold insert_row. rewrite (Hfit r (or_introl eq_refl)).
    rewrite (Hnn r (or_introl eq_refl)). simpl.
    destruct (has_key key key_eq_dec (key r) t) eqn:Hr.
    + apply has_key_In in Hr. exfalso. exact (Hfresh r (or_introl eq_refl) Hr).
    + inversion Hnd as [ | ? ? Hnotin Hnd']; subst.
      rewrite IH.
      * now rewrite <- app_assoc.
      * repeat split.
        -- intros x Hx. apply Hfit. now right.
        -- intros x Hx. apply Hnn. now right.
        -- exact Hnd'.
        -- intros x Hx Hin. rewrite map_app in Hin. apply in_app_or in Hin.
           destruct Hin as [Hin | [Hin | []]].
           ++ exact (Hfresh x (or_intror Hx) Hin).
           ++ apply Hnotin. rewrite key_stored in Hin. rewrite Hin.
              now apply in_map.
Qed.

(** The first row that is refused decides how the batch fails. *)
Lemma executemany_first_refused (before after t : list R) (r : R) :
  accepted key not_null fits before t ->
  executemany key key_eq_dec not_null fits stored (before ++ r :: after) t
  = if negb (fits r) then Raise OverflowError
    else if negb (not_null r) then Raise IntegrityError
    else if has_key key key_eq_dec (key r) (t ++ map stored before)
         then Raise IntegrityError
         else executemany key key_eq_dec not_null fits stored after
                (t ++ map stored (before ++ [r])).
Proof.
  revert t. induction before as [ | b before IH]; simpl;
    intros t (Hfit & Hnn & Hnd & Hfresh).
  - rewrite app_nil_r. unfold insert_row.
    destruct (negb (fits r)); [reflexivity | ].
    destruct (negb (not_null r)); [reflexivity | ].
    destruct (has_key key key_eq_dec (key r) t); reflexivity.
  - unfold insert_row at 1. rewrite (Hfit b (or_introl eq_refl)).
    rewrite (Hnn b (or_introl eq_refl)). simpl.
    destruct (has_key key key_eq_dec (key b) t) eqn:Hb.
    + apply has_key_In in Hb. exfalso. exact (Hfresh b (or_introl eq_refl) Hb).
    + inversion Hnd as [ | ? ? Hnotin Hnd']; subst.
      rewrite IH.
      * now rewrite <- !app_assoc.
      * repeat split.
        -- intros x Hx. apply Hfit. now right.
        -- intros x Hx. apply Hnn. now right.
        -- exact Hnd'.
        -- intros x Hx Hin. rewrite map_app in Hin. apply in_app_or in Hin.
           destruct Hin as [Hin | [Hin | []]].
           ++ exact (Hfresh x (or_intror Hx) Hin).
           ++ apply Hnotin. rewrite key_stored in Hin. rewrite Hin.
              now apply in_map.
Qed.

(** The [UNIQUE] index is kept by every batch. *)
Lemma executemany_NoDup (rs t t' : list R) :
  NoDup (map key t) ->
  executemany key key_eq_dec not_null fits stored rs t = Return t' ->
  NoDup (map key t').
Proof.
  revert t. induction rs as [ | r rs IH]; simpl; intros t Hnd H.
  - now inversion H; subst.
  - unfold insert_row in H.
    destruct (negb (fits r)); [discriminate | ].
    destruct (negb (not_null r)); [discriminate | ].
    destruct (has_key key key_eq_dec (key r) t) eqn:Hr; [discriminate | ].
    apply has_key_false in Hr.
    apply IH in H; [exact H | ].
    rewrite map_app. simpl. rewrite key_stored.
    apply Permutation.Permutation_NoDup with (l := key r :: map key t).
    + apply Permutation.Permutation_cons_append.
    + now constructor.
Qed.

(** A batch goes through only when it is accepted. *)
Lemma executemany_return_accepted (rs t t' : list R) :
  executemany key key_eq_dec not_null fits stored rs t = Return t' ->
  accepted key not_null fits rs t.
Proof.
  revert t. induction rs as [ | r rs IH]; simpl; intros t H.
  - repeat split; try (intros r []). constructor.
  - unfold insert_row in H.
    destruct (fits r) eqn:Hfit; [ | discriminate]. simpl in H.
    destruct (not_null r) eqn:Hnn; [ | discriminate]. simpl in H.
    destruct (has_key key key_eq_dec (key r) t) eqn:Hr; [discriminate | ].
    apply has_key_false in Hr.
    destruct (IH _ H) as (Hf & Hn & Hnd & Hfresh).
    assert (Hout : forall x, In x rs -> ~ In (key x) (map key t) /\ key x <> key r).
    { intros x Hx. specialize (Hfresh x Hx). rewrite map_app in Hfresh.
      simpl in Hfresh. rewrite key_stored in Hfresh. split.
      - intros Hin. apply Hfresh. apply in_or_app. now left.
      - intros Heq. apply Hfresh. apply in_or_app. right. left. now symmetry. }
    repeat split.
    + intros x [<- | Hx]; [exact Hfit | now apply Hf].
    + intros x [<- | Hx]; [exact Hnn | now apply Hn].
    + constructor; [ | exact Hnd].
      intros Hin. apply in_map_iff in Hin. destruct Hin as [x [Hk Hx]].
      exact (proj2 (Hout x Hx) Hk).
    + intros x [<- | Hx]; [exact Hr | exact (proj1 (Hout x Hx))].
Qed.

Lemma to_sql_NoDup (rs t : list R) :
  NoDup (map key t) ->
  NoDup (map key (snd (to_sql key key_eq_dec not_null fits stored rs t))).
Proof.
  intros Hnd. unfold to_sql.
  destruct (executemany key key_eq_dec not_null fits stored rs t) eqn:He; simpl.
  - eapply executemany_NoDup; eassumption.
  - exact Hnd.
Qed.

Lemma to_sql_conflict (rs t : list R) :
  (exists r, In r rs /\ In (key r) (map key t)) ->
  exists e,
    to_sql key key_eq_dec not_null fits stored rs t = (Raise e, t) /\
    (e = IntegrityError \/ e = OverflowError) /\
    ((forall r, In r rs -> fits r = true) -> e = IntegrityError).
Proof.
  intros H. unfold to_sql. destruct (executemany_conflict rs t H) as [e He].
  exists e. rewrite He. repeat split.
  - eapply executemany_raise; eassumption.
  - intros Hfit. eapply executemany_raise_fits; eassumption.
Qed.

Lemma to_sql_fresh (rs t : list R) :
  accepted key not_null fits rs t ->
  to_sql key key_eq_dec not_null fits stored rs t
  = (Return tt, t ++ map stored rs).
Proof.
  intros H. unfold to_sql. now rewrite (executemany_fresh rs t H).
Qed.

(** The first row that is refused decides the exception, and the table
    is as before. *)
Lemma to_sql_refused (rs t : list R) (e : exn) :
  refused_with key not_null fits rs t e ->
  to_sql key key_eq_dec not_null fits stored rs t = (Raise e, t).
Proof.
  intros (before & r & after & -> & Hacc & Hr). unfold to_sql.
  rewrite (executemany_first_refused before after t r Hacc).
  destruct Hr as [[-> Hfit] | (-> & Hfit & Hr)]; rewrite Hfit; simpl;
    [reflexivity | ].
  destruct Hr as [Hnn | Hin]; [now rewrite Hnn | ].
  destruct (negb (not_null r)); [reflexivity | ].
  assert (Hk : has_key key key_eq_dec (key r) (t ++ map stored before) = true).
  { apply has_key_In. rewrite map_app, map_key_stored, <- map_app. exact Hin. }
  now rewrite Hk.
Qed.

(** Either the whole batch, which is then accepted, is appended, or the
    table is as before. *)
Lemma to_sql_all_or_nothing (rs t : list R) :
  (to_sql key key_eq_dec not_null fits stored rs t
   = (Return tt, t ++ map stored rs) /\
   accepted key not_null fits rs t) \/
  exists e, to_sql key key_eq_dec not_null fits stored rs t = (Raise e, t).
Proof.
  unfold to_sql.
  destruct (executemany key key_eq_dec not_null fits stored rs t) eqn:He.
  - left. split.
    + now rewrite (executemany_return rs t _ He).
    + eapply executemany_return_accepted; eassumption.
  - right. now exists e.
Qed.

End TableFacts.

(** ** [insert_data_into_db] *)

Lemma text_affinity_idem (c : cell) :
  text_affinity (text_affinity c) = text_affinity c.
Proof. now destruct c. Qed.

Lemma annual_key_stored (r : Annual.row) :
  Annual.key (Annual.stored r) = Annual.key r.
Proof. unfold Annual.key. simpl. now rewrite text_affinity_idem. Qed.

Lemma monthly_key_stored (r : Monthly.row) :
  Monthly.key (Monthly.stored r) = Monthly.key r.
Proof. unfold Monthly.key. simpl. now rewrite text_affinity_idem. Qed.

(** What [to_sql] does with a frame and a name that are those of a
    table. *)
Lemma df_to_sql_annual (rs : list Annual.row) (d : database) :
  df_to_sql (annual_records rs) "annual_registrations" d
  = (fst (to_sql Annual.key Annual.key_eq_dec Annual.not_null Annual.fits
            Annual.stored rs (annual_registrations d)),
     {| annual_registrations :=
          snd (to_sql Annual.key Annual.key_eq_dec Annual.not_null Annual.fits
                 Annual.stored rs (annual_registrations d));
        monthly_registrations := monthly_registrations d |}).
Proof.
  unfold df_to_sql. cbn [String.eqb Ascii.eqb Bool.eqb].
  now destruct (to_sql _ _ _ _ _ rs (annual_registrations d)).
Qed.

Lemma df_to_sql_monthly (rs : list Monthly.row) (d : database) :
  df_to_sql (monthly_records rs) "monthly_registrations" d
  = (fst (to_sql Monthly.key Monthly.key_eq_dec Monthly.not_null Monthly.fits
            Monthly.stored rs (monthly_registrations d)),
     {| annual_registrations := annual_registrations d;
        monthly_registrations :=
          snd (to_sql Monthly.key Monthly.key_eq_dec Monthly.not_null
                 Monthly.fits Monthly.stored rs (monthly_registrations d)) |}).
Proof.
  unfold df_to_sql. cbn [String.eqb Ascii.eqb Bool.eqb].
  now destruct (to_sql _ _ _ _ _ rs (monthly_registrations d)).
Qed.

Lemma database_eta (d : database) :
  {| annual_registrations := annual_registrations d;
     monthly_registrations := monthly_registrations d |} = d.
Proof. now destruct d. Qed.

(** A frame with a key of its table fails, with [IntegrityError] when
    its integers fit. *)
Lemma df_to_sql_conflict (df : records) (table_name : string) (d : database) :
  conflicts df table_name d ->
  exists e,
    df_to_sql df table_name d = (Raise e, d) /\
    (e = IntegrityError \/ e = OverflowError) /\
    (all_fit df -> e = IntegrityError).
Proof.
  destruct df as [rs | rs]; simpl; intros [-> Hc].
  - destruct (to_sql_conflict Annual.key Annual.key_eq_dec Annual.not_null
                Annual.fits Annual.stored rs (annual_registrations d) Hc)
      as (e & He & Hor & Hfit).
    exists e. rewrite df_to_sql_annual, He. simpl.
    now rewrite database_eta.
  - destruct (to_sql_conflict Monthly.key Monthly.key_eq_dec Monthly.not_null
                Monthly.fits Monthly.stored rs (monthly_registrations d) Hc)
      as (e & He & Hor & Hfit).
    exists e. rewrite df_to_sql_monthly, He. simpl.
    now rewrite database_eta.
Qed.

Lemma df_to_sql_refuses (df : records) (table_name : string) (d : database)
  (e : exn) :
  refuses df table_name d e -> df_to_sql df table_name d = (Raise e, d).
Proof.
  destruct df as [rs | rs]; simpl; intros [-> Hr].
  - rewrite df_to_sql_annual.
    rewrite (to_sql_refused Annual.key Annual.key_eq_dec Annual.not_null
               Annual.fits Annual.stored annual_key_stored rs _ e Hr).
    simpl. now rewrite database_eta.
  - rewrite df_to_sql_monthly.
    rewrite (to_sql_refused Monthly.key Monthly.key_eq_dec Monthly.not_null
               Monthly.fits Monthly.stored monthly_key_stored rs _ e Hr).
    simpl. now rewrite database_eta.
Qed.

(** The whole run of [insert_data_into_db]: when the file opens it
    returns, leaves the browser alone, and writes what [to_sql] wrote;
    when the file does not open the exception leaves the function and
    nothing is written or printed. *)
Lemma insert_data_into_db_run {D : Type} {drv : Driver D} (df : records)
  (table_name : string) (w : world D) :
  Scraper.insert_data_into_db df table_name w =
  match connection df w with
  | Return _ =>
      (Return tt,
       {| ext := ext w;
          db := if empty df then db w else snd (df_to_sql df table_name (db w));
          stdout := stdout w ++ insert_lines df table_name (db w) |})
  | Raise e => (Raise e, w)
  end.
Proof.
  unfold Scraper.insert_data_into_db, insert_lines, connection.
  destruct (empty df); [reflexivity | ].
  unfold bind at 1. unfold Scraper.connect.
  destruct (sqlite3_connect Scraper.DB_FILE (ext w)) as [[] | e]; [ | reflexivity].
  unfold try_finally, try_except, bind, Scraper.on_database, Scraper.print, ret.
  destruct (df_to_sql df table_name (db w)) as [[u | e] d']; simpl.
  - reflexivity.
  - destruct e; simpl; try reflexivity.
    now rewrite <- app_assoc.
Qed.

Lemma connection_opens {D : Type} {drv : Driver D} (df : records) (w : world D) :
  sqlite3_connect Scraper.DB_FILE (ext w) = Return tt ->
  connection df w = Return tt.
Proof. intros H. unfold connection. now destruct (empty df). Qed.

Lemma conflicts_not_empty (df : records) (table_name : string) (d : database) :
  conflicts df table_name d -> empty df = false.
Proof.
  destruct df as [[ | r rs] | [ | r rs]]; simpl; try reflexivity;
    intros [_ [x [[] _]]].
Qed.

Lemma refuses_not_empty (df : records) (table_name : string) (d : database)
  (e : exn) :
  refuses df table_name d e -> empty df = false.
Proof.
  destruct df as [[ | r rs] | [ | r rs]]; simpl; try reflexivity;
    intros [_ (before & x & after & H & _)]; now destruct before.
Qed.

(** C8. When the database file opens, [insert_data_into_db] never
    raises, whatever the frame, and leaves the browser alone.  An empty
    frame writes nothing.  When a row of the frame has a key that is
    already in the table, the insert of the whole frame fails in a
    handler: the database is as before and the error is only printed,
    by the handler of [IntegrityError] when the integers of the frame
    fit in SQLite's 64 bits.  In general the first row that is refused
    decides which handler prints: the last one for an integer that does
    not fit, the one of [IntegrityError] for a null or a key that is
    taken. *)
Theorem insert_data_into_db_never_raises :
  forall (D : Type) (drv : Driver D) (df : records) (table_name : string)
         (w : world D),
    sqlite3_connect Scraper.DB_FILE (ext w) = Return tt ->
    fst (Scraper.insert_data_into_db df table_name w) = Return tt /\
    ext (snd (Scraper.insert_data_into_db df table_name w)) = ext w /\
    (empty df = true ->
     db (snd (Scraper.insert_data_into_db df table_name w)) = db w) /\
    (conflicts df table_name (db w) ->
     db (snd (Scraper.insert_data_into_db df table_name w)) = db w /\
     (stdout (snd (Scraper.insert_data_into_db df table_name w))
      = stdout w ++ integrity_lines table_name \/
      stdout (snd (Scraper.insert_data_into_db df table_name w))
      = stdout w ++ [("Error inserting data into", [table_name])]) /\
     (all_fit df ->
      stdout (snd (Scraper.insert_data_into_db df table_name w))
      = stdout w ++ integrity_lines table_name)) /\
    (forall e,
        refuses df table_name (db w) e ->
        db (snd (Scraper.insert_data_into_db df table_name w)) = db w /\
        stdout (snd (Scraper.insert_data_into_db df table_name w))
        = stdout w ++ handler_lines e table_name).
Proof.
  intros D drv df table_name w Hopen. rewrite insert_data_into_db_run.
  rewrite (connection_opens df w Hopen). simpl.
  split; [reflexivity | ]. split; [reflexivity | ].
  split; [ | split].
  - intros ->. reflexivity.
  - intros Hc. unfold insert_lines.
    rewrite (conflicts_not_empty _ _ _ Hc).
    destruct (df_to_sql_conflict df table_name (db w) Hc)
      as (e & -> & Hor & Hfit). simpl.
    split; [reflexivity | ]. split.
    + destruct Hor as [-> | ->]; [now left | now right].
    + intros Hall. now rewrite (Hfit Hall).
  - intros e Hr. unfold insert_lines.
    rewrite (refuses_not_empty _ _ _ _ Hr).
    now rewrite (df_to_sql_refuses df table_name (db w) e Hr).
Qed.

Lemma insert_data_into_db_never_raises_witness :
  persist (annual_records [honda 2021 20]) "annual_registrations"
    {| annual_registrations := [honda 2021 10]; monthly_registrations := [] |}
  = {| annual_registrations := [honda 2021 10]; monthly_registrations := [] |}
  /\ persist (annual_records []) "annual_registrations" empty_database
     = empty_database
  /\ stdout
       (snd (Scraper.insert_data_into_db (drv := still_page [])
               (annual_records [honda 2022 (2 ^ 63); honda 2021 20])
               "annual_registrations"
               (quiet_world {| annual_registrations := [honda 2021 10];
                               monthly_registrations := [] |})))
     = [("Error inserting data into", ["annual_registrations"])].
Proof.
  split; [ | split].
  - destruct (insert_data_into_db_never_raises unit (still_page [])
                (annual_records [honda 2021 20]) "annual_registrations"
                (quiet_world {| annual_registrations := [honda 2021 10];
                                monthly_registrations := [] |})
                eq_refl) as (_ & _ & _ & Hc & _).
    apply Hc. simpl. split; [reflexivity | ].
    exists (honda 2021 20). split; left; reflexivity.
  - destruct (insert_data_into_db_never_raises unit (still_page [])
                (annual_records []) "annual_registrations"
                (quiet_world empty_database) eq_refl) as (_ & _ & He & _).
    now apply He.
  - destruct (insert_data_into_db_never_raises unit (still_page [])
                (annual_records [honda 2022 (2 ^ 63); honda 2021 20])
                "annual_registrations"
                (quiet_world {| annual_registrations := [honda 2021 10];
                                monthly_registrations := [] |})
                eq_refl) as (_ & _ & _ & _ & Hr).
    apply (Hr OverflowError). simpl. split; [reflexivity | ].
    exists [], (honda 2022 (2 ^ 63)), [honda 2021 20].
    split; [reflexivity | ].
    split; [ | left; split; reflexivity].
    repeat split; try (intros r []). constructor.
Defined.

Lemma persist_eq (df : records) (table_name : string) (d : database) :
  persist df table_name d
  = if empty df then d else snd (df_to_sql df table_name d).
Proof.
  unfold persist. rewrite insert_data_into_db_run. unfold connection.
  now destruct (empty df).
Qed.

Lemma df_to_sql_unique_keys (df : records) (table_name : string) (d : database) :
  unique_keys d -> unique_keys (snd (df_to_sql df table_name d)).
Proof.
  intros [Ha Hm]. unfold df_to_sql.
  destruct (table_name =? "annual_registrations")%string.
  - destruct df as [rs | rs]; [ | now split].
    pose proof (to_sql_NoDup Annual.key Annual.key_eq_dec Annual.not_null
                  Annual.fits Annual.stored annual_key_stored
                  rs (annual_registrations d) Ha) as H.
    destruct (to_sql Annual.key Annual.key_eq_dec Annual.not_null Annual.fits
                Annual.stored rs (annual_registrations d)); now split.
  - destruct (table_name =? "monthly_registrations")%string; [ | now split].
    destruct df as [rs | rs]; [now split | ].
    pose proof (to_sql_NoDup Monthly.key Monthly.key_eq_dec Monthly.not_null
                  Monthly.fits Monthly.stored monthly_key_stored
                  rs (monthly_registrations d) Hm) as H.
    destruct (to_sql Monthly.key Monthly.key_eq_dec Monthly.not_null
                Monthly.fits Monthly.stored rs (monthly_registrations d));
      now split.
Qed.

Lemma persist_unique_keys (df : records) (table_name : string) (d : database) :
  unique_keys d -> unique_keys (persist df table_name d).
Proof.
  intros H. rewrite persist_eq. destruct (empty df); [exact H | ].
  now apply df_to_sql_unique_keys.
Qed.

(** An accepted annual frame is appended, each row as the table holds
    it. *)
Lemma persist_annual_fresh (rs : list Annual.row) (d : database) :
  accepted Annual.key Annual.not_null Annual.fits rs (annual_registrations d) ->
  persist (annual_records rs) "annual_registrations" d
  = {| annual_registrations := annual_registrations d ++ map Annual.stored rs;
       monthly_registrations := monthly_registrations d |}.
Proof.
  intros H. rewrite persist_eq. destruct rs as [ | r rs].
  - simpl. rewrite app_nil_r. now destruct d.
  - cbn [empty]. rewrite df_to_sql_annual.
    now rewrite (to_sql_fresh _ _ _ _ _ annual_key_stored _ _ H).
Qed.

Lemma persist_monthly_fresh (rs : list Monthly.row) (d : database) :
  accepted Monthly.key Monthly.not_null Monthly.fits rs
    (monthly_registrations d) ->
  persist (monthly_records rs) "monthly_registrations" d
  = {| annual_registrations := annual_registrations d;
       monthly_registrations :=
         monthly_registrations d ++ map Monthly.stored rs |}.
Proof.
  intros H. rewrite persist_eq. destruct rs as [ | r rs].
  - simpl. rewrite app_nil_r. now destruct d.
  - cbn [empty]. rewrite df_to_sql_monthly.
    now rewrite (to_sql_fresh _ _ _ _ _ monthly_key_stored _ _ H).
Qed.

Lemma persist_conflict (df : records) (table_name : string) (d : database) :
  conflicts df table_name d -> persist df table_name d = d.
Proof.
  intros H. rewrite persist_eq. destruct (empty df); [reflexivity | ].
  now destruct (df_to_sql_conflict df table_name d H) as (e & -> & _).
Qed.

(** What [insert_data_into_db] makes of the two tables: nothing, or the
    rows of an accepted frame after the rows of its table. *)
Lemma persist_cases (df : records) (table_name : string) (d : database) :
  persist df table_name d = d \/
  (exists rs,
      accepted Annual.key Annual.not_null Annual.fits rs
        (annual_registrations d) /\
      persist df table_name d
      = {| annual_registrations := annual_registrations d ++ map Annual.stored rs;
           monthly_registrations := monthly_registrations d |}) \/
  (exists rs,
      accepted Monthly.key Monthly.not_null Monthly.fits rs
        (monthly_registrations d) /\
      persist df table_name d
      = {| annual_registrations := annual_registrations d;
           monthly_registrations :=
             monthly_registrations d ++ map Monthly.stored rs |}).
Proof.
  rewrite persist_eq. destruct (empty df); [now left | ].
  unfold df_to_sql.
  destruct (table_name =? "annual_registrations")%string.
  - destruct df as [rs | rs]; [ | now left].
    destruct (to_sql_all_or_nothing Annual.key Annual.key_eq_dec
                Annual.not_null Annual.fits Annual.stored annual_key_stored
                rs (annual_registrations d)) as [[-> Hacc] | [e ->]].
    + right. left. now exists rs.
    + left. apply database_eta.
  - destruct (table_name =? "monthly_registrations")%string; [ | now left].
    destruct df as [rs | rs]; [now left | ].
    destruct (to_sql_all_or_nothing Monthly.key Monthly.key_eq_dec
                Monthly.not_null Monthly.fits Monthly.stored monthly_key_stored
                rs (monthly_registrations d)) as [[-> Hacc] | [e ->]].
    + right. right. now exists rs.
    + left. apply database_eta.
Qed.

Section Under.
Context {R K : Type}.
Variable key : R -> K.
Variable key_eq_dec : forall a b : K, {a = b} + {a <> b}.

(** Rows with other keys, put after a table, add nothing to what is
    stored under a key. *)
Lemma filter_key_app (k : K) (t rs : list R) :
  ~ In k (map key rs) ->
  filter (fun x => if key_eq_dec (key x) k then true else false) (t ++ rs)
  = filter (fun x => if key_eq_dec (key x) k then true else false) t.
Proof.
  intros Hk. rewrite filter_app.
  replace (filter _ rs) with (@nil R); [now rewrite app_nil_r | ].
  symmetry. induction rs as [ | r rs IH]; [reflexivity | ].
  simpl. destruct (key_eq_dec (key r) k) as [Heq | Hne].
  - exfalso. apply Hk. left. exact Heq.
  - apply IH. intros Hin. apply Hk. now right.
Qed.

End Under.

(** C1, as stated, fails: a second batch with the key of a stored row
    does not replace it: the stored row keeps its first value and the
    row of the second batch is not in the table. *)
Lemma insert_is_not_replace_by_key :
  ~ replace_by_key [honda 2021 10] [honda 2021 20]
      (annual_registrations
         (persist (annual_records [honda 2021 20]) "annual_registrations"
            (persist (annual_records [honda 2021 10]) "annual_registrations"
               empty_database))).
Proof.
  intros H.
  assert (Hin : In (honda 2021 20) [honda 2021 10]).
  { apply (proj2 (H (honda 2021 20))). left. now left. }
  destruct Hin as [Heq | []]. discriminate Heq.
Qed.

(** C1, amended.  Persistence is insert-only by natural key.  After a
    first batch, whatever the second batch is, the rows stored under a
    key that is in the table are as the first batch left them: a write
    whose key exists neither replaces the stored value nor adds a second
    row for the key.  A second batch that is accepted (integers of 64
    bits, no null, pairwise distinct keys of which none is in the table)
    and holds numbers as registrations is appended whole after the
    stored rows, each name as the [TEXT] column holds it.  The same
    holds for the monthly table. *)
Theorem insert_is_append_only_by_key :
  forall (d : database),
    (forall (B1 B2 : list Annual.row),
        let d1 := persist (annual_records B1) "annual_registrations" d in
        let d2 := persist (annual_records B2) "annual_registrations" d1 in
        (forall k,
            In k (map Annual.key (annual_registrations d1)) ->
            annual_under k (annual_registrations d2)
            = annual_under k (annual_registrations d1)) /\
        (accepted Annual.key Annual.not_null Annual.fits B2
           (annual_registrations d1) ->
         (forall r, In r B2 -> exists n, Annual.Registrations r = Num n) ->
         annual_registrations d2
         = annual_registrations d1 ++ map Annual.stored B2 /\
         monthly_registrations d2 = monthly_registrations d1)) /\
    (forall (B1 B2 : list Monthly.row),
        let d1 := persist (monthly_records B1) "monthly_registrations" d in
        let d2 := persist (monthly_records B2) "monthly_registrations" d1 in
        (forall k,
            In k (map Monthly.key (monthly_registrations d1)) ->
            monthly_under k (monthly_registrations d2)
            = monthly_under k (monthly_registrations d1)) /\
        (accepted Monthly.key Monthly.not_null Monthly.fits B2
           (monthly_registrations d1) ->
         (forall r, In r B2 ->
                    exists n, Monthly.MonthlyRegistrations r = Num n) ->
         monthly_registrations d2
         = monthly_registrations d1 ++ map Monthly.stored B2 /\
         annual_registrations d2 = annual_registrations d1)).
Proof.
  intros d. split; intros B1 B2 d1 d2; split.
  - intros k Hk. unfold d2.
    destruct (persist_cases (annual_records B2) "annual_registrations" d1)
      as [-> | [(rs & (_ & _ & _ & Hfresh) & ->) | (rs & _ & ->)]];
      try reflexivity.
    cbn [annual_registrations]. apply filter_key_app.
    rewrite (map_key_stored Annual.key Annual.stored annual_key_stored).
    intros Hin. apply in_map_iff in Hin. destruct Hin as [r [Hr Hin]].
    apply (Hfresh r Hin). now rewrite Hr.
  - intros Hacc _. unfold d2.
    rewrite (persist_annual_fresh B2 d1 Hacc). now split.
  - intros k Hk. unfold d2.
    destruct (persist_cases (monthly_records B2) "monthly_registrations" d1)
      as [-> | [(rs & _ & ->) | (rs & (_ & _ & _ & Hfresh) & ->)]];
      try reflexivity.
    cbn [monthly_registrations]. apply filter_key_app.
    rewrite (map_key_stored Monthly.key Monthly.stored monthly_key_stored).
    intros Hin. apply in_map_iff in Hin. destruct Hin as [r [Hr Hin]].
    apply (Hfresh r Hin). now rewrite Hr.
  - intros Hacc _. unfold d2.
    rewrite (persist_monthly_fresh B2 d1 Hacc). now split.
Qed.

Lemma insert_is_append_only_by_key_witness :
  annual_under (Annual.key (honda 2021 20))
    (annual_registrations
       (persist (annual_records [honda 2021 20; honda 2022 30])
          "annual_registrations"
          (persist (annual_records [honda 2021 10]) "annual_registrations"
             empty_database)))
  = [honda 2021 10]
  /\ annual_registrations
       (persist
          (annual_records [annual (Num 7) "Maker" 2022 (Num 20)])
          "annual_registrations"
          (persist (annual_records [honda 2021 10]) "annual_registrations"
             empty_database))
     = [honda 2021 10; annual (Str "7") "Maker" 2022 (Num 20)].
Proof.
  split.
  - apply (proj1 (proj1 (insert_is_append_only_by_key empty_database)
                    [honda 2021 10] [honda 2021 20; honda 2022 30])
             (Annual.key (honda 2021 20))).
    left. reflexivity.
  - apply (proj1 (proj2 (proj1 (insert_is_append_only_by_key empty_database)
                           [honda 2021 10]
                           [annual (Num 7) "Maker" 2022 (Num 20)])
                    ltac:(repeat split;
                          [intros r [<- | []]; reflexivity
                          | intros r [<- | []]; reflexivity
                          | repeat constructor; simpl; tauto
                          | intros r [<- | []] [H | []]; discriminate H])
                    ltac:(intros r [<- | []]; now exists 20))).
Defined.

(** ** The invariant of the tables *)

Lemma fold_left_unique_keys {A : Type} (step : database -> A -> database)
  (xs : list A) (d : database) :
  (forall d x, unique_keys d -> unique_keys (step d x)) ->
  unique_keys d -> unique_keys (fold_left step xs d).
Proof.
  intros Hstep. revert d. induction xs as [ | x xs IH]; simpl; intros d H.
  - exact H.
  - apply IH. now apply Hstep.
Qed.

Lemma migrate_annual_unique_keys {pd : Pandas} (d : database) (f : Migrate.csv_file) :
  unique_keys d -> unique_keys (Migrate.migrate_annual d f).
Proof.
  intros Hd. unfold Migrate.migrate_annual.
  destruct (Migrate.read_csv f) as [df | e]; [ | exact Hd].
  destruct (Migrate.annual_frame (Migrate.file f) df) as [[[ | r rs] | e] | ];
    try exact Hd.
  now apply df_to_sql_unique_keys.
Qed.

Lemma migrate_monthly_unique_keys {pd : Pandas} (d : database) (f : Migrate.csv_file) :
  unique_keys d -> unique_keys (Migrate.migrate_monthly d f).
Proof.
  intros Hd. unfold Migrate.migrate_monthly.
  destruct (Migrate.read_csv f) as [df | e]; [ | exact Hd].
  destruct (Text.search_year_csv (Migrate.file f)) as [year | ]; [ | exact Hd].
  destruct (Migrate.monthly_frame (Migrate.file f) year df)
    as [[[ | r rs] | e] | ]; try exact Hd.
  now apply df_to_sql_unique_keys.
Qed.

Lemma empty_unique_keys : unique_keys empty_database.
Proof. split; constructor. Qed.

Lemma migrate_csvs_unique_keys {pd : Pandas}
  (data_dir : option (list Migrate.csv_file)) (d : database) :
  unique_keys d -> unique_keys (Migrate.migrate_csvs data_dir d).
Proof.
  intros Hd. unfold Migrate.migrate_csvs.
  destruct data_dir as [listing | ]; [ | exact Hd].
  apply fold_left_unique_keys; [apply migrate_monthly_unique_keys | ].
  apply fold_left_unique_keys; [apply migrate_annual_unique_keys | ].
  exact empty_unique_keys.
Qed.

Lemma perform_unique_keys {pd : Pandas} (op : operation) (d : database) :
  unique_keys d -> unique_keys (perform op d).
Proof.
  intros Hd. destruct op; simpl.
  - exact Hd.
  - now apply persist_unique_keys.
  - exact empty_unique_keys.
  - now apply migrate_annual_unique_keys.
  - now apply migrate_monthly_unique_keys.
  - now apply migrate_csvs_unique_keys.
Qed.

(** C5. In every state of the database that the scraper and the
    migration can reach, [annual_registrations] has no two rows with
    the same (Name, DataType, Year) and [monthly_registrations] has no
    two rows with the same (Name, DataType, Year, Month). *)
Theorem reachable_unique_keys :
  forall (P : Pandas) (d : database), reachable d -> unique_keys d.
Proof.
  intros P d H. induction H as [ | d op Hd IH].
  - exact empty_unique_keys.
  - now apply perform_unique_keys.
Qed.

Lemma reachable_unique_keys_witness :
  unique_keys
    {| annual_registrations := [honda 2021 10; honda 2022 20];
       monthly_registrations := [honda_month "JAN" 5] |}.
Proof.
  apply (reachable_unique_keys {| to_numeric_text := fun _ => None |}).
  apply (reachable_step
           {| annual_registrations := [honda 2021 10; honda 2022 20];
              monthly_registrations := [] |}
           (scraper_insert_data_into_db
              (monthly_records [honda_month "JAN" 5]) "monthly_registrations")).
  apply (reachable_step
           {| annual_registrations := [honda 2021 10; honda 2022 20];
              monthly_registrations := [] |}
           (scraper_insert_data_into_db
              (annual_records [honda 2023 30; honda 2021 20])
              "annual_registrations")).
  apply (reachable_step
           {| annual_registrations := [honda 2021 10];
              monthly_registrations := [] |}
           (scraper_insert_data_into_db
              (annual_records [honda 2022 20]) "annual_registrations")).
  apply (reachable_step empty_database
           (scraper_insert_data_into_db
              (annual_records [honda 2021 10]) "annual_registrations")).
  apply reachable_new.
Defined.

(** ** The choice of the table *)

Lemma best_df_from_serial (before after : list table) (t : table)
  (best : option table) :
  (forall x, In x before -> serial_rule x = false) ->
  serial_rule t = true ->
  Scraper.best_df_from (before ++ t :: after) best = Some t.
Proof.
  revert best. induction before as [ | x before IH]; intros best Hb Ht.
  - simpl. unfold serial_rule in Ht. now rewrite Ht.
  - simpl. pose proof (Hb x (or_introl eq_refl)) as Hx.
    unfold serial_rule in Hx. rewrite Hx.
    assert (Hb' : forall y, In y before -> serial_rule y = false)
      by (intros y Hy; apply Hb; now right).
    destruct ((1 <? table_shape0 x)%nat && (2 <? table_shape1 x)%nat
              && match best with
                 | Some b => (table_size b <? table_size x)%nat
                 | None => true
                 end); now apply IH.
Qed.

(** What the loop returns when no table passes rule (a): the running
    best when nothing beats it, else the first of the largest tables
    that pass rule (b). *)
Lemma best_df_from_size (tables : list table) (best : option table) :
  (forall x, In x tables -> serial_rule x = false) ->
  match Scraper.best_df_from tables best with
  | None => best = None /\ forall x, In x tables -> size_rule x = false
  | Some b =>
      (best = Some b /\
       forall x, In x tables -> size_rule x = true ->
                 (table_size x <= table_size b)%nat)
      \/
      (exists before after,
          tables = before ++ b :: after /\ size_rule b = true /\
          (forall x, In x before -> size_rule x = true ->
                     (table_size x < table_size b)%nat) /\
          (forall x, In x after -> size_rule x = true ->
                     (table_size x <= table_size b)%nat) /\
          match best with
          | Some a => (table_size a < table_size b)%nat
          | None => True
          end)
  end.
Proof.
  revert best. induction tables as [ | x tables IH]; intros best Hs.
  - simpl. destruct best as [b | ].
    + left. split; [reflexivity | intros x []].
    + split; [reflexivity | intros x []].
  - simpl. pose proof (Hs x (or_introl eq_refl)) as Hx.
    unfold serial_rule in Hx. rewrite Hx.
    assert (Hs' : forall y, In y tables -> serial_rule y = false)
      by (intros y Hy; apply Hs; now right).
    fold (size_rule x).
    destruct (size_rule x) eqn:Hq; simpl.
    + destruct best as [a | ].
      * destruct (table_size a <? table_size x)%nat eqn:Hlt.
        -- apply Nat.ltb_lt in Hlt.
           specialize (IH (Some x) Hs').
           destruct (Scraper.best_df_from tables (Some x)) as [b | ];
             [ | destruct IH as [IH _]; discriminate IH].
           right. destruct IH as [[Hb Hle] | [before [after [-> [Hqb [Hbef [Haft Hgt]]]]]]].
           ++ inversion Hb; subst b. exists [], tables.
              repeat split; auto. intros y [].
           ++ exists (x :: before), after. repeat split; auto.
              ** intros y [<- | Hy] Hqy; [exact Hgt | now apply Hbef].
              ** lia.
        -- apply Nat.ltb_ge in Hlt.
           specialize (IH (Some a) Hs').
           destruct (Scraper.best_df_from tables (Some a)) as [b | ];
             [ | destruct IH as [IH _]; discriminate IH].
           destruct IH as [[Hb Hle] | [before [after [-> [Hqb [Hbef [Haft Hgt]]]]]]].
           ++ inversion Hb; subst b. left. split; [reflexivity | ].
              intros y [<- | Hy] Hqy; [exact Hlt | now apply Hle].
           ++ right. exists (x :: before), after. repeat split; auto.
              intros y [<- | Hy] Hqy; [lia | now apply Hbef].
      * specialize (IH (Some x) Hs').
        destruct (Scraper.best_df_from tables (Some x)) as [b | ];
          [ | destruct IH as [IH _]; discriminate IH].
        right. destruct IH as [[Hb Hle] | [before [after [-> [Hqb [Hbef [Haft Hgt]]]]]]].
        -- inversion Hb; subst b. exists [], tables.
           repeat split; auto. intros y [].
        -- exists (x :: before), after. repeat split; auto.
           intros y [<- | Hy] Hqy; [exact Hgt | now apply Hbef].
    + specialize (IH best Hs').
      destruct (Scraper.best_df_from tables best) as [b | ].
      * destruct IH as [[Hb Hle] | [before [after [-> [Hqb [Hbef [Haft Hgt]]]]]]].
        -- left. split; [exact Hb | ].
           intros y [<- | Hy] Hqy; [congruence | now apply Hle].
        -- right. exists (x :: before), after. repeat split; auto.
           intros y [<- | Hy] Hqy; [congruence | now apply Hbef].
      * destruct IH as [Hb Hn]. split; [exact Hb | ].
        intros y [<- | Hy]; [exact Hq | now apply Hn].
Qed.

(** C4, as stated, fails: a table whose serial column is labelled
    "S. No" comes first and is chosen, though a table with an "S No"
    column and three rows is among the candidates. *)
Lemma S_No_table_is_not_always_chosen :
  ~ S_No_table_is_chosen [dotted_table; undotted_table].
Proof.
  intros H.
  destruct H as [t [Ht Hs]].
  - exists undotted_table. split; [right; now left | ].
    split; [reflexivity | ]. unfold table_shape0; simpl. lia.
  - vm_compute in Ht. inversion Ht; subst t. vm_compute in Hs. discriminate Hs.
Qed.

(** C4, amended.  The serial-number rule holds for a table with more
    than one row and a column whose label contains "S No" or "S. No".
    The first table of the list that passes it is chosen, whatever the
    sizes of the other tables.  Only when no table passes it is the
    largest table (rows times columns) among those with more than one
    row and more than two columns chosen, the first of them when
    several are largest, and no table when there is none. *)
Theorem best_df_serial_rule_first :
  forall (tables : list table),
    (forall before t after,
        tables = before ++ t :: after ->
        serial_rule t = true ->
        (forall x, In x before -> serial_rule x = false) ->
        Scraper.best_df tables = Some t) /\
    ((forall x, In x tables -> serial_rule x = false) ->
     match Scraper.best_df tables with
     | None => forall x, In x tables -> size_rule x = false
     | Some b =>
         exists before after,
           tables = before ++ b :: after /\ size_rule b = true /\
           (forall x, In x before -> size_rule x = true ->
                      (table_size x < table_size b)%nat) /\
           (forall x, In x after -> size_rule x = true ->
                      (table_size x <= table_size b)%nat)
     end).
Proof.
  intros tables. split.
  - intros before t after -> Ht Hb. unfold Scraper.best_df.
    now apply best_df_from_serial.
  - intros Hs. unfold Scraper.best_df.
    pose proof (best_df_from_size tables None Hs) as H.
    destruct (Scraper.best_df_from tables None) as [b | ].
    + destruct H as [[H _] | [before [after [H1 [H2 [H3 [H4 _]]]]]]];
        [discriminate H | ].
      exists before, after. now repeat split.
    + now destruct H.
Qed.

Lemma best_df_serial_rule_first_witness :
  Scraper.best_df [dotted_table; undotted_table] = Some dotted_table
  /\ match Scraper.best_df [layout_table; plain_table] with
     | None => forall x, In x [layout_table; plain_table] -> size_rule x = false
     | Some b =>
         exists before after,
           [layout_table; plain_table] = before ++ b :: after /\
           size_rule b = true /\
           (forall x, In x before -> size_rule x = true ->
                      (table_size x < table_size b)%nat) /\
           (forall x, In x after -> size_rule x = true ->
                      (table_size x <= table_size b)%nat)
     end.
Proof.
  split.
  - apply (proj1 (best_df_serial_rule_first [dotted_table; undotted_table])
             [] dotted_table [undotted_table] eq_refl eq_refl).
    intros x [].
  - apply (proj2 (best_df_serial_rule_first [layout_table; plain_table])).
    intros x [<- | [<- | []]]; reflexivity.
Defined.

(** ** The frames built for the tables *)

Lemma fillna0_to_numeric_coerce {pd : Pandas} (c : cell) :
  fillna0 (to_numeric_coerce c) = Num (stored_number c).
Proof.
  unfold stored_number. destruct c as [ | n | s]; simpl; try reflexivity.
  destruct (to_numeric_text s) as [[n | ] | ]; reflexivity.
Qed.

Lemma gt0_kept (name value : cell) :
  isna name = false -> gt0 value = true -> Migrate.kept name value = true.
Proof.
  intros Hn Hv. unfold Migrate.kept. rewrite Hn, Hv.
  destruct value; [discriminate Hv | reflexivity | discriminate Hv].
Qed.

(** C2, as stated, fails for the scraper: of the two year columns it
    reads the first one only, and builds two records. *)
Lemma calendar_year_records_are_not_four :
  ~ four_annual_records
      (Scraper.calendar_year_records
         (wide [Num 1; Str "HONDA"; Num 10; Num 20; Num 30]
               [Num 2; Str "TVS"; Num 5; Num 6; Num 11])
         "Maker").
Proof.
  intros [rs [H Hlen]]. vm_compute in H. inversion H; subst rs.
  discriminate Hlen.
Qed.

(** C2, amended.  For the wide table with columns "S No", "Name",
    "Calendar Year_2021", "Calendar Year_2022", "TOTAL" and two rows:
    the scraper reads the first year column only and builds two
    records, one per row, with the year 2021 of its label; the migration
    builds one record per row and year column, with the year of the
    label, and keeps those whose name is present and whose cell converts
    to a positive number, so exactly four when the names are present and
    the four cells are positive.  No record takes its value from
    "TOTAL". *)
Theorem calendar_year_normalizers :
  forall (P : Pandas) (s1 n1 a1 b1 t1 s2 n2 a2 b2 t2 : cell)
         (y_axis_option file : string),
    let df := wide [s1; n1; a1; b1; t1] [s2; n2; a2; b2; t2] in
    let v := fun c => fillna0 (to_numeric_coerce c) in
    let ty := Migrate.df_type file in
    Scraper.calendar_year_records df y_axis_option
    = Some (Return (annual_records
                      [annual n1 y_axis_option 2021 a1;
                       annual n2 y_axis_option 2021 a2]))
    /\ Migrate.annual_frame file df
       = Some (Return
                 (filter
                    (fun r => Migrate.kept (Annual.Name r) (Annual.Registrations r))
                    [annual n1 ty 2021 (v a1); annual n2 ty 2021 (v a2);
                     annual n1 ty 2022 (v b1); annual n2 ty 2022 (v b2)]))
    /\ (isna n1 = false -> isna n2 = false ->
        gt0 (v a1) = true -> gt0 (v a2) = true ->
        gt0 (v b1) = true -> gt0 (v b2) = true ->
        Migrate.annual_frame file df
        = Some (Return
                  [annual n1 ty 2021 (v a1); annual n2 ty 2021 (v a2);
                   annual n1 ty 2022 (v b1); annual n2 ty 2022 (v b2)])).
Proof.
  intros P s1 n1 a1 b1 t1 s2 n2 a2 b2 t2 y_axis_option file df v ty.
  assert (Hm : Migrate.annual_frame file df
               = Some (Return
                         (filter
                            (fun r => Migrate.kept (Annual.Name r)
                                        (Annual.Registrations r))
                            [annual n1 ty 2021 (v a1); annual n2 ty 2021 (v a2);
                             annual n1 ty 2022 (v b1); annual n2 ty 2022 (v b2)]))).
  { unfold ty, Migrate.annual_frame, Migrate.df_type.
    destruct (Text.contains "Y_Vehicle_Category_" file); reflexivity. }
  split; [reflexivity | ]. split; [exact Hm | ].
  intros H1 H2 H3 H4 H5 H6. rewrite Hm. cbn [filter annual Annual.Name Annual.Registrations].
  now rewrite !gt0_kept.
Qed.

Lemma calendar_year_normalizers_witness :
  Migrate.annual_frame (pd := no_numeric_text)
    "Y_Maker_X_Calendar_Year_Year_2022.csv"
    (wide [Num 1; Str "HONDA"; Num 10; Num 20; Num 30]
          [Num 2; Str "TVS"; Num 5; Num 6; Num 11])
  = Some (Return
            [annual (Str "HONDA") "Manufacturer" 2021 (Num 10);
             annual (Str "TVS") "Manufacturer" 2021 (Num 5);
             annual (Str "HONDA") "Manufacturer" 2022 (Num 20);
             annual (Str "TVS") "Manufacturer" 2022 (Num 6)]).
Proof.
  apply (proj2 (proj2 (calendar_year_normalizers no_numeric_text
                         (Num 1) (Str "HONDA") (Num 10) (Num 20) (Num 30)
                         (Num 2) (Str "TVS") (Num 5) (Num 6) (Num 11)
                         "Maker" "Y_Maker_X_Calendar_Year_Year_2022.csv")));
    reflexivity.
Defined.

(** The migration keeps positive registrations only. *)
Lemma annual_frame_positive {pd : Pandas} (file : string) (df : DataFrame)
  (rs : list Annual.row) :
  Migrate.annual_frame file df = Some (Return rs) ->
  forall r, In r rs -> gt0 (Annual.Registrations r) = true.
Proof.
  unfold Migrate.annual_frame.
  destruct (position "Name" _) as [name_col | ]; [ | discriminate].
  destruct (filter Migrate.is_year_col _) as [ | c cs]; [discriminate | ].
  destruct (negb (distinct _)); [discriminate | ].
  destruct (Migrate.annual_rows _ _) as [built | e]; [ | discriminate].
  intros Heq r Hr. inversion Heq; subst rs.
  apply filter_In in Hr. destruct Hr as [_ Hk].
  unfold Migrate.kept in Hk. now apply andb_true_iff in Hk.
Qed.

Lemma monthly_frame_positive {pd : Pandas} (file : string) (year : Z)
  (df : DataFrame) (rs : list Monthly.row) :
  Migrate.monthly_frame file year df = Some (Return rs) ->
  forall r, In r rs -> gt0 (Monthly.MonthlyRegistrations r) = true.
Proof.
  unfold Migrate.monthly_frame.
  destruct (position "Name" _) as [name_col | ]; [ | discriminate].
  destruct (filter _ _) as [ | c cs]; [discriminate | ].
  destruct (negb (distinct _)); [discriminate | ].
  intros Heq r Hr. inversion Heq; subst rs.
  apply filter_In in Hr. destruct Hr as [_ Hk].
  unfold Migrate.kept in Hk. now apply andb_true_iff in Hk.
Qed.

(** C3 on the scraper.  A month-wise table whose first row has FEB = 0
    is scraped into an empty database for 2023: the record for FEB, with
    registrations 0, is in [monthly_registrations] afterwards. *)
Theorem scraper_persists_zero_registrations :
  In (honda_month "FEB" 0)
    (monthly_registrations
       (db (snd (Scraper.scrape_table_data_to_db
                   (drv := still_page [month_wise_table])
                   (pd := no_numeric_text)
                   "Maker" "Month Wise" 2023 (quiet_world empty_database))))).
Proof. vm_compute. right. right. now left. Qed.







(** ** The migration *)

Lemma df_to_sql_annual_rows (rs : list Annual.row) (d : database) :
  let d' := snd (df_to_sql (annual_records rs) "annual_registrations" d) in
  monthly_registrations d' = monthly_registrations d /\
  (annual_registrations d' = annual_registrations d \/
   annual_registrations d' = annual_registrations d ++ map Annual.stored rs).
Proof.
  rewrite df_to_sql_annual.
  destruct (to_sql_all_or_nothing Annual.key Annual.key_eq_dec Annual.not_null
              Annual.fits Annual.stored annual_key_stored
              rs (annual_registrations d)) as [[-> _] | [e ->]]; simpl; auto.
Qed.

Lemma df_to_sql_monthly_rows (rs : list Monthly.row) (d : database) :
  let d' := snd (df_to_sql (monthly_records rs) "monthly_registrations" d) in
  annual_registrations d' = annual_registrations d /\
  (monthly_registrations d' = monthly_registrations d \/
   monthly_registrations d'
   = monthly_registrations d ++ map Monthly.stored rs).
Proof.
  rewrite df_to_sql_monthly.
  destruct (to_sql_all_or_nothing Monthly.key Monthly.key_eq_dec
              Monthly.not_null Monthly.fits Monthly.stored monthly_key_stored
              rs (monthly_registrations d)) as [[-> _] | [e ->]];
    simpl; auto.
Qed.

(** One turn of the first loop adds rows of its file only. *)
Lemma migrate_annual_rows {pd : Pandas} (d : database) (f : Migrate.csv_file) :
  monthly_registrations (Migrate.migrate_annual d f) = monthly_registrations d /\
  forall r, In r (annual_registrations (Migrate.migrate_annual d f)) ->
            In r (annual_registrations d) \/
            exists df rs,
              Migrate.read_csv f = Return df /\
              Migrate.annual_frame (Migrate.file f) df = Some (Return rs) /\
              In r (map Annual.stored rs).
Proof.
  unfold Migrate.migrate_annual.
  destruct (Migrate.read_csv f) as [df | e]; [ | now auto].
  destruct (Migrate.annual_frame (Migrate.file f) df)
    as [[[ | x xs] | e] | ] eqn:Hf; try (now auto).
  destruct (df_to_sql_annual_rows (x :: xs) d) as [Hm [Ha | Ha]].
  - split; [exact Hm | ]. intros r Hr. left. now rewrite Ha in Hr.
  - split; [exact Hm | ]. intros r Hr. rewrite Ha in Hr.
    apply in_app_or in Hr. destruct Hr as [Hr | Hr]; [now left | right].
    now exists df, (x :: xs).
Qed.

Lemma migrate_monthly_rows {pd : Pandas} (d : database) (f : Migrate.csv_file) :
  annual_registrations (Migrate.migrate_monthly d f) = annual_registrations d /\
  forall r, In r (monthly_registrations (Migrate.migrate_monthly d f)) ->
            In r (monthly_registrations d) \/
            exists df year rs,
              Migrate.read_csv f = Return df /\
              Text.search_year_csv (Migrate.file f) = Some year /\
              Migrate.monthly_frame (Migrate.file f) year df = Some (Return rs) /\
              In r (map Monthly.stored rs).
Proof.
  unfold Migrate.migrate_monthly.
  destruct (Migrate.read_csv f) as [df | e]; [ | now auto].
  destruct (Text.search_year_csv (Migrate.file f)) as [year | ]; [ | now auto].
  destruct (Migrate.monthly_frame (Migrate.file f) year df)
    as [[[ | x xs] | e] | ] eqn:Hf; try (now auto).
  destruct (df_to_sql_monthly_rows (x :: xs) d) as [Ha [Hm | Hm]].
  - split; [exact Ha | ]. intros r Hr. left. now rewrite Hm in Hr.
  - split; [exact Ha | ]. intros r Hr. rewrite Hm in Hr.
    apply in_app_or in Hr. destruct Hr as [Hr | Hr]; [now left | right].
    now exists df, year, (x :: xs).
Qed.

Lemma fold_migrate_annual_rows {pd : Pandas} (files : list Migrate.csv_file)
  (d : database) :
  monthly_registrations (fold_left Migrate.migrate_annual files d)
  = monthly_registrations d /\
  forall r, In r (annual_registrations (fold_left Migrate.migrate_annual files d)) ->
            In r (annual_registrations d) \/
            exists f df rs,
              In f files /\ Migrate.read_csv f = Return df /\
              Migrate.annual_frame (Migrate.file f) df = Some (Return rs) /\
              In r (map Annual.stored rs).
Proof.
  revert d. induction files as [ | f files IH]; intros d; simpl.
  - split; [reflexivity | now left].
  - destruct (IH (Migrate.migrate_annual d f)) as [Hm Ha].
    destruct (migrate_annual_rows d f) as [Hm1 Ha1].
    split; [now rewrite Hm | ].
    intros r Hr. destruct (Ha r Hr) as [Hin | [g [df [rs [Hg H]]]]].
    + destruct (Ha1 r Hin) as [Hd | [df [rs H]]]; [now left | right].
      exists f, df, rs. split; [now left | exact H].
    + right. exists g, df, rs. split; [now right | exact H].
Qed.

Lemma fold_migrate_monthly_rows {pd : Pandas} (files : list Migrate.csv_file)
  (d : database) :
  annual_registrations (fold_left Migrate.migrate_monthly files d)
  = annual_registrations d /\
  forall r, In r (monthly_registrations
                    (fold_left Migrate.migrate_monthly files d)) ->
            In r (monthly_registrations d) \/
            exists f df year rs,
              In f files /\ Migrate.read_csv f = Return df /\
              Text.search_year_csv (Migrate.file f) = Some year /\
              Migrate.monthly_frame (Migrate.file f) year df = Some (Return rs) /\
              In r (map Monthly.stored rs).
Proof.
  revert d. induction files as [ | f files IH]; intros d; simpl.
  - split; [reflexivity | now left].
  - destruct (IH (Migrate.migrate_monthly d f)) as [Ha Hm].
    destruct (migrate_monthly_rows d f) as [Ha1 Hm1].
    split; [now rewrite Ha | ].
    intros r Hr. destruct (Hm r Hr) as [Hin | [g [df [year [rs [Hg H]]]]]].
    + destruct (Hm1 r Hin) as [Hd | [df [year [rs H]]]]; [now left | right].
      exists f, df, year, rs. split; [now left | exact H].
    + right. exists g, df, year, rs. split; [now right | exact H].
Qed.

(** On an existing data directory [migrate_csvs] starts from the two
    tables dropped and created anew. *)
Lemma migrate_csvs_from_scratch :
  forall (P : Pandas) (listing : list Migrate.csv_file) (d : database),
    Migrate.initialize_db d = empty_database /\
    Migrate.migrate_csvs (Some listing) d
    = Migrate.migrate_csvs (Some listing) empty_database /\
    (forall r, In r (annual_registrations (Migrate.migrate_csvs (Some listing) d)) ->
               from_annual_csv listing r) /\
    (forall r, In r (monthly_registrations (Migrate.migrate_csvs (Some listing) d)) ->
               from_monthly_csv listing r).
Proof.
  intros P listing d. split; [reflexivity | ]. split; [reflexivity | ].
  unfold Migrate.migrate_csvs.
  set (d1 := fold_left Migrate.migrate_annual
               (filter Migrate.is_calendar_year_file listing)
               (Migrate.initialize_db d)).
  destruct (fold_migrate_annual_rows
              (filter Migrate.is_calendar_year_file listing)
              (Migrate.initialize_db d)) as [Hm1 Ha1].
  destruct (fold_migrate_monthly_rows
              (filter Migrate.is_month_wise_file listing) d1) as [Ha2 Hm2].
  split.
  - intros r Hr. rewrite Ha2 in Hr.
    destruct (Ha1 r Hr) as [[] | [f [df [rs [Hf [H1 [H2 H3]]]]]]].
    apply filter_In in Hf. destruct Hf as [Hf Hc].
    now exists f, df, rs.
  - intros r Hr.
    destruct (Hm2 r Hr) as [Hin | [f [df [year [rs [Hf [H1 [H2 [H3 H4]]]]]]]]].
    + unfold d1 in Hin. rewrite Hm1 in Hin. destruct Hin.
    + apply filter_In in Hf. destruct Hf as [Hf Hc].
      now exists f, df, year, rs.
Qed.

(** C9. Running the migration is destructive to the prior state:
    whatever the database holds before, [migrate_csvs] first drops and
    creates anew both tables, so the result is the one obtained from
    the empty tables (no earlier row survives) and every row of the two
    tables is built from a CSV file of the data directory. *)
Theorem migration_is_destructive :
  forall (P : Pandas) (data_dir : option (list Migrate.csv_file))
         (d : database),
    Migrate.main data_dir d = Migrate.main data_dir empty_database /\
    Migrate.main data_dir d
    = fold_left Migrate.migrate_monthly
        (filter Migrate.is_month_wise_file (listing_of data_dir))
        (fold_left Migrate.migrate_annual
           (filter Migrate.is_calendar_year_file (listing_of data_dir))
           (Migrate.initialize_db d)) /\
    Migrate.initialize_db d = empty_database /\
    (forall r, In r (annual_registrations (Migrate.main data_dir d)) ->
               from_annual_csv (listing_of data_dir) r) /\
    (forall r, In r (monthly_registrations (Migrate.main data_dir d)) ->
               from_monthly_csv (listing_of data_dir) r).
Proof.
  intros P data_dir d.
  assert (Hmain : Migrate.main data_dir d
                  = Migrate.migrate_csvs (Some (listing_of data_dir)) d)
    by (destruct data_dir; reflexivity).
  destruct (migrate_csvs_from_scratch P (listing_of data_dir) d)
    as [H0 [H1 [H2 H3]]].
  split; [destruct data_dir; reflexivity | ].
  split; [destruct data_dir; reflexivity | ].
  split; [reflexivity | ].
  rewrite Hmain. now split.
Qed.

Lemma migration_is_destructive_witness :
  Migrate.main (pd := no_numeric_text) (Some [honda_csv])
    {| annual_registrations := [honda 2021 10]; monthly_registrations := [] |}
  = {| annual_registrations := [annual (Str "HONDA") "Manufacturer" 2022 (Num 20)];
       monthly_registrations := [] |}
  /\ from_annual_csv (pd := no_numeric_text) [honda_csv]
       (annual (Str "HONDA") "Manufacturer" 2022 (Num 20)).
Proof.
  split; [reflexivity | ].
  apply (proj1 (proj2 (proj2 (proj2
           (migration_is_destructive no_numeric_text (Some [honda_csv])
              {| annual_registrations := [honda 2021 10];
                 monthly_registrations := [] |}))))).
  left. reflexivity.
Defined.

(** ** The growth computation *)

Section GrowthFacts.
Context {P : Type}.
Variable cmp : P -> P -> comparison.
Hypothesis cmp_antisym : forall a b, cmp a b = CompOpp (cmp b a).
Hypothesis cmp_trans :
  forall a b c, cmp a b = Lt -> cmp b c = Lt -> cmp a c = Lt.

Lemma string_compare_trans (a b c : string) :
  String.compare a b = Lt -> String.compare b c = Lt -> String.compare a c = Lt.
Proof.
  intros Hab Hbc. apply String_as_OT.cmp_lt.
  apply String_as_OT.lt_trans with (y := b); now apply String_as_OT.cmp_lt.
Qed.

Lemma compare_key_antisym (a b : App.entry P) :
  App.compare_key cmp a b = CompOpp (App.compare_key cmp b a).
Proof.
  unfold App.compare_key. rewrite String.compare_antisym.
  destruct (String.compare (App.group b) (App.group a)); simpl; auto.
Qed.

Lemma key_lt_trans (a b c : App.entry P) :
  key_lt cmp a b -> key_lt cmp b c -> key_lt cmp a c.
Proof.
  unfold key_lt, App.compare_key. intros Hab Hbc.
  destruct (String.compare (App.group a) (App.group b)) eqn:Gab;
    try discriminate;
    destruct (String.compare (App.group b) (App.group c)) eqn:Gbc;
    try discriminate.
  - apply String.compare_eq_iff in Gab. rewrite Gab, Gbc.
    eapply cmp_trans; eassumption.
  - apply String.compare_eq_iff in Gab. now rewrite Gab, Gbc.
  - apply String.compare_eq_iff in Gbc. now rewrite <- Gbc, Gab.
  - now rewrite (string_compare_trans _ _ _ Gab Gbc).
Qed.

Lemma add_to_groups_Forall (g e : App.entry P) (l : list (App.entry P)) :
  Forall (key_lt cmp g) l -> key_lt cmp g e ->
  Forall (key_lt cmp g) (App.add_to_groups cmp e l).
Proof.
  intros Hl He. induction l as [ | x l IH]; simpl.
  - now constructor.
  - inversion Hl as [ | ? ? Hx Hl']; subst.
    destruct (App.compare_key cmp e x).
    + constructor; [exact Hx | exact Hl'].
    + now repeat constructor.
    + constructor; [exact Hx | now apply IH].
Qed.

(** Grouping keeps the keys in strictly increasing order. *)
Lemma add_to_groups_sorted (e : App.entry P) (l : list (App.entry P)) :
  StronglySorted (key_lt cmp) l ->
  StronglySorted (key_lt cmp) (App.add_to_groups cmp e l).
Proof.
  induction 1 as [ | x l Hs IH Hx]; simpl.
  - repeat constructor.
  - destruct (App.compare_key cmp e x) eqn:Hc.
    + constructor; [exact Hs | exact Hx].
    + constructor; [now constructor | ].
      constructor; [exact Hc | ].
      eapply Forall_impl; [ | exact Hx].
      intros y Hy. now apply key_lt_trans with (b := x).
    + constructor; [exact IH | ].
      apply add_to_groups_Forall; [exact Hx | ].
      unfold key_lt. rewrite compare_key_antisym, Hc. reflexivity.
Qed.

Lemma groupby_sum_sorted (df : list (App.entry P)) :
  StronglySorted (key_lt cmp) (App.groupby_sum cmp df).
Proof.
  unfold App.groupby_sum.
  assert (H : forall acc, StronglySorted (key_lt cmp) acc ->
                          StronglySorted (key_lt cmp)
                            (fold_left (fun groups e => App.add_to_groups cmp e groups)
                               df acc)).
  { induction df as [ | e df IH]; simpl; intros acc Hacc; [exact Hacc | ].
    apply IH. now apply add_to_groups_sorted. }
  apply H. constructor.
Qed.

(** Sorting a frame whose keys increase leaves it as it is. *)
Lemma sort_values_sorted (l : list (App.entry P)) :
  StronglySorted (key_lt cmp) l -> App.sort_values cmp l = l.
Proof.
  induction 1 as [ | x l Hs IH Hx]; [reflexivity | ].
  unfold App.sort_values in *. simpl. rewrite IH.
  destruct l as [ | y l]; [reflexivity | ].
  simpl. inversion Hx as [ | ? ? Hy _]; subst.
  unfold key_lt in Hy. now rewrite Hy.
Qed.

Lemma shift1_fst (seen : list (string * Z)) (l : list (App.entry P)) :
  map fst (App.shift1 seen l) = l.
Proof.
  revert seen. induction l as [ | e l IH]; intros seen; simpl;
    [reflexivity | now rewrite IH].
Qed.









End GrowthFacts.

(** ** Sums of [int64] *)

Lemma wrap64_add_l (a b : Z) :
  App.wrap64 (App.wrap64 a + b) = App.wrap64 (a + b).
Proof.
  unfold App.wrap64. set (h := 2 ^ 63). set (m := 2 ^ 64).
  replace ((a + h) mod m - h + b + h) with ((a + h) mod m + b) by lia.
  rewrite Zplus_mod_idemp_l. f_equal. f_equal. lia.
Qed.

Lemma wrap64_add_r (a b : Z) :
  App.wrap64 (a + App.wrap64 b) = App.wrap64 (a + b).
Proof. rewrite Z.add_comm, wrap64_add_l. f_equal. lia. Qed.

Lemma wrap64_idem (a : Z) : App.wrap64 (App.wrap64 a) = App.wrap64 a.
Proof.
  pose proof (wrap64_add_l a 0) as H. now rewrite !Z.add_0_r in H.
Qed.

Lemma wrap64_add_eq (a x y : Z) :
  App.wrap64 x = App.wrap64 y -> App.wrap64 (a + x) = App.wrap64 (a + y).
Proof.
  intros H. rewrite <- (wrap64_add_r a x), <- (wrap64_add_r a y). now rewrite H.
Qed.

Lemma wrap64_small (a : Z) : - 2 ^ 63 <= a < 2 ^ 63 -> App.wrap64 a = a.
Proof.
  intros H. unfold App.wrap64.
  assert (E : 2 ^ 64 = 2 * 2 ^ 63) by reflexivity.
  rewrite Z.mod_small; lia.
Qed.

(** ** What the grouping sums *)

Section GrowthTotals.
Context {P : Type}.
Variable cmp : P -> P -> comparison.
Hypothesis cmp_antisym : forall a b, cmp a b = CompOpp (cmp b a).
Hypothesis cmp_trans :
  forall a b c, cmp a b = Lt -> cmp b c = Lt -> cmp a c = Lt.
Hypothesis cmp_eq : forall a b, cmp a b = Eq -> a = b.

Lemma cmp_refl (a : P) : cmp a a = Eq.
Proof.
  pose proof (cmp_antisym a a) as H. destruct (cmp a a); simpl in H; congruence.
Qed.

Lemma compare_key_Eq (a b : App.entry P) :
  App.compare_key cmp a b = Eq <-> key_eq a b.
Proof.
  unfold App.compare_key, key_eq. split.
  - destruct (String.compare (App.group a) (App.group b)) eqn:E;
      try discriminate.
    intros H. apply String.compare_eq_iff in E. split; [exact E | now apply cmp_eq].
  - intros [Hg Hp]. rewrite Hg, Hp.
    assert (Hrefl : String.compare (App.group b) (App.group b) = Eq)
      by now apply String_as_OT.cmp_eq.
    rewrite Hrefl. apply cmp_refl.
Qed.

Lemma same_key_true (k e : App.entry P) :
  same_key cmp k e = true <-> key_eq e k.
Proof.
  unfold same_key. rewrite <- compare_key_Eq.
  destruct (App.compare_key cmp e k); split; congruence.
Qed.

Lemma same_key_left (k k' e : App.entry P) :
  key_eq k k' -> same_key cmp k e = same_key cmp k' e.
Proof.
  intros [Hg Hp]. unfold same_key, App.compare_key. now rewrite Hg, Hp.
Qed.

Lemma same_key_right (k e e' : App.entry P) :
  key_eq e e' -> same_key cmp k e = same_key cmp k e'.
Proof.
  intros [Hg Hp]. unfold same_key, App.compare_key. now rewrite Hg, Hp.
Qed.

Lemma key_lt_same_key (a b : App.entry P) :
  key_lt cmp a b -> same_key cmp a b = false /\ same_key cmp b a = false.
Proof.
  unfold key_lt, same_key. intros H.
  rewrite H, (compare_key_antisym cmp cmp_antisym b a), H. now split.
Qed.

Lemma registrations_cons (e : App.entry P) (l : list (App.entry P)) :
  registrations (e :: l) = App.value e + registrations l.
Proof. reflexivity. Qed.

Lemma same_key_new_group (k e : App.entry P) :
  same_key cmp k (App.new_group e) = same_key cmp k e.
Proof. reflexivity. Qed.

(** Adding a row to the groups adds its registrations to the sum of its
    key and to no other. *)
Lemma registrations_add_to_groups (k e : App.entry P) (l : list (App.entry P)) :
  App.wrap64
    (registrations (filter (same_key cmp k) (App.add_to_groups cmp e l)))
  = App.wrap64
      (registrations (filter (same_key cmp k) l)
       + registrations (filter (same_key cmp k) [e])).
Proof.
  induction l as [ | g l IH]; cbn [App.add_to_groups].
  - cbn [filter]. rewrite same_key_new_group.
    destruct (same_key cmp k e); [ | reflexivity].
    cbn [registrations map fold_right App.value App.new_group].
    unfold App.add_int64. rewrite wrap64_add_l. f_equal; lia.
  - destruct (App.compare_key cmp e g) eqn:Hc.
    + apply compare_key_Eq in Hc.
      cbn [filter].
      rewrite (same_key_right k e g Hc).
      assert (Hm : same_key cmp k
                     {| App.group := App.group g; App.period := App.period g;
                        App.value := App.add_int64 (App.value g) (App.value e) |}
                   = same_key cmp k g)
        by (apply same_key_right; now split).
      rewrite Hm. destruct (same_key cmp k g);
        rewrite ?registrations_cons; cbn [App.value registrations fold_right map];
        [ | f_equal; lia].
      unfold App.add_int64. rewrite wrap64_add_l. f_equal; lia.
    + cbn [filter]. rewrite same_key_new_group.
      destruct (same_key cmp k e), (same_key cmp k g);
        rewrite ?registrations_cons;
        cbn [registrations fold_right map App.value App.new_group];
        unfold App.add_int64; rewrite ?wrap64_add_l; f_equal; lia.
    + cbn [filter] in *. destruct (same_key cmp k g);
        rewrite ?registrations_cons.
      * rewrite <- Z.add_assoc. now apply wrap64_add_eq.
      * exact IH.
Qed.

Lemma registrations_fold (k : App.entry P) (df acc : list (App.entry P)) :
  App.wrap64
    (registrations
       (filter (same_key cmp k)
          (fold_left (fun groups e => App.add_to_groups cmp e groups) df acc)))
  = App.wrap64
      (registrations (filter (same_key cmp k) acc)
       + registrations (filter (same_key cmp k) df)).
Proof.
  revert acc. induction df as [ | e df IH]; intros acc; cbn [fold_left].
  - cbn [filter registrations map fold_right]. f_equal; lia.
  - rewrite IH.
    rewrite (Z.add_comm _ (registrations (filter (same_key cmp k) df))).
    rewrite (wrap64_add_eq _ _ _ (registrations_add_to_groups k e acc)).
    f_equal. cbn [filter].
    destruct (same_key cmp k e); rewrite ?registrations_cons;
      cbn [registrations map fold_right]; lia.
Qed.

(** The groups hold, for each key, the sum of the rows of that key. *)
Lemma registrations_groupby_sum (k : App.entry P) (df : list (App.entry P)) :
  App.wrap64
    (registrations (filter (same_key cmp k) (App.groupby_sum cmp df)))
  = total cmp k df.
Proof. unfold App.groupby_sum, total. now rewrite registrations_fold. Qed.

(** Every sum of the groups is an [int64]. *)
Lemma add_to_groups_wrapped (e : App.entry P) (l : list (App.entry P)) :
  Forall (fun x => App.wrap64 (App.value x) = App.value x) l ->
  Forall (fun x => App.wrap64 (App.value x) = App.value x)
    (App.add_to_groups cmp e l).
Proof.
  induction 1 as [ | g l Hg Hl IH]; cbn [App.add_to_groups].
  - constructor; [apply wrap64_idem | constructor].
  - destruct (App.compare_key cmp e g).
    + constructor; [apply wrap64_idem | exact Hl].
    + constructor; [apply wrap64_idem | now constructor].
    + now constructor.
Qed.

Lemma groupby_sum_wrapped (df : list (App.entry P)) (x : App.entry P) :
  In x (App.groupby_sum cmp df) -> App.wrap64 (App.value x) = App.value x.
Proof.
  unfold App.groupby_sum.
  assert (H : forall acc,
             Forall (fun x => App.wrap64 (App.value x) = App.value x) acc ->
             Forall (fun x => App.wrap64 (App.value x) = App.value x)
               (fold_left (fun groups e => App.add_to_groups cmp e groups)
                  df acc)).
  { induction df as [ | e df IH]; intros acc Hacc; cbn [fold_left];
      [exact Hacc | ].
    apply IH. now apply add_to_groups_wrapped. }
  intros Hx. specialize (H [] (Forall_nil _)). rewrite Forall_forall in H.
  now apply H.
Qed.

Lemma filter_none {A : Type} (f : A -> bool) (l : list A) :
  (forall x, In x l -> f x = false) -> filter f l = [].
Proof.
  induction l as [ | x l IH]; intros H; [reflexivity | ].
  cbn [filter]. rewrite (H x (or_introl eq_refl)). apply IH.
  intros y Hy. apply H. now right.
Qed.

(** In a frame whose keys increase, a key is the key of one row. *)
Lemma registrations_sorted (l : list (App.entry P)) (r : App.entry P) :
  StronglySorted (key_lt cmp) l -> In r l ->
  registrations (filter (same_key cmp r) l) = App.value r.
Proof.
  induction 1 as [ | x l Hs IH Hx]; intros Hin; [contradiction | ].
  rewrite Forall_forall in Hx. cbn [filter]. destruct Hin as [<- | Hin].
  - rewrite (proj2 (same_key_true x x)) by (now split).
    rewrite filter_none; [rewrite registrations_cons; cbn; lia | ].
    intros y Hy. exact (proj1 (key_lt_same_key x y (Hx y Hy))).
  - rewrite (proj2 (key_lt_same_key x r (Hx r Hin))). now apply IH.
Qed.

(** A group holds the total of its key. *)
Lemma groupby_sum_value (df : list (App.entry P)) (x : App.entry P) :
  In x (App.groupby_sum cmp df) -> App.value x = total cmp x df.
Proof.
  intros Hx. rewrite <- registrations_groupby_sum.
  rewrite (registrations_sorted _ x
             (groupby_sum_sorted cmp cmp_antisym cmp_trans df) Hx).
  symmetry. now apply groupby_sum_wrapped with df.
Qed.

Lemma rows_of_growth_table (df : list (App.entry P)) :
  map (@App.row P) (growth_table cmp df) = App.groupby_sum cmp df.
Proof.
  unfold growth_table. rewrite map_map. cbn [App.row growth_row_of].
  transitivity (map fst (App.shift1 []
                           (App.sort_values cmp (App.groupby_sum cmp df)))).
  - apply map_ext. reflexivity.
  - rewrite shift1_fst. apply sort_values_sorted.
    now apply groupby_sum_sorted.
Qed.

Lemma add_to_groups_In (e x : App.entry P) (l : list (App.entry P)) :
  In x (App.add_to_groups cmp e l) ->
  key_eq e x \/ exists y, In y l /\ key_eq y x.
Proof.
  induction l as [ | g l IH]; cbn [App.add_to_groups].
  - intros [<- | []]. left. now split.
  - destruct (App.compare_key cmp e g) eqn:Hc.
    + intros [<- | Hx].
      * right. exists g. split; [now left | now split].
      * right. exists x. split; [now right | now split].
    + intros [<- | Hx].
      * left. now split.
      * right. exists x. split; [exact Hx | now split].
    + intros [<- | Hx].
      * right. exists g. split; [now left | now split].
      * destruct (IH Hx) as [H | (y & Hy & H)]; [now left | ].
        right. exists y. split; [now right | exact H].
Qed.

Lemma add_to_groups_has (e : App.entry P) (l : list (App.entry P)) :
  exists x, In x (App.add_to_groups cmp e l) /\ key_eq e x.
Proof.
  induction l as [ | g l IH]; cbn [App.add_to_groups].
  - exists (App.new_group e). split; [now left | now split].
  - destruct (App.compare_key cmp e g) eqn:Hc.
    + apply compare_key_Eq in Hc. eexists. split; [now left | exact Hc].
    + exists (App.new_group e). split; [now left | now split].
    + destruct IH as (x & Hx & H). exists x. split; [now right | exact H].
Qed.

Lemma add_to_groups_keeps (e y : App.entry P) (l : list (App.entry P)) :
  In y l -> exists x, In x (App.add_to_groups cmp e l) /\ key_eq y x.
Proof.
  induction l as [ | g l IH]; [intros [] | ]. cbn [App.add_to_groups].
  intros Hy. destruct (App.compare_key cmp e g) eqn:Hc.
  - destruct Hy as [<- | Hy].
    + eexists. split; [now left | now split].
    + exists y. split; [now right | now split].
  - exists y. split; [now right | now split].
  - destruct Hy as [<- | Hy].
    + exists g. split; [now left | now split].
    + destruct (IH Hy) as (x & Hx & H). exists x. split; [now right | exact H].
Qed.

Lemma key_eq_trans (a b c : App.entry P) : key_eq a b -> key_eq b c -> key_eq a c.
Proof. intros [H1 H2] [H3 H4]. split; congruence. Qed.

Lemma key_eq_sym (a b : App.entry P) : key_eq a b -> key_eq b a.
Proof. intros [H1 H2]. now split. Qed.

Lemma fold_add_In (df acc : list (App.entry P)) (x : App.entry P) :
  In x (fold_left (fun groups e => App.add_to_groups cmp e groups) df acc) ->
  (exists y, In y acc /\ key_eq y x) \/ (exists e, In e df /\ key_eq e x).
Proof.
  revert acc. induction df as [ | e df IH]; intros acc; cbn [fold_left].
  - intros H. left. exists x. split; [exact H | now split].
  - intros H. destruct (IH _ H) as [(y & Hy & Hk) | (e' & He' & Hk)].
    + destruct (add_to_groups_In _ _ _ Hy) as [He | (z & Hz & Hzk)].
      * right. exists e. split; [now left | now apply key_eq_trans with y].
      * left. exists z. split; [exact Hz | now apply key_eq_trans with y].
    + right. exists e'. split; [now right | exact Hk].
Qed.

Lemma fold_add_keeps (df acc : list (App.entry P)) (y : App.entry P) :
  In y acc ->
  exists x,
    In x (fold_left (fun groups e => App.add_to_groups cmp e groups) df acc) /\
    key_eq y x.
Proof.
  revert acc y. induction df as [ | e df IH]; intros acc y Hy; cbn [fold_left].
  - exists y. split; [exact Hy | now split].
  - destruct (add_to_groups_keeps e y acc Hy) as (z & Hz & Hk).
    destruct (IH _ z Hz) as (x & Hx & Hk'). exists x.
    split; [exact Hx | now apply key_eq_trans with z].
Qed.

Lemma fold_add_has (df acc : list (App.entry P)) (e : App.entry P) :
  In e df ->
  exists x,
    In x (fold_left (fun groups e => App.add_to_groups cmp e groups) df acc) /\
    key_eq e x.
Proof.
  revert acc. induction df as [ | e' df IH]; intros acc; [intros [] | ].
  cbn [fold_left]. intros [<- | He].
  - destruct (add_to_groups_has e' acc) as (z & Hz & Hk).
    destruct (fold_add_keeps df _ z Hz) as (x & Hx & Hk'). exists x.
    split; [exact Hx | now apply key_eq_trans with z].
  - now apply IH.
Qed.

(** Every group comes from a row, and every row has its group. *)
Lemma groupby_sum_keys (df : list (App.entry P)) (x : App.entry P) :
  In x (App.groupby_sum cmp df) -> exists e, In e df /\ key_eq e x.
Proof.
  intros H. destruct (fold_add_In df [] x H) as [(y & [] & _) | H']; exact H'.
Qed.

Lemma groupby_sum_has (df : list (App.entry P)) (e : App.entry P) :
  In e df -> exists x, In x (App.groupby_sum cmp df) /\ key_eq e x.
Proof. apply fold_add_has. Qed.

Lemma registrations_add_total (e : App.entry P) (l : list (App.entry P)) :
  App.wrap64 (registrations (App.add_to_groups cmp e l))
  = App.wrap64 (registrations l + App.value e).
Proof.
  induction l as [ | g l IH]; cbn [App.add_to_groups].
  - cbn. unfold App.add_int64. rewrite wrap64_add_l. f_equal; lia.
  - destruct (App.compare_key cmp e g); rewrite ?registrations_cons;
      cbn [App.value App.new_group]; unfold App.add_int64.
    + rewrite wrap64_add_l. f_equal; lia.
    + rewrite wrap64_add_l. f_equal; lia.
    + rewrite <- Z.add_assoc. now apply wrap64_add_eq.
Qed.

Lemma registrations_groupby_total (df : list (App.entry P)) :
  App.wrap64 (registrations (App.groupby_sum cmp df))
  = App.wrap64 (registrations df).
Proof.
  unfold App.groupby_sum.
  assert (H : forall acc,
             App.wrap64
               (registrations
                  (fold_left (fun groups e => App.add_to_groups cmp e groups)
                     df acc))
             = App.wrap64 (registrations acc + registrations df)).
  { induction df as [ | e df IH]; intros acc; cbn [fold_left].
    - cbn. f_equal; lia.
    - rewrite IH, registrations_cons.
      rewrite (Z.add_comm _ (registrations df)).
      rewrite (wrap64_add_eq _ _ _ (registrations_add_total e acc)).
      f_equal; lia. }
  rewrite H. cbn. reflexivity.
Qed.

Lemma registrations_Permutation (l l' : list (App.entry P)) :
  Permutation l l' -> registrations l = registrations l'.
Proof.
  induction 1; rewrite ?registrations_cons; try lia; congruence.
Qed.

Lemma filter_Permutation {A : Type} (f : A -> bool) (l l' : list A) :
  Permutation l l' -> Permutation (filter f l) (filter f l').
Proof.
  induction 1 as [ | x l l' _ IH | x y l | l1 l2 l3 _ IH1 _ IH2].
  - constructor.
  - cbn [filter]. destruct (f x); [now constructor | exact IH].
  - cbn [filter]. destruct (f x), (f y); try reflexivity. apply perm_swap.
  - now transitivity (filter f l2).
Qed.

Lemma total_Permutation (k : App.entry P) (df df' : list (App.entry P)) :
  Permutation df df' -> total cmp k df = total cmp k df'.
Proof.
  intros Hp. unfold total.
  now rewrite (registrations_Permutation _ _
                 (filter_Permutation (same_key cmp k) _ _ Hp)).
Qed.

Lemma total_key_eq (k k' : App.entry P) (df : list (App.entry P)) :
  key_eq k k' -> total cmp k df = total cmp k' df.
Proof.
  intros Hk. unfold total. f_equal. f_equal. apply filter_ext.
  intros a. now apply same_key_left.
Qed.

(** Two frames whose keys increase and which hold the same rows are the
    same frame. *)
Lemma sorted_same_rows (l1 l2 : list (App.entry P)) :
  StronglySorted (key_lt cmp) l1 -> StronglySorted (key_lt cmp) l2 ->
  (forall x, In x l1 <-> In x l2) -> l1 = l2.
Proof.
  assert (Hirr : forall x, ~ key_lt cmp x x).
  { intros x H. unfold key_lt in H.
    rewrite (proj2 (compare_key_Eq x x)) in H by (now split). discriminate. }
  intros H1. revert l2. induction H1 as [ | x1 l1 Hs1 IH Hx1]; intros l2 H2 Hsame.
  - destruct l2 as [ | x2 l2]; [reflexivity | ].
    destruct (proj2 (Hsame x2) (or_introl eq_refl)).
  - destruct H2 as [ | x2 l2 Hs2 Hx2].
    + destruct (proj1 (Hsame x1) (or_introl eq_refl)).
    + rewrite Forall_forall in Hx1, Hx2.
      assert (E : x1 = x2).
      { destruct (proj1 (Hsame x1) (or_introl eq_refl)) as [E | Hin1];
          [now symmetry | ].
        destruct (proj2 (Hsame x2) (or_introl eq_refl)) as [E | Hin2];
          [exact E | ].
        exfalso. apply (Hirr x1).
        apply (key_lt_trans cmp cmp_trans) with x2; [now apply Hx1 | now apply Hx2]. }
      subst x2. f_equal. apply IH; [exact Hs2 | ].
      intros x. split; intros Hx.
      * destruct (proj1 (Hsame x) (or_intror Hx)) as [<- | H]; [ | exact H].
        exfalso. apply (Hirr x1). now apply Hx1.
      * destruct (proj2 (Hsame x) (or_intror Hx)) as [<- | H]; [ | exact H].
        exfalso. apply (Hirr x1). now apply Hx2.
Qed.

Lemma groupby_sum_In_Permutation (df df' : list (App.entry P)) (x : App.entry P) :
  Permutation df df' ->
  In x (App.groupby_sum cmp df) -> In x (App.groupby_sum cmp df').
Proof.
  intros Hp Hx.
  destruct (groupby_sum_keys df x Hx) as (e & He & Hk).
  destruct (groupby_sum_has df' e (Permutation_in _ Hp He)) as (x' & Hx' & Hk').
  assert (Hxx : key_eq x x')
    by (apply key_eq_trans with e; [now apply key_eq_sym | exact Hk']).
  assert (Hv : App.value x = App.value x').
  { rewrite (groupby_sum_value df x Hx), (groupby_sum_value df' x' Hx').
    rewrite (total_Permutation x df df' Hp). now apply total_key_eq. }
  destruct Hxx as [Hg Hq]. destruct x, x'. cbn in *. now subst.
Qed.

(** The groups do not depend on the order of the rows. *)
Lemma groupby_sum_Permutation (df df' : list (App.entry P)) :
  Permutation df df' -> App.groupby_sum cmp df = App.groupby_sum cmp df'.
Proof.
  intros Hp. apply sorted_same_rows.
  - now apply groupby_sum_sorted.
  - now apply groupby_sum_sorted.
  - intros x. split; apply groupby_sum_In_Permutation;
      [exact Hp | now apply Permutation_sym].
Qed.

Lemma calculate_growth_Permutation (df df' : list (App.entry P)) :
  Permutation df df' ->
  App.calculate_growth cmp df = App.calculate_growth cmp df'.
Proof.
  intros Hp. unfold App.calculate_growth.
  now rewrite (groupby_sum_Permutation df df' Hp).
Qed.

(** What a row of the table holds. *)
Lemma growth_table_row (df : list (App.entry P)) (r : App.growth_row P) :
  In r (growth_table cmp df) ->
  App.value (App.row r) = total cmp (App.row r) df /\
  exists e, In e df /\ key_eq e (App.row r).
Proof.
  intros Hr.
  assert (Hin : In (App.row r) (App.groupby_sum cmp df))
    by (rewrite <- rows_of_growth_table; now apply in_map).
  split; [now apply groupby_sum_value | now apply groupby_sum_keys].
Qed.

Lemma growth_table_has (df : list (App.entry P)) (e : App.entry P) :
  In e df ->
  exists r, In r (growth_table cmp df) /\ key_eq e (App.row r).
Proof.
  intros He. destruct (groupby_sum_has df e He) as (x & Hx & Hk).
  rewrite <- rows_of_growth_table in Hx. apply in_map_iff in Hx.
  destruct Hx as (r & <- & Hr). now exists r.
Qed.

Lemma growth_table_total (df : list (App.entry P)) :
  App.wrap64 (registrations (map (@App.row P) (growth_table cmp df)))
  = App.wrap64 (registrations df).
Proof. rewrite rows_of_growth_table. apply registrations_groupby_total. Qed.

(** Without a zero total no group holds a zero. *)
Lemma groupby_sum_no_zero (df : list (App.entry P)) :
  no_zero_total cmp df ->
  forall x, In x (App.groupby_sum cmp df) -> App.value x <> 0.
Proof.
  intros Hnz x Hx. rewrite (groupby_sum_value df x Hx).
  destruct (groupby_sum_keys df x Hx) as (e & He & Hk).
  rewrite <- (total_key_eq e x df Hk). now apply Hnz.
Qed.

Lemma last_of_In (g : string) (seen : list (string * Z)) (v : Z) :
  App.last_of g seen = Some v -> In v (map snd seen).
Proof.
  induction seen as [ | [g' v'] seen IH]; cbn [App.last_of]; [discriminate | ].
  destruct (g' =? g)%string.
  - intros H. injection H as <-. now left.
  - intros H. right. now apply IH.
Qed.

(** The previous value of a row is the value of a row. *)
Lemma shift1_previous (seen : list (string * Z)) (l : list (App.entry P))
  (ep : App.entry P * option Z) (p : Z) :
  In ep (App.shift1 seen l) -> snd ep = Some p ->
  In p (map snd seen) \/ exists x, In x l /\ App.value x = p.
Proof.
  revert seen. induction l as [ | e l IH]; intros seen; cbn [App.shift1];
    [intros [] | ].
  intros [<- | Hin] Hp.
  - left. cbn [snd] in Hp. now apply last_of_In in Hp.
  - destruct (IH _ Hin Hp) as [[H | H] | (x & Hx & H)].
    + right. exists e. split; [now left | exact H].
    + now left.
    + right. exists x. split; [now right | exact H].
Qed.

(** Without a zero total the computation returns its table. *)
Lemma calculate_growth_returns (df : list (App.entry P)) :
  no_zero_total cmp df ->
  App.calculate_growth cmp df = Return (growth_table cmp df).
Proof.
  intros Hnz. unfold App.calculate_growth.
  destruct (existsb _ _) eqn:E; [exfalso | reflexivity].
  apply existsb_exists in E. destruct E as ([e [p | ]] & Hin & Hinf);
    [ | discriminate Hinf].
  cbn [App.infinite fst snd] in Hinf. apply andb_true_iff in Hinf.
  destruct Hinf as [Hp _]. apply Z.eqb_eq in Hp. subst p.
  destruct (shift1_previous _ _ _ 0 Hin eq_refl) as [[] | (x & Hx & Hv)].
  rewrite (sort_values_sorted cmp _
             (groupby_sum_sorted cmp cmp_antisym cmp_trans df)) in Hx.
  exact (groupby_sum_no_zero df Hnz x Hx Hv).
Qed.

End GrowthTotals.

Lemma Z_compare_antisym (a b : Z) : (a ?= b) = CompOpp (b ?= a).
Proof. apply Z.compare_antisym. Qed.

Lemma Z_compare_trans (a b c : Z) :
  (a ?= b) = Lt -> (b ?= c) = Lt -> (a ?= c) = Lt.
Proof. rewrite !Z.compare_lt_iff. lia. Qed.

Lemma compare_quarter_antisym (a b : Z * Z) :
  App.compare_quarter a b = CompOpp (App.compare_quarter b a).
Proof.
  unfold App.compare_quarter. rewrite (Z.compare_antisym (fst a) (fst b)).
  destruct (fst a ?= fst b); simpl; auto using Z.compare_antisym.
Qed.

Lemma compare_quarter_trans (a b c : Z * Z) :
  App.compare_quarter a b = Lt -> App.compare_quarter b c = Lt ->
  App.compare_quarter a c = Lt.
Proof.
  unfold App.compare_quarter.
  destruct (fst a ?= fst b) eqn:Hab; try discriminate;
    destruct (fst b ?= fst c) eqn:Hbc; try discriminate; intros H1 H2.
  - apply Z.compare_eq in Hab, Hbc. rewrite Hab, Hbc, Z.compare_refl.
    now apply Z_compare_trans with (b := snd b).
  - apply Z.compare_eq in Hab. now rewrite Hab, Hbc.
  - apply Z.compare_eq in Hbc. now rewrite <- Hbc, Hab.
  - now rewrite (Z_compare_trans _ _ _ Hab Hbc).
Qed.

Lemma Z_compare_eq (a b : Z) : (a ?= b) = Eq -> a = b.
Proof. apply Z.compare_eq. Qed.

Lemma compare_quarter_eq (a b : Z * Z) : App.compare_quarter a b = Eq -> a = b.
Proof.
  destruct a as [a1 a2], b as [b1 b2]. unfold App.compare_quarter. cbn [fst snd].
  destruct (a1 ?= b1) eqn:E; try discriminate.
  intros H. apply Z.compare_eq in E, H. now subst.
Qed.




(** ** Decimal texts *)

Lemma rstrip_digits (u : uint) :
  Text.rstrip (NilEmpty.string_of_uint u) = NilEmpty.string_of_uint u.
Proof.
  induction u; simpl; try reflexivity; rewrite IHu;
    destruct (NilEmpty.string_of_uint u); reflexivity.
Qed.

Lemma py_int_digits (u : uint) :
  u <> Nil -> Text.py_int (NilEmpty.string_of_uint u) = Some (Z.of_int (Pos u)).
Proof.
  intros Hu. unfold Text.py_int, Text.strip.
  assert (Hl : Text.lstrip (NilEmpty.string_of_uint u)
               = NilEmpty.string_of_uint u) by (destruct u; reflexivity).
  rewrite Hl, rstrip_digits.
  pose proof (NilZero.usu u Hu) as H.
  destruct u; [contradiction | ..];
    cbn [NilEmpty.string_of_uint NilZero.string_of_uint] in *;
    cbv iota beta; unfold Text.digits; rewrite H; reflexivity.
Qed.

(** [int(str(n)) == n] for a natural number. *)
Lemma py_int_str_of_int (z : Z) :
  0 <= z -> Text.py_int (Text.str_of_int z) = Some z.
Proof.
  intros Hz. destruct z as [ | p | p]; [reflexivity | | lia].
  unfold Text.str_of_int, NilZero.string_of_int, NilZero.string_of_uint.
  cbn [Z.to_int].
  pose proof (DecimalPos.Unsigned.to_uint_nonnil p) as Hp.
  replace (match Pos.to_uint p with
           | Nil => "0"
           | _ => NilEmpty.string_of_uint (Pos.to_uint p)
           end) with (NilEmpty.string_of_uint (Pos.to_uint p))
    by (destruct (Pos.to_uint p); [contradiction | reflexivity ..]).
  rewrite (py_int_digits _ Hp).
  f_equal. exact (DecimalZ.of_to (Z.pos p)).
Qed.

Lemma relevant_year_options_int (fetched : list string) (this_year : Z) :
  Forall (fun year => Text.py_int year <> None)
    (Scraper.relevant_year_options fetched this_year).
Proof.
  apply Forall_forall. intros opt Hin.
  unfold Scraper.relevant_year_options in Hin. apply filter_In in Hin.
  destruct Hin as [_ Hex]. apply existsb_exists in Hex.
  destruct Hex as [t [Ht Heq]]. apply String.eqb_eq in Heq. subst opt.
  unfold Scraper.target_years in Ht. apply in_map_iff in Ht.
  destruct Ht as [k [<- _]].
  rewrite py_int_str_of_int by lia. discriminate.
Qed.

(** ** Exceptions stay inside the handlers *)

Section Returns.
Context {W : Type}.

Lemma ret_returns {A : Type} (a : A) : never_raises (ret (W := W) a).
Proof. intros w. now exists a. Qed.

Lemma bind_returns {A B : Type} (m : M W A) (k : A -> M W B) :
  never_raises m -> (forall a, never_raises (k a)) -> never_raises (bind m k).
Proof.
  intros Hm Hk w. unfold bind. destruct (Hm w) as [a Ha].
  destruct (m w) as [[a' | e] w']; simpl in Ha; [ | discriminate Ha].
  apply Hk.
Qed.

(** A handler that returns makes the whole [try] return. *)
Lemma try_except_returns {A : Type} (m : M W A) (h : exn -> M W A) :
  (forall e, never_raises (h e)) -> never_raises (try_except m h).
Proof.
  intros Hh w. unfold try_except.
  destruct (m w) as [[a | e] w']; [now exists a | apply Hh].
Qed.

Lemma try_finally_returns {A : Type} (m : M W A) (f : M W unit) :
  never_raises m -> never_raises f -> never_raises (try_finally m f).
Proof.
  intros Hm Hf w. unfold try_finally. destruct (Hm w) as [a Ha].
  destruct (m w) as [r w']; simpl in Ha; subst r.
  destruct (Hf w') as [u Hu]. destruct (f w') as [[u' | e] w''];
    simpl in Hu; [now exists a | discriminate Hu].
Qed.

(** A loop whose body returns on each element reaches its end. *)
Lemma for_each_returns {X : Type} (xs : list X) (body : X -> M W unit) :
  Forall (fun x => never_raises (body x)) xs -> never_raises (for_each xs body).
Proof.
  induction 1 as [ | x xs Hx _ IH]; simpl.
  - apply ret_returns.
  - apply bind_returns; [exact Hx | intros _; exact IH].
Qed.

Lemma returns_unit (m : M W unit) (w : W) :
  never_raises m -> fst (m w) = Return tt.
Proof. intros H. destruct (H w) as [[] Hw]. exact Hw. Qed.

End Returns.

Section Attempts.
Context {D : Type} {drv : Driver D} {pd : Pandas}.

Lemma year_attempts_app (a b : list message) :
  year_attempts (a ++ b) = year_attempts a ++ year_attempts b.
Proof. unfold year_attempts. apply flat_map_app. Qed.

Lemma print_returns (text : string) (values : list string) :
  never_raises (Scraper.print (D := D) text values).
Proof. intros w. now exists tt. Qed.

Lemma time_sleep_returns (seconds : Z) : never_raises (Scraper.time_sleep seconds).
Proof. intros w. now exists tt. Qed.

Lemma datetime_now_returns {A : Type} (f : D -> A) :
  never_raises (Scraper.datetime_now f).
Proof. intros w. now exists (f (ext w)). Qed.

Lemma ret_emits {A : Type} (a : A) : emits [] (ret (W := world D) a).
Proof. intros w. simpl. now rewrite app_nil_r. Qed.

Lemma drive_emits {A : Type} (f : D -> outcome A * D) :
  emits [] (Scraper.drive f).
Proof.
  intros w. unfold Scraper.drive. destruct (f (ext w)). simpl.
  now rewrite app_nil_r.
Qed.

Lemma time_sleep_emits (seconds : Z) : emits [] (Scraper.time_sleep seconds).
Proof. intros w. simpl. now rewrite app_nil_r. Qed.

Lemma datetime_now_emits {A : Type} (f : D -> A) :
  emits [] (Scraper.datetime_now f).
Proof. intros w. simpl. now rewrite app_nil_r. Qed.

Lemma evaluate_emits {A : Type} (o : outcome A) :
  emits [] (Scraper.evaluate (D := D) o).
Proof. intros w. simpl. now rewrite app_nil_r. Qed.

Lemma print_emits (text : string) (values : list string) :
  emits (year_attempt (text, values)) (Scraper.print (D := D) text values).
Proof.
  intros w. simpl. rewrite year_attempts_app. simpl. now rewrite app_nil_r.
Qed.

Lemma print_quiet (text : string) (values : list string) :
  year_attempt (text, values) = [] ->
  emits [] (Scraper.print (D := D) text values).
Proof. intros H. rewrite <- H. apply print_emits. Qed.

Lemma insert_data_into_db_emits (df : records) (table_name : string) :
  emits [] (Scraper.insert_data_into_db (D := D) df table_name).
Proof.
  intros w. rewrite insert_data_into_db_run.
  destruct (connection df w) as [u | e]; simpl; [ | now rewrite app_nil_r].
  rewrite year_attempts_app. f_equal. unfold insert_lines.
  destruct (empty df); [reflexivity | ].
  destruct (fst (df_to_sql df table_name (db w))) as [u' | []]; reflexivity.
Qed.

(** What a computation attempts is attempted before what follows it. *)
Lemma bind_emits {A B : Type} (years : list string) (m : M (world D) A)
  (k : A -> M (world D) B) :
  emits years m -> (forall a, emits [] (k a)) -> emits years (bind m k).
Proof.
  intros Hm Hk w. unfold bind. specialize (Hm w).
  destruct (m w) as [[a | e] w']; simpl in Hm.
  - rewrite (Hk a w'), Hm. now rewrite app_nil_r.
  - exact Hm.
Qed.

Lemma bind_emits_both {A B : Type} (years1 years2 : list string)
  (m : M (world D) A) (k : A -> M (world D) B) :
  never_raises m -> emits years1 m -> (forall a, emits years2 (k a)) ->
  emits (years1 ++ years2) (bind m k).
Proof.
  intros Hr Hm Hk w. unfold bind. specialize (Hm w).
  destruct (Hr w) as [a Ha].
  destruct (m w) as [[a' | e] w']; simpl in Hm, Ha; [ | discriminate Ha].
  rewrite (Hk a' w'), Hm. now rewrite app_assoc.
Qed.

Lemma try_except_emits {A : Type} (years : list string) (m : M (world D) A)
  (h : exn -> M (world D) A) :
  emits years m -> (forall e, emits [] (h e)) -> emits years (try_except m h).
Proof.
  intros Hm Hh w. unfold try_except. specialize (Hm w).
  destruct (m w) as [[a | e] w']; simpl in Hm.
  - exact Hm.
  - rewrite (Hh e w'), Hm. now rewrite app_nil_r.
Qed.

Lemma try_finally_emits {A : Type} (years : list string) (m : M (world D) A)
  (f : M (world D) unit) :
  emits years m -> emits [] f -> emits years (try_finally m f).
Proof.
  intros Hm Hf w. unfold try_finally. specialize (Hm w).
  destruct (m w) as [r w']. simpl in Hm. specialize (Hf w').
  destruct (f w') as [[u | e] w'']; simpl in *;
    rewrite Hf, Hm; now rewrite app_nil_r.
Qed.

Lemma for_each_quiet {X : Type} (xs : list X) (body : X -> M (world D) unit) :
  (forall x, emits [] (body x)) -> emits [] (for_each xs body).
Proof.
  intros Hb. induction xs as [ | x xs IH]; simpl.
  - apply ret_emits.
  - apply bind_emits; [apply Hb | intros _; exact IH].
Qed.

(** A loop whose body returns on each year and attempts that year
    attempts all the years, in the order of the list. *)
Lemma for_each_emits (years : list string) (body : string -> M (world D) unit) :
  Forall (fun year => never_raises (body year)) years ->
  (forall year, emits [year] (body year)) ->
  emits years (for_each years body).
Proof.
  intros Hr Hb. induction Hr as [ | year years Hy _ IH]; simpl.
  - apply ret_emits.
  - apply (bind_emits_both [year] years); [exact Hy | apply Hb | ].
    intros _. exact IH.
Qed.

End Attempts.

Create HintDb returns.
Create HintDb quiet.

#[local] Hint Resolve ret_returns print_returns time_sleep_returns
  datetime_now_returns : returns.
#[local] Hint Resolve ret_emits drive_emits time_sleep_emits datetime_now_emits
  evaluate_emits insert_data_into_db_emits : quiet.

(** Goes through a computation that prints no year attempt. *)
Ltac quiet :=
  repeat
    match goal with
    | |- emits [] (bind _ _) => apply bind_emits; [ | intros ? ]
    | |- emits [] (try_except _ _) => apply try_except_emits; [ | intros ? ]
    | |- emits [] (try_finally _ _) => apply try_finally_emits
    | |- emits [] (for_each _ _) => apply for_each_quiet; intros ?
    | |- emits [] (Scraper.print _ _) => apply print_quiet; reflexivity
    | |- emits [] (if ?b then _ else _) => destruct b
    | |- emits [] (match ?x with _ => _ end) => destruct x
    | |- emits [] _ => solve [auto with quiet]
    end.

(** Goes through a computation made of parts that return. *)
Ltac returns :=
  repeat
    match goal with
    | |- never_raises (bind _ _) => apply bind_returns; [ | intros ? ]
    | |- never_raises (try_except _ _) => apply try_except_returns; intros ?
    | |- never_raises (try_finally _ _) => apply try_finally_returns
    | |- never_raises (if ?b then _ else _) => destruct b
    | |- never_raises (match ?x with _ => _ end) => destruct x
    | |- never_raises _ => solve [auto with returns]
    end.

(** ** The sweep over the years *)

Section Sweep.
Context {D : Type} {drv : Driver D} {pd : Pandas}.

Lemma get_dropdown_options_returns (dropdown_parent_id dropdown_name : string) :
  never_raises (Scraper.get_dropdown_options dropdown_parent_id dropdown_name).
Proof. unfold Scraper.get_dropdown_options. returns. Qed.

Lemma get_dropdown_options_quiet (dropdown_parent_id dropdown_name : string) :
  emits [] (Scraper.get_dropdown_options dropdown_parent_id dropdown_name).
Proof. unfold Scraper.get_dropdown_options. quiet. Qed.

Lemma select_dropdown_option_returns
  (dropdown_parent_id option_text dropdown_name : string) :
  never_raises
    (Scraper.select_dropdown_option dropdown_parent_id option_text dropdown_name).
Proof. unfold Scraper.select_dropdown_option. returns. Qed.

(** Selecting a year is one attempt, made on entry. *)
Lemma select_year_emits (dropdown_parent_id year_to_scrape : string) :
  emits [year_to_scrape]
    (Scraper.select_dropdown_option dropdown_parent_id year_to_scrape "Year").
Proof.
  unfold Scraper.select_dropdown_option.
  apply try_except_emits; [ | intros e; quiet].
  apply (bind_emits_both [year_to_scrape] []).
  - apply print_returns.
  - apply print_emits.
  - intros _. quiet.
Qed.

Lemma refresh_returns : never_raises Scraper.refresh.
Proof. unfold Scraper.refresh. returns. Qed.

Lemma refresh_quiet : emits [] Scraper.refresh.
Proof. unfold Scraper.refresh. quiet. Qed.

Lemma save_html_backup_quiet (filename : string) :
  emits [] (Scraper.save_html_backup filename).
Proof. unfold Scraper.save_html_backup. quiet. Qed.

Lemma scrape_table_data_to_db_returns (y_axis_option x_axis_option : string)
  (year_val : Z) :
  never_raises
    (Scraper.scrape_table_data_to_db y_axis_option x_axis_option year_val).
Proof. unfold Scraper.scrape_table_data_to_db. returns. Qed.

Lemma scrape_table_data_to_db_quiet (y_axis_option x_axis_option : string)
  (year_val : Z) :
  emits [] (Scraper.scrape_table_data_to_db y_axis_option x_axis_option year_val).
Proof. unfold Scraper.scrape_table_data_to_db. quiet. Qed.

Lemma int_of_quiet (text : string) : emits [] (Scraper.int_of (D := D) text).
Proof. unfold Scraper.int_of. quiet. Qed.

Lemma int_of_returns (text : string) :
  Text.py_int text <> None -> never_raises (Scraper.int_of (D := D) text).
Proof.
  intros H w. unfold Scraper.int_of, Scraper.evaluate.
  destruct (Text.py_int text) as [n | ]; [now exists n | contradiction].
Qed.

(** [select_and_unselect_year] returns whatever the page does: the
    [except] branch and the [finally] block with its own handler catch
    everything. *)
Lemma select_and_unselect_year_returns
  (year_to_scrape y_axis_option x_axis_option active_year_dropdown_id : string) :
  never_raises
    (Scraper.select_and_unselect_year year_to_scrape y_axis_option
       x_axis_option active_year_dropdown_id).
Proof. unfold Scraper.select_and_unselect_year. returns. Qed.

Lemma select_and_unselect_year_emits
  (year_to_scrape y_axis_option x_axis_option active_year_dropdown_id : string) :
  emits [year_to_scrape]
    (Scraper.select_and_unselect_year year_to_scrape y_axis_option
       x_axis_option active_year_dropdown_id).
Proof.
  unfold Scraper.select_and_unselect_year.
  apply try_finally_emits; [ | quiet].
  apply try_except_emits; [ | intros e; quiet].
  apply bind_emits; [apply select_year_emits | ].
  intros selected.
  pose proof refresh_quiet. pose proof save_html_backup_quiet.
  pose proof scrape_table_data_to_db_quiet. pose proof int_of_quiet.
  quiet.
Qed.

Lemma calendar_year_returns (x_axis_option y_axis_option year_to_scrape : string) :
  never_raises
    (Scraper.calendar_year x_axis_option y_axis_option year_to_scrape).
Proof.
  unfold Scraper.calendar_year.
  apply bind_returns; [apply select_and_unselect_year_returns | ].
  intros _. returns.
Qed.

Lemma calendar_year_emits (x_axis_option y_axis_option year_to_scrape : string) :
  emits [year_to_scrape]
    (Scraper.calendar_year x_axis_option y_axis_option year_to_scrape).
Proof.
  unfold Scraper.calendar_year.
  apply bind_emits; [apply select_and_unselect_year_emits | ].
  intros _. quiet.
Qed.

Lemma month_wise_year_emits (x_axis_option y_axis_option year_to_scrape : string) :
  emits [year_to_scrape]
    (Scraper.month_wise_year x_axis_option y_axis_option year_to_scrape).
Proof.
  unfold Scraper.month_wise_year.
  apply bind_emits; [apply select_year_emits | ].
  intros selected.
  pose proof refresh_quiet. pose proof save_html_backup_quiet.
  pose proof scrape_table_data_to_db_quiet. pose proof int_of_quiet.
  quiet.
Qed.

(** The backup directory can be made. *)
Hypothesis makedirs_returns :
  forall d, fst (makedirs Scraper.HTML_BACKUP_DIR d) = Return tt.

Lemma save_html_backup_returns (filename : string) :
  never_raises (Scraper.save_html_backup filename).
Proof.
  unfold Scraper.save_html_backup.
  apply bind_returns; [ | intros _; returns].
  intros w. exists tt. unfold Scraper.drive.
  pose proof (makedirs_returns (ext w)) as H.
  destruct (makedirs Scraper.HTML_BACKUP_DIR (ext w)). exact H.
Qed.

Lemma month_wise_year_returns (x_axis_option y_axis_option year_to_scrape : string) :
  Text.py_int year_to_scrape <> None ->
  never_raises
    (Scraper.month_wise_year x_axis_option y_axis_option year_to_scrape).
Proof.
  intros Hint. unfold Scraper.month_wise_year.
  pose proof select_dropdown_option_returns. pose proof refresh_returns.
  pose proof save_html_backup_returns. pose proof scrape_table_data_to_db_returns.
  pose proof (int_of_returns _ Hint).
  returns.
Qed.

Lemma month_wise_loop_returns (x_axis_option y_axis_option : string)
  (years : list string) :
  Forall (fun year => Text.py_int year <> None) years ->
  Forall (fun year =>
            never_raises
              (Scraper.month_wise_year x_axis_option y_axis_option year))
    years.
Proof.
  intros H. eapply Forall_impl; [ | exact H].
  intros year. apply month_wise_year_returns.
Qed.

Lemma handle_year_selection_month_wise_returns
  (x_axis_option y_axis_option : string) :
  never_raises
    (Scraper.handle_year_selection_month_wise x_axis_option y_axis_option).
Proof.
  unfold Scraper.handle_year_selection_month_wise.
  apply bind_returns; [apply print_returns | intros _].
  apply bind_returns; [apply get_dropdown_options_returns | intros fetched].
  destruct fetched as [ | o fetched]; [apply print_returns | ].
  apply bind_returns; [apply datetime_now_returns | intros this_year].
  pose proof (relevant_year_options_int (o :: fetched) this_year) as Hint.
  destruct (Scraper.relevant_year_options (o :: fetched) this_year);
    [apply print_returns | ].
  apply for_each_returns. now apply month_wise_loop_returns.
Qed.

Lemma handle_year_selection_calendar_returns
  (x_axis_option y_axis_option : string) :
  never_raises
    (Scraper.handle_year_selection_calendar x_axis_option y_axis_option).
Proof.
  unfold Scraper.handle_year_selection_calendar.
  apply bind_returns; [apply print_returns | intros _].
  apply bind_returns; [apply get_dropdown_options_returns | intros fetched].
  destruct fetched as [ | o fetched]; [apply print_returns | ].
  apply bind_returns; [apply datetime_now_returns | intros this_year].
  destruct (Scraper.relevant_year_options (o :: fetched) this_year);
    [apply print_returns | ].
  apply for_each_returns. apply Forall_forall. intros year _.
  apply calendar_year_returns.
Qed.

Lemma main_x_axis_returns (y_axis_option x_axis_option : string) :
  never_raises (Scraper.main_x_axis y_axis_option x_axis_option).
Proof.
  unfold Scraper.main_x_axis.
  pose proof select_dropdown_option_returns.
  pose proof handle_year_selection_calendar_returns.
  pose proof handle_year_selection_month_wise_returns.
  returns.
Qed.

Lemma main_y_axis_returns (y_axis_options_available : list string)
  (y_axis_option : string) :
  never_raises (Scraper.main_y_axis y_axis_options_available y_axis_option).
Proof.
  unfold Scraper.main_y_axis.
  destruct (negb (Scraper.among y_axis_option y_axis_options_available));
    [apply print_returns | ].
  apply bind_returns; [apply select_dropdown_option_returns | intros selected].
  destruct (negb selected); [apply ret_returns | ].
  apply bind_returns; [apply get_dropdown_options_returns | intros fetched].
  destruct (filter _ fetched); [apply print_returns | ].
  apply for_each_returns. apply Forall_forall. intros x _.
  apply main_x_axis_returns.
Qed.

Lemma main_sweep_returns : never_raises Scraper.main_sweep.
Proof.
  unfold Scraper.main_sweep.
  apply bind_returns; [apply get_dropdown_options_returns | intros available].
  destruct available; [apply print_returns | ].
  apply for_each_returns. apply Forall_forall. intros y _.
  apply main_y_axis_returns.
Qed.

End Sweep.

(** C7. Whatever the page does, as long as the directory of the
    backups can be made: each loop over the years returns, and the
    selection of every year of its list has been attempted, in the
    order of the list, so a wait that times out or an extraction that
    fails for one year is caught within the turn of that year and the
    next year is tried; no such failure leaves
    [handle_year_selection_month_wise],
    [handle_year_selection_calendar] or the two loops of [main]. *)
Theorem year_sweep_survives_failures :
  forall (D : Type) (drv : Driver D) (pd : Pandas),
    (forall d, fst (makedirs Scraper.HTML_BACKUP_DIR d) = Return tt) ->
    forall (x_axis_option y_axis_option : string) (w : world D),
      (forall years,
          Forall (fun year => Text.py_int year <> None) years ->
          fst (for_each years
                 (Scraper.month_wise_year x_axis_option y_axis_option) w)
          = Return tt /\
          year_attempts
            (stdout (snd (for_each years
                            (Scraper.month_wise_year x_axis_option y_axis_option)
                            w)))
          = year_attempts (stdout w) ++ years) /\
      (forall years,
          fst (for_each years
                 (Scraper.calendar_year x_axis_option y_axis_option) w)
          = Return tt /\
          year_attempts
            (stdout (snd (for_each years
                            (Scraper.calendar_year x_axis_option y_axis_option)
                            w)))
          = year_attempts (stdout w) ++ years) /\
      fst (Scraper.handle_year_selection_month_wise x_axis_option y_axis_option w)
      = Return tt /\
      fst (Scraper.handle_year_selection_calendar x_axis_option y_axis_option w)
      = Return tt /\
      fst (Scraper.main_sweep w) = Return tt.
Proof.
  intros D drv pd Hdir x_axis_option y_axis_option w.
  split; [ | split; [ | split; [ | split]]].
  - intros years Hint.
    pose proof (month_wise_loop_returns Hdir x_axis_option y_axis_option
                  years Hint) as Hr.
    split.
    + apply returns_unit. now apply for_each_returns.
    + apply for_each_emits; [exact Hr | ].
      intros year. apply month_wise_year_emits.
  - intros years.
    assert (Hr : Forall (fun year =>
                           never_raises
                             (Scraper.calendar_year x_axis_option
                                y_axis_option year)) years)
      by (apply Forall_forall; intros year _; apply calendar_year_returns).
    split.
    + apply returns_unit. now apply for_each_returns.
    + apply for_each_emits; [exact Hr | ].
      intros year. apply calendar_year_emits.
  - apply returns_unit.
    now apply handle_year_selection_month_wise_returns.
  - apply returns_unit. apply handle_year_selection_calendar_returns.
  - apply returns_unit. now apply main_sweep_returns.
Qed.

Lemma year_sweep_survives_failures_witness :
  fst (for_each ["2022"; "2023"]
         (Scraper.month_wise_year (drv := stuck_page) (pd := no_numeric_text)
            "Month Wise" "Maker")
         (quiet_world empty_database))
  = Return tt /\
  year_attempts
    (stdout (snd (for_each ["2022"; "2023"]
                    (Scraper.month_wise_year (drv := stuck_page)
                       (pd := no_numeric_text) "Month Wise" "Maker")
                    (quiet_world empty_database))))
  = ["2022"; "2023"].
Proof.
  apply (proj1 (year_sweep_survives_failures unit stuck_page no_numeric_text
                  (fun d => eq_refl) "Month Wise" "Maker"
                  (quiet_world empty_database))
           ["2022"; "2023"]).
  repeat constructor; discriminate.
Defined.

(** ** The scraper and the database *)

#[export] Instance inserts_PreOrder (ok : records -> string -> Prop) :
  PreOrder (inserts ok).
Proof.
  split; [intros d; apply inserts_refl | intros a b c; apply inserts_trans].
Qed.

#[export] Instance adds_PreOrder (new_annual : Annual.row -> Prop)
  (new_monthly : Monthly.row -> Prop) : PreOrder (adds new_annual new_monthly).
Proof.
  split.
  - intros d. exists [], []. now rewrite !app_nil_r.
  - intros a b c (ra & rm & Ha & Hm & Fa & Fm) (ra' & rm' & Ha' & Hm' & Fa' & Fm').
    exists (ra ++ ra'), (rm ++ rm').
    rewrite Ha', Hm', Ha, Hm, <- !app_assoc.
    repeat split; try reflexivity; now apply Forall_app.
Qed.

Lemma inserts_weaken (ok ok' : records -> string -> Prop) (d d' : database) :
  (forall df table_name, ok df table_name -> ok' df table_name) ->
  inserts ok d d' -> inserts ok' d d'.
Proof.
  intros H. induction 1 as [d | d df t Hok | d1 d2 d3 _ IH1 _ IH2].
  - apply inserts_refl.
  - apply inserts_step. now apply H.
  - now apply inserts_trans with d2.
Qed.

Lemma built_for_weaken {pd : Pandas} (ys ys' xs xs' : string -> Prop)
  (years years' : Z -> Prop) (df : records) (table_name : string) :
  (forall y, ys y -> ys' y) -> (forall x, xs x -> xs' x) ->
  (forall n, years n -> years' n) ->
  built_for ys xs years df table_name -> built_for ys' xs' years' df table_name.
Proof.
  intros Hy Hx Hn (y & x & n & H1 & H2 & H3 & H4).
  exists y, x, n. auto.
Qed.

Section Writes.
Context {D : Type} {drv : Driver D} {pd : Pandas}.
Context (P : database -> database -> Prop) {P_preorder : PreOrder P}.

Lemma writes_weaken {A : Type} (Q : database -> database -> Prop)
  (m : M (world D) A) :
  (forall d d', Q d d' -> P d d') -> writes Q m -> writes P m.
Proof. intros H Hm w. apply H, Hm. Qed.

Lemma ret_writes {A : Type} (a : A) : writes P (ret (W := world D) a).
Proof. intros w. simpl. reflexivity. Qed.

Lemma drive_writes {A : Type} (f : D -> outcome A * D) :
  writes P (Scraper.drive f).
Proof.
  intros w. unfold Scraper.drive. destruct (f (ext w)). simpl. reflexivity.
Qed.

Lemma time_sleep_writes (seconds : Z) : writes P (Scraper.time_sleep seconds).
Proof. intros w. simpl. reflexivity. Qed.

Lemma datetime_now_writes {A : Type} (f : D -> A) :
  writes P (Scraper.datetime_now f).
Proof. intros w. simpl. reflexivity. Qed.

Lemma evaluate_writes {A : Type} (o : outcome A) :
  writes P (Scraper.evaluate (D := D) o).
Proof. intros w. simpl. reflexivity. Qed.

Lemma print_writes (text : string) (values : list string) :
  writes P (Scraper.print (D := D) text values).
Proof. intros w. simpl. reflexivity. Qed.

Lemma bind_writes {A B : Type} (m : M (world D) A) (k : A -> M (world D) B) :
  writes P m -> (forall a, writes P (k a)) -> writes P (bind m k).
Proof.
  intros Hm Hk w. unfold bind. specialize (Hm w).
  destruct (m w) as [[a | e] w']; simpl in Hm.
  - now transitivity (db w'); [ | apply Hk].
  - exact Hm.
Qed.

(** What follows a value that did not raise knows the value. *)
Lemma bind_evaluate_writes {A B : Type} (o : outcome A)
  (k : A -> M (world D) B) :
  (forall a, o = Return a -> writes P (k a)) ->
  writes P (bind (Scraper.evaluate o) k).
Proof.
  intros Hk w. unfold bind, Scraper.evaluate.
  destruct o as [a | e]; [now apply Hk | simpl; reflexivity].
Qed.

Lemma bind_int_of_writes {B : Type} (text : string) (k : Z -> M (world D) B) :
  (forall n, Text.py_int text = Some n -> writes P (k n)) ->
  writes P (bind (Scraper.int_of text) k).
Proof.
  intros Hk. unfold Scraper.int_of. apply bind_evaluate_writes.
  intros n Hn. apply Hk. destruct (Text.py_int text); congruence.
Qed.

(** What follows a reading of the clock knows a state of the clock. *)
Lemma bind_datetime_now_writes {A B : Type} (f : D -> A)
  (k : A -> M (world D) B) :
  (forall d, writes P (k (f d))) -> writes P (bind (Scraper.datetime_now f) k).
Proof. intros Hk w. unfold bind, Scraper.datetime_now. apply Hk. Qed.

Lemma try_except_writes {A : Type} (m : M (world D) A)
  (h : exn -> M (world D) A) :
  writes P m -> (forall e, writes P (h e)) -> writes P (try_except m h).
Proof.
  intros Hm Hh w. unfold try_except. specialize (Hm w).
  destruct (m w) as [[a | e] w']; simpl in Hm.
  - exact Hm.
  - now transitivity (db w'); [ | apply Hh].
Qed.

Lemma try_finally_writes {A : Type} (m : M (world D) A) (f : M (world D) unit) :
  writes P m -> writes P f -> writes P (try_finally m f).
Proof.
  intros Hm Hf w. unfold try_finally. specialize (Hm w).
  destruct (m w) as [r w']. simpl in Hm. specialize (Hf w').
  destruct (f w') as [[u | e] w'']; simpl in *; now transitivity (db w').
Qed.

Lemma for_each_writes {X : Type} (xs : list X) (body : X -> M (world D) unit) :
  (forall x, In x xs -> writes P (body x)) -> writes P (for_each xs body).
Proof.
  induction xs as [ | x xs IH]; intros Hb; simpl.
  - apply ret_writes.
  - apply bind_writes; [apply Hb; now left | intros _].
    apply IH. intros y Hy. apply Hb. now right.
Qed.

End Writes.

Create HintDb writes.

(** Goes through a computation, keeping what the tests and the values
    say. *)
Ltac writes_step :=
  match goal with
  | |- writes ?P (bind (Scraper.evaluate _) _) =>
      apply (bind_evaluate_writes P); intros ? ?
  | |- writes ?P (bind (Scraper.int_of _) _) =>
      apply (bind_int_of_writes P); intros ? ?
  | |- writes ?P (bind (Scraper.datetime_now _) _) =>
      apply (bind_datetime_now_writes P); intros ?
  | |- writes ?P (bind _ _) => apply (bind_writes P); [ | intros ?]
  | |- writes ?P (try_except _ _) => apply (try_except_writes P); [ | intros ?]
  | |- writes ?P (try_finally _ _) => apply (try_finally_writes P)
  | |- writes ?P (for_each _ _) => apply (for_each_writes P); intros ? ?
  | |- writes _ (if ?b then _ else _) => destruct b eqn:?
  | |- writes _ (match ?x with _ => _ end) => destruct x eqn:?
  | |- writes ?P (ret _) => apply (ret_writes P)
  | |- writes ?P (Scraper.drive _) => apply (drive_writes P)
  | |- writes ?P (Scraper.time_sleep _) => apply (time_sleep_writes P)
  | |- writes ?P (Scraper.datetime_now _) => apply (datetime_now_writes P)
  | |- writes ?P (Scraper.evaluate _) => apply (evaluate_writes P)
  | |- writes ?P (Scraper.print _ _) => apply (print_writes P)
  end.

Ltac writes := repeat writes_step.

Section Frame.
Context {D : Type} {drv : Driver D} {pd : Pandas}.
Context (P : database -> database -> Prop) {P_preorder : PreOrder P}.

Lemma get_dropdown_options_writes (dropdown_parent_id dropdown_name : string) :
  writes P (Scraper.get_dropdown_options dropdown_parent_id dropdown_name).
Proof. unfold Scraper.get_dropdown_options. writes. Qed.

Lemma select_dropdown_option_writes
  (dropdown_parent_id option_text dropdown_name : string) :
  writes P
    (Scraper.select_dropdown_option dropdown_parent_id option_text dropdown_name).
Proof. unfold Scraper.select_dropdown_option. writes. Qed.

Lemma refresh_writes : writes P Scraper.refresh.
Proof. unfold Scraper.refresh. writes. Qed.

Lemma save_html_backup_writes (filename : string) :
  writes P (Scraper.save_html_backup filename).
Proof. unfold Scraper.save_html_backup. writes. Qed.

End Frame.

(** The same, through the functions that only drive the browser. *)
Ltac sweeps :=
  repeat
    first
      [ writes_step
      | match goal with
        | |- writes ?P (Scraper.get_dropdown_options _ _) =>
            apply (get_dropdown_options_writes P)
        | |- writes ?P (Scraper.select_dropdown_option _ _ _) =>
            apply (select_dropdown_option_writes P)
        | |- writes ?P Scraper.refresh => apply (refresh_writes P)
        | |- writes ?P (Scraper.save_html_backup _) =>
            apply (save_html_backup_writes P)
        end ].

Section Inserts.
Context {D : Type} {drv : Driver D} {pd : Pandas}.

Lemma insert_data_into_db_writes (ok : records -> string -> Prop)
  (df : records) (table_name : string) :
  ok df table_name ->
  writes (inserts ok) (Scraper.insert_data_into_db (D := D) df table_name).
Proof.
  intros H w. rewrite insert_data_into_db_run.
  destruct (connection df w) as [u | e]; simpl; [ | apply inserts_refl].
  rewrite <- persist_eq. now apply inserts_step.
Qed.

(** [scrape_table_data_to_db] changes the database by at most one call
    of [insert_data_into_db], on the frame built for its arguments. *)
Lemma scrape_table_data_to_db_writes (y_axis_option x_axis_option : string)
  (year_val : Z) :
  writes
    (inserts (built_for (eq y_axis_option) (eq x_axis_option) (eq year_val)))
    (Scraper.scrape_table_data_to_db y_axis_option x_axis_option year_val).
Proof.
  unfold Scraper.scrape_table_data_to_db. writes.
  all: apply insert_data_into_db_writes;
    exists y_axis_option, x_axis_option, year_val; repeat split; subst;
    repeat match goal with
           | H : (_ =? _)%string = true |- _ => apply String.eqb_eq in H
           end;
    first [left; solve [eauto] | right; solve [eauto]].
Qed.

Lemma inserts_writes_weaken {A : Type} (ok ok' : records -> string -> Prop)
  (m : M (world D) A) :
  (forall df table_name, ok df table_name -> ok' df table_name) ->
  writes (inserts ok) m -> writes (inserts ok') m.
Proof. intros H Hm w. eapply inserts_weaken; [exact H | apply Hm]. Qed.

Lemma scrape_of_year_writes (year_to_scrape y_axis_option x_axis_option : string)
  (year_val : Z) :
  Text.py_int year_to_scrape = Some year_val ->
  writes
    (inserts (built_for (eq y_axis_option) (eq x_axis_option)
                (fun n => Text.py_int year_to_scrape = Some n)))
    (Scraper.scrape_table_data_to_db y_axis_option x_axis_option year_val).
Proof.
  intros H.
  apply (inserts_writes_weaken
           (built_for (eq y_axis_option) (eq x_axis_option) (eq year_val)));
    [ | apply scrape_table_data_to_db_writes].
  intros df t. apply built_for_weaken; auto. now intros n <-.
Qed.

Lemma select_and_unselect_year_writes
  (year_to_scrape y_axis_option x_axis_option active_year_dropdown_id : string) :
  writes
    (inserts (built_for (eq y_axis_option) (eq x_axis_option)
                (fun n => Text.py_int year_to_scrape = Some n)))
    (Scraper.select_and_unselect_year year_to_scrape y_axis_option
       x_axis_option active_year_dropdown_id).
Proof.
  unfold Scraper.select_and_unselect_year. sweeps.
  now apply scrape_of_year_writes.
Qed.

Lemma month_wise_year_writes (x_axis_option y_axis_option year_to_scrape : string) :
  writes
    (inserts (built_for (eq y_axis_option) (eq x_axis_option)
                (fun n => Text.py_int year_to_scrape = Some n)))
    (Scraper.month_wise_year x_axis_option y_axis_option year_to_scrape).
Proof.
  unfold Scraper.month_wise_year. sweeps.
  now apply scrape_of_year_writes.
Qed.

Lemma calendar_year_writes (x_axis_option y_axis_option year_to_scrape : string) :
  writes
    (inserts (built_for (eq y_axis_option) (eq x_axis_option)
                (fun n => Text.py_int year_to_scrape = Some n)))
    (Scraper.calendar_year x_axis_option y_axis_option year_to_scrape).
Proof.
  unfold Scraper.calendar_year.
  apply (bind_writes _); [apply select_and_unselect_year_writes | intros _].
  writes.
Qed.

Lemma target_years_In (opt : string) (this_year : Z) :
  In opt (Scraper.target_years this_year) <->
  exists y, 2016 <= y <= this_year /\ opt = Text.str_of_int y.
Proof.
  unfold Scraper.target_years. rewrite in_map_iff. split.
  - intros (k & <- & Hk). apply in_seq in Hk.
    exists (2016 + Z.of_nat k). split; [lia | reflexivity].
  - intros (y & Hy & ->). exists (Z.to_nat (y - 2016)). split.
    + f_equal. lia.
    + apply in_seq. lia.
Qed.

Lemma relevant_year_options_In (fetched : list string) (this_year : Z)
  (opt : string) :
  In opt (Scraper.relevant_year_options fetched this_year) <->
  In opt fetched /\
  exists y, 2016 <= y <= this_year /\ opt = Text.str_of_int y.
Proof.
  unfold Scraper.relevant_year_options.
  rewrite filter_In, <- target_years_In. apply and_iff_compat_l.
  rewrite existsb_exists. split.
  - intros (t & Ht & E). apply String.eqb_eq in E. now subst.
  - intros H. exists opt. split; [exact H | apply String.eqb_refl].
Qed.

(** A year of the loop is a year between 2016 and the year of the
    clock. *)
Lemma relevant_year_swept (fetched : list string) (d : D) (year : string)
  (n : Z) :
  In year (Scraper.relevant_year_options fetched (current_year d)) ->
  Text.py_int year = Some n -> swept_year n.
Proof.
  intros Hin Hn. apply relevant_year_options_In in Hin.
  destruct Hin as (_ & y & Hy & ->).
  rewrite py_int_str_of_int in Hn by lia. injection Hn as <-.
  split; [lia | exists d; lia].
Qed.

Lemma handle_year_selection_month_wise_writes
  (x_axis_option y_axis_option : string) :
  writes
    (inserts (built_for (eq y_axis_option) (eq x_axis_option) swept_year))
    (Scraper.handle_year_selection_month_wise x_axis_option y_axis_option).
Proof.
  unfold Scraper.handle_year_selection_month_wise. sweeps.
  eapply inserts_writes_weaken; [ | apply month_wise_year_writes].
  intros df t. apply built_for_weaken; auto.
  intros n. eapply relevant_year_swept.
  match goal with H : _ = _ :: _ |- _ => rewrite H end. eassumption.
Qed.

Lemma handle_year_selection_calendar_writes
  (x_axis_option y_axis_option : string) :
  writes
    (inserts (built_for (eq y_axis_option) (eq x_axis_option) swept_year))
    (Scraper.handle_year_selection_calendar x_axis_option y_axis_option).
Proof.
  unfold Scraper.handle_year_selection_calendar. sweeps.
  eapply inserts_writes_weaken; [ | apply calendar_year_writes].
  intros df t. apply built_for_weaken; auto.
  intros n. eapply relevant_year_swept.
  match goal with H : _ = _ :: _ |- _ => rewrite H end. eassumption.
Qed.

Lemma main_x_axis_writes (y_axis_option x_axis_option : string) :
  writes
    (inserts (built_for (eq y_axis_option) (eq x_axis_option) swept_year))
    (Scraper.main_x_axis y_axis_option x_axis_option).
Proof.
  unfold Scraper.main_x_axis. sweeps.
  - apply handle_year_selection_calendar_writes.
  - apply handle_year_selection_month_wise_writes.
Qed.

Lemma among_In (opt : string) (options : list string) :
  Scraper.among opt options = true <-> In opt options.
Proof.
  unfold Scraper.among. rewrite existsb_exists. split.
  - intros (o & Ho & E). apply String.eqb_eq in E. now subst.
  - intros H. exists opt. split; [exact H | apply String.eqb_refl].
Qed.

Lemma main_y_axis_writes (y_axis_options_available : list string)
  (y_axis_option : string) :
  writes
    (inserts (built_for (eq y_axis_option)
                (fun x => In x Scraper.target_x_axis_options) swept_year))
    (Scraper.main_y_axis y_axis_options_available y_axis_option).
Proof.
  unfold Scraper.main_y_axis. sweeps.
  eapply inserts_writes_weaken; [ | apply main_x_axis_writes].
  intros df t. apply built_for_weaken; auto.
  intros x_axis_option <-.
  match goal with
  | Hin : In _ (_ :: _), H : filter _ _ = _ :: _ |- _ =>
      rewrite <- H in Hin; apply filter_In in Hin; now apply among_In
  end.
Qed.

(** The sweep changes the database only by calls of
    [insert_data_into_db] on frames built for a target Y-axis option, a
    target X-axis option and a year from 2016 on. *)
Lemma main_sweep_writes :
  writes
    (inserts (built_for (fun y => In y Scraper.target_y_axis_options)
                (fun x => In x Scraper.target_x_axis_options) swept_year))
    Scraper.main_sweep.
Proof.
  unfold Scraper.main_sweep. sweeps.
  eapply inserts_writes_weaken; [ | apply main_y_axis_writes].
  intros df t. apply built_for_weaken; auto.
  now intros y_axis_option <-.
Qed.

End Inserts.

(** *** What the inserted frames hold *)

Lemma calendar_year_records_rows (data_df : DataFrame) (y_axis_option : string)
  (df : records) :
  Scraper.calendar_year_records data_df y_axis_option = Some (Return df) ->
  exists rs,
    df = annual_records rs /\
    Forall (fun r => Annual.DataType r = y_axis_option) rs.
Proof.
  unfold Scraper.calendar_year_records.
  destruct (find _ (columns data_df)) as [col | ]; [ | discriminate].
  destruct (shape1 data_df <? 2)%nat; [discriminate | ].
  destruct (Text.py_int _) as [year | ]; [ | discriminate].
  destruct (position col (columns data_df)) as [j | ]; [ | discriminate].
  intros H. injection H as <-. eexists. split; [reflexivity | ].
  apply Forall_forall. intros r Hr. apply in_map_iff in Hr.
  now destruct Hr as (row & <- & _).
Qed.

Lemma month_wise_records_rows {pd : Pandas} (data_df : DataFrame)
  (y_axis_option : string) (year_val : Z) (df : records) :
  Scraper.month_wise_records data_df y_axis_option year_val = Some (Return df) ->
  exists rs,
    df = monthly_records rs /\
    Forall (fun r => Monthly.DataType r = y_axis_option /\
                     Monthly.Year r = year_val /\
                     exists n, Monthly.MonthlyRegistrations r = Num n) rs.
Proof.
  unfold Scraper.month_wise_records.
  destruct (position "Name" (columns data_df)) as [name_col | ]; [ | discriminate].
  destruct (filter _ (columns data_df)) as [ | c cs]; [discriminate | ].
  destruct (position "S No_S No" (columns data_df)); [ | discriminate].
  intros H. injection H as <-. eexists. split; [reflexivity | ].
  apply Forall_forall. intros r Hr. apply in_map_iff in Hr.
  destruct Hr as ([[name month] value] & <- & _). simpl.
  repeat split. rewrite fillna0_to_numeric_coerce. now eexists.
Qed.

Lemma persist_adds {pd : Pandas} (ys xs : string -> Prop) (years : Z -> Prop)
  (df : records) (table_name : string) (d : database) :
  built_for ys xs years df table_name ->
  adds (scraped_annual ys xs) (scraped_monthly ys xs years)
    d (persist df table_name d).
Proof.
  intros (y & x & n & Hy & Hx & Hn & [(-> & -> & data_df & H) | (-> & -> & data_df & H)]).
  - apply calendar_year_records_rows in H. destruct H as (rs & -> & Hrs).
    rewrite persist_eq. destruct (empty (annual_records rs)); [reflexivity | ].
    destruct (df_to_sql_annual_rows rs d) as (Hm & [Ha | Ha]).
    + exists [], []. rewrite Ha, Hm, !app_nil_r. auto.
    + exists (map Annual.stored rs), [].
      rewrite Ha, Hm, !app_nil_r. repeat split; auto.
      apply Forall_map. eapply Forall_impl; [ | exact Hrs].
      intros r <-. now split.
  - apply month_wise_records_rows in H. destruct H as (rs & -> & Hrs).
    rewrite persist_eq. destruct (empty (monthly_records rs)); [reflexivity | ].
    destruct (df_to_sql_monthly_rows rs d) as (Ha & [Hm | Hm]).
    + exists [], []. rewrite Ha, Hm, !app_nil_r. auto.
    + exists [], (map Monthly.stored rs).
      rewrite Ha, Hm, !app_nil_r. repeat split; auto.
      apply Forall_map. eapply Forall_impl; [ | exact Hrs].
      intros r (<- & <- & Hnum). now repeat split.
Qed.

(** A sequence of inserts only appends, and what it appends is what the
    frames hold. *)
Lemma inserts_adds {pd : Pandas} (ys xs : string -> Prop) (years : Z -> Prop)
  (d d' : database) :
  inserts (built_for ys xs years) d d' ->
  adds (scraped_annual ys xs) (scraped_monthly ys xs years) d d'.
Proof.
  induction 1 as [d | d df t Hok | d1 d2 d3 _ IH1 _ IH2].
  - reflexivity.
  - now apply persist_adds.
  - now transitivity d2.
Qed.

Lemma inserts_unique_keys (ok : records -> string -> Prop) (d d' : database) :
  inserts ok d d' -> unique_keys d -> unique_keys d'.
Proof.
  induction 1 as [d | d df t Hok | d1 d2 d3 _ IH1 _ IH2]; auto.
  apply persist_unique_keys.
Qed.

Lemma inserts_reachable {pd : Pandas} (ok : records -> string -> Prop)
  (d d' : database) :
  inserts ok d d' -> reachable d -> reachable d'.
Proof.
  induction 1 as [d | d df t Hok | d1 d2 d3 _ IH1 _ IH2]; auto.
  intros Hd. exact (reachable_step d (scraper_insert_data_into_db df t) Hd).
Qed.

(** X1. The scraper only appends: after [scrape_table_data_to_db], and
    after the whole sweep of [main], each table holds the rows it held,
    in their order, followed by the rows that were inserted; no stored
    row is removed or changed, whatever the page does. *)
Theorem scraper_only_appends :
  forall (D : Type) (drv : Driver D) (pd : Pandas) (w : world D),
    (forall (y_axis_option x_axis_option : string) (year_val : Z),
        let d' := db (snd (Scraper.scrape_table_data_to_db y_axis_option
                             x_axis_option year_val w)) in
        exists annual_rows monthly_rows,
          annual_registrations d' = annual_registrations (db w) ++ annual_rows /\
          monthly_registrations d'
          = monthly_registrations (db w) ++ monthly_rows) /\
    (let d' := db (snd (Scraper.main_sweep w)) in
     exists annual_rows monthly_rows,
       annual_registrations d' = annual_registrations (db w) ++ annual_rows /\
       monthly_registrations d' = monthly_registrations (db w) ++ monthly_rows).
Proof.
  intros D drv pd w. split.
  - intros y x n.
    destruct (inserts_adds _ _ _ _ _ (scrape_table_data_to_db_writes y x n w))
      as (ra & rm & Ha & Hm & _).
    now exists ra, rm.
  - destruct (inserts_adds _ _ _ _ _ (main_sweep_writes w))
      as (ra & rm & Ha & Hm & _).
    now exists ra, rm.
Qed.

(** X2. The rows that the sweep of [main] adds: every one carries the
    Y-axis option it was scraped for, [Vehicle Category] or [Maker], so
    none is labelled [Manufacturer], the label the migration gives to
    the rows of the makers; a monthly row holds a number, and its year
    lies between 2016 and the current year, for a clock that shows no
    year after [now]. *)
Theorem sweep_adds_labelled_rows :
  forall (D : Type) (drv : Driver D) (pd : Pandas) (now : Z),
    (forall d : D, current_year d <= now) ->
    forall w : world D,
      let d' := db (snd (Scraper.main_sweep w)) in
      exists annual_rows monthly_rows,
        annual_registrations d' = annual_registrations (db w) ++ annual_rows /\
        monthly_registrations d' = monthly_registrations (db w) ++ monthly_rows /\
        (forall r, In r annual_rows ->
                   In (Annual.DataType r) Scraper.target_y_axis_options /\
                   Annual.DataType r <> "Manufacturer") /\
        (forall r, In r monthly_rows ->
                   In (Monthly.DataType r) Scraper.target_y_axis_options /\
                   Monthly.DataType r <> "Manufacturer" /\
                   2016 <= Monthly.Year r <= now /\
                   exists n, Monthly.MonthlyRegistrations r = Num n).
Proof.
  intros D drv pd now Hnow w.
  assert (Hlabel : forall y, In y Scraper.target_y_axis_options ->
                             y <> "Manufacturer").
  { intros y [<- | [<- | []]]; discriminate. }
  destruct (inserts_adds _ _ _ _ _ (main_sweep_writes w))
    as (ra & rm & Ha & Hm & Fa & Fm).
  exists ra, rm. rewrite Forall_forall in Fa, Fm.
  split; [exact Ha | split; [exact Hm | split]].
  - intros r Hr. destruct (Fa r Hr) as (Hy & _).
    split; [exact Hy | now apply Hlabel].
  - intros r Hr. destruct (Fm r Hr) as (Hy & _ & (Hlo & d & Hd) & Hnum).
    specialize (Hnow d).
    split; [exact Hy | split; [now apply Hlabel | split; [lia | exact Hnum]]].
Qed.

Lemma sweep_adds_labelled_rows_witness :
  db (snd (Scraper.main_sweep (drv := maker_page) (pd := no_numeric_text)
             (quiet_world empty_database)))
  = {| annual_registrations := [];
       monthly_registrations :=
         [maker_month "HONDA" "JAN" 10; maker_month "TVS" "JAN" 7;
          maker_month "HONDA" "FEB" 0; maker_month "TVS" "FEB" 8;
          maker_month "HONDA" "MAR" 5; maker_month "TVS" "MAR" 9] |}
  /\ exists annual_rows monthly_rows,
       annual_registrations
         (db (snd (Scraper.main_sweep (drv := maker_page)
                     (pd := no_numeric_text) (quiet_world empty_database))))
       = [] ++ annual_rows /\
       monthly_registrations
         (db (snd (Scraper.main_sweep (drv := maker_page)
                     (pd := no_numeric_text) (quiet_world empty_database))))
       = [] ++ monthly_rows /\
       (forall r, In r annual_rows ->
                  In (Annual.DataType r) Scraper.target_y_axis_options /\
                  Annual.DataType r <> "Manufacturer") /\
       (forall r, In r monthly_rows ->
                  In (Monthly.DataType r) Scraper.target_y_axis_options /\
                  Monthly.DataType r <> "Manufacturer" /\
                  2016 <= Monthly.Year r <= 2023 /\
                  exists n, Monthly.MonthlyRegistrations r = Num n).
Proof.
  split; [vm_compute; reflexivity | ].
  apply (sweep_adds_labelled_rows unit maker_page no_numeric_text 2023).
  intros d. simpl. lia.
Defined.

(** X4. [scrape_table_data_to_db] writes to the table of its X-axis
    option only: unless the option is [Calendar Year] the annual table
    stays as it is, and unless it is [Month Wise] the monthly table
    stays as it is. *)
Theorem scrape_writes_table_of_x_axis :
  forall (D : Type) (drv : Driver D) (pd : Pandas)
         (y_axis_option x_axis_option : string) (year_val : Z) (w : world D),
    let d' := db (snd (Scraper.scrape_table_data_to_db y_axis_option
                         x_axis_option year_val w)) in
    (x_axis_option <> "Calendar Year" ->
     annual_registrations d' = annual_registrations (db w)) /\
    (x_axis_option <> "Month Wise" ->
     monthly_registrations d' = monthly_registrations (db w)).
Proof.
  intros D drv pd y x n w.
  destruct (inserts_adds _ _ _ _ _ (scrape_table_data_to_db_writes y x n w))
    as (ra & rm & Ha & Hm & Fa & Fm).
  split; intros Hx.
  - destruct ra as [ | r ra]; [now rewrite app_nil_r in Ha | ].
    apply Forall_inv in Fa. now destruct Fa as (_ & ->).
  - destruct rm as [ | r rm]; [now rewrite app_nil_r in Hm | ].
    apply Forall_inv in Fm. now destruct Fm as (_ & -> & _).
Qed.

Lemma scrape_writes_table_of_x_axis_witness :
  annual_registrations
    (db (snd (Scraper.scrape_table_data_to_db (drv := maker_page)
                (pd := no_numeric_text) "Maker" "Month Wise" 2023
                {| ext := tt;
                   db := {| annual_registrations := [honda 2021 10];
                            monthly_registrations := [] |};
                   stdout := [] |})))
  = [honda 2021 10]
  /\ List.length
       (monthly_registrations
          (db (snd (Scraper.scrape_table_data_to_db (drv := maker_page)
                      (pd := no_numeric_text) "Maker" "Month Wise" 2023
                      {| ext := tt;
                         db := {| annual_registrations := [honda 2021 10];
                                  monthly_registrations := [] |};
                         stdout := [] |}))))
     = 6%nat.
Proof.
  split; [ | vm_compute; reflexivity].
  apply (scrape_writes_table_of_x_axis unit maker_page no_numeric_text
           "Maker" "Month Wise" 2023).
  discriminate.
Defined.

(** X5. The sweep of [main] keeps the database among the states the two
    programs can reach, and keeps the natural keys of each table
    unique: it changes the database through [insert_data_into_db]
    alone. *)
Theorem sweep_keeps_keys_unique :
  forall (D : Type) (drv : Driver D) (pd : Pandas) (w : world D),
    (unique_keys (db w) -> unique_keys (db (snd (Scraper.main_sweep w)))) /\
    (reachable (db w) -> reachable (db (snd (Scraper.main_sweep w)))).
Proof.
  intros D drv pd w. split.
  - apply (inserts_unique_keys _ _ _ (main_sweep_writes w)).
  - apply (inserts_reachable _ _ _ (main_sweep_writes w)).
Qed.

Lemma sweep_keeps_keys_unique_witness :
  unique_keys
    (db (snd (Scraper.main_sweep (drv := maker_page) (pd := no_numeric_text)
                (quiet_world empty_database))))
  /\ reachable (pd := no_numeric_text)
       (db (snd (Scraper.main_sweep (drv := maker_page) (pd := no_numeric_text)
                   (quiet_world empty_database)))).
Proof.
  split.
  - apply (proj1 (sweep_keeps_keys_unique unit maker_page no_numeric_text
                    (quiet_world empty_database))).
    apply empty_unique_keys.
  - apply (proj2 (sweep_keeps_keys_unique unit maker_page no_numeric_text
                    (quiet_world empty_database))).
    apply reachable_new.
Defined.

(** ** The years of the sweep *)

(** X6. The years that the two handlers scrape are the fetched options
    that are the decimal text of a year from 2016 to the current year,
    and [int] reads that year back from each; before 2016 there is
    none. An option with a blank or a leading zero is not among them. *)
Theorem relevant_years_are_target_years :
  forall (fetched_year_options : list string) (this_year : Z),
    (forall opt,
        In opt (Scraper.relevant_year_options fetched_year_options this_year) <->
        In opt fetched_year_options /\
        exists y, 2016 <= y <= this_year /\ opt = Text.str_of_int y) /\
    (forall opt,
        In opt (Scraper.relevant_year_options fetched_year_options this_year) ->
        exists y, 2016 <= y <= this_year /\ Text.py_int opt = Some y) /\
    (this_year < 2016 ->
     Scraper.relevant_year_options fetched_year_options this_year = []).
Proof.
  intros fetched this_year. split; [ | split].
  - intros opt. apply relevant_year_options_In.
  - intros opt H. apply relevant_year_options_In in H.
    destruct H as (_ & y & Hy & ->). exists y. split; [exact Hy | ].
    apply py_int_str_of_int. lia.
  - intros Hlt.
    destruct (Scraper.relevant_year_options fetched this_year) as [ | opt l] eqn:E;
      [reflexivity | ].
    assert (H : In opt (Scraper.relevant_year_options fetched this_year))
      by (rewrite E; now left).
    apply relevant_year_options_In in H. destruct H as (_ & y & Hy & _). lia.
Qed.

Lemma relevant_years_are_target_years_witness :
  In "2022" (Scraper.relevant_year_options ["2015"; "2022"; " 2023"; "02021"] 2023)
  /\ Scraper.relevant_year_options ["2015"; "2022"; " 2023"; "02021"] 2023
     = ["2022"]
  /\ Scraper.relevant_year_options ["2015"; "2016"] 2015 = [].
Proof.
  split; [ | split].
  - apply (proj1 (relevant_years_are_target_years
                    ["2015"; "2022"; " 2023"; "02021"] 2023)).
    split; [simpl; auto | ].
    exists 2022. split; [lia | reflexivity].
  - vm_compute. reflexivity.
  - apply (proj2 (proj2 (relevant_years_are_target_years ["2015"; "2016"] 2015))).
    lia.
Defined.

(** ** [insert_data_into_db] twice *)

(** A frame with rows either leaves the database as it is or ends with
    its own keys in the table. *)
Lemma df_to_sql_cases (df : records) (table_name : string) (d : database) :
  empty df = false ->
  snd (df_to_sql df table_name d) = d \/
  conflicts df table_name (snd (df_to_sql df table_name d)).
Proof.
  intros Hne. unfold df_to_sql.
  destruct (table_name =? "annual_registrations")%string eqn:Ea.
  - destruct df as [rs | rs]; [ | now left].
    destruct (to_sql_all_or_nothing Annual.key Annual.key_eq_dec
                Annual.not_null Annual.fits Annual.stored annual_key_stored
                rs (annual_registrations d)) as [[H _] | [e H]];
      rewrite H; simpl.
    + right. apply String.eqb_eq in Ea. split; [exact Ea | ].
      destruct rs as [ | r rs]; [discriminate Hne | ].
      exists r. split; [now left | ]. simpl.
      rewrite map_app. apply in_or_app. right. left. apply annual_key_stored.
    + left. apply database_eta.
  - destruct (table_name =? "monthly_registrations")%string eqn:Em; [ | now left].
    destruct df as [rs | rs]; [now left | ].
    destruct (to_sql_all_or_nothing Monthly.key Monthly.key_eq_dec
                Monthly.not_null Monthly.fits Monthly.stored monthly_key_stored
                rs (monthly_registrations d)) as [[H _] | [e H]];
      rewrite H; simpl.
    + right. apply String.eqb_eq in Em. split; [exact Em | ].
      destruct rs as [ | r rs]; [discriminate Hne | ].
      exists r. split; [now left | ]. simpl.
      rewrite map_app. apply in_or_app. right. left. apply monthly_key_stored.
    + left. apply database_eta.
Qed.

Lemma df_to_sql_twice (df : records) (table_name : string) (d : database) :
  empty df = false ->
  snd (df_to_sql df table_name (snd (df_to_sql df table_name d)))
  = snd (df_to_sql df table_name d).
Proof.
  intros Hne. destruct (df_to_sql_cases df table_name d Hne) as [H | H].
  - now rewrite !H.
  - now destruct (df_to_sql_conflict _ _ _ H) as (e & -> & _).
Qed.

(** X7. Inserting the same frame a second time changes nothing: the
    database after two calls of [insert_data_into_db] on a frame is the
    database after one, so scraping an unchanged page again leaves the
    stored rows as they are. *)
Theorem insert_data_into_db_twice :
  forall (D : Type) (drv : Driver D) (df : records) (table_name : string)
         (w : world D),
    let once := snd (Scraper.insert_data_into_db df table_name w) in
    db (snd (Scraper.insert_data_into_db df table_name once)) = db once.
Proof.
  intros D drv df table_name w once. subst once.
  rewrite (insert_data_into_db_run df table_name w).
  destruct (connection df w) as [u | e] eqn:Hc; simpl.
  - rewrite insert_data_into_db_run. unfold connection in *. simpl.
    rewrite Hc. simpl.
    destruct (empty df) eqn:E; [reflexivity | ].
    now apply df_to_sql_twice.
  - rewrite insert_data_into_db_run, Hc. reflexivity.
Qed.

(** ** The rows of the migration *)

Lemma four_digits_range (s : string) (y : Z) :
  Text.four_digits s = Some y -> 0 <= y <= 9999.
Proof.
  unfold Text.four_digits.
  destruct s as [ | a [ | b [ | c [ | d s]]]]; try discriminate.
  destruct (Text.is_digit a) eqn:Ha; [ | discriminate].
  destruct (Text.is_digit b) eqn:Hb; [ | discriminate].
  destruct (Text.is_digit c) eqn:Hc; [ | discriminate].
  destruct (Text.is_digit d) eqn:Hd; [ | discriminate].
  simpl. intros H. injection H as <-.
  unfold Text.is_digit in *. unfold Text.digit_value.
  apply andb_true_iff in Ha, Hb, Hc, Hd.
  destruct Ha as [Ha1 Ha2], Hb as [Hb1 Hb2], Hc as [Hc1 Hc2], Hd as [Hd1 Hd2].
  apply Nat.leb_le in Ha1, Ha2, Hb1, Hb2, Hc1, Hc2, Hd1, Hd2. lia.
Qed.

Lemma search_four_digits_range (s : string) (y : Z) :
  Text.search_four_digits s = Some y -> 0 <= y <= 9999.
Proof.
  induction s as [ | c s IH].
  - simpl. discriminate.
  - cbn [Text.search_four_digits].
    destruct (Text.four_digits (String c s)) as [z | ] eqn:E.
    + intros H. injection H as <-. now apply four_digits_range in E.
    + exact IH.
Qed.

Lemma search_year_csv_range (s : string) (y : Z) :
  Text.search_year_csv s = Some y -> 0 <= y <= 9999.
Proof.
  induction s as [ | c s IH].
  - simpl. discriminate.
  - cbn [Text.search_year_csv].
    destruct (String.prefix "Year_" (String c s)); [ | exact IH].
    destruct (Text.four_digits (Text.drop 5 (String c s))) as [z | ] eqn:E;
      [ | exact IH].
    destruct (String.prefix ".csv" (Text.drop 9 (String c s))); [ | exact IH].
    intros H. injection H as <-. now apply four_digits_range in E.
Qed.

Lemma df_type_cases (file : string) :
  Migrate.df_type file = "Vehicle Category" \/ Migrate.df_type file = "Manufacturer".
Proof. unfold Migrate.df_type. destruct (Text.contains _ file); auto. Qed.

Lemma annual_rows_In {pd : Pandas} (df_type : string)
  (melted : list (cell * string * cell)) (rs : list Annual.row) :
  Migrate.annual_rows df_type melted = Return rs ->
  forall r, In r rs ->
            Annual.DataType r = df_type /\ 0 <= Annual.Year r <= 9999 /\
            exists n, Annual.Registrations r = Num n.
Proof.
  revert rs. induction melted as [ | [[name label] value] melted IH];
    intros rs; simpl.
  - intros H. injection H as <-. intros r [].
  - unfold Migrate.extract_year.
    destruct (Text.search_four_digits label) as [year | ] eqn:Ey; [ | discriminate].
    destruct (Migrate.annual_rows df_type melted) as [rs' | e]; [ | discriminate].
    intros H. injection H as <-. intros r [<- | Hr].
    + simpl. repeat split; try (now apply search_four_digits_range in Ey).
      rewrite fillna0_to_numeric_coerce. now eexists.
    + now apply (IH rs').
Qed.

Lemma kept_migrated (name value : cell) (data_type : string) (year : Z) :
  Migrate.kept name value = true ->
  (data_type = "Vehicle Category" \/ data_type = "Manufacturer") ->
  0 <= year <= 9999 ->
  migrated name data_type year value.
Proof.
  unfold Migrate.kept. intros H Ht Hy.
  apply andb_true_iff in H. destruct H as [H Hpos].
  apply andb_true_iff in H. destruct H as [Hname _].
  repeat split; try assumption; try lia.
  - now destruct (isna name).
  - destruct value as [ | n | s]; try discriminate Hpos.
    exists n. split; [reflexivity | now apply Z.ltb_lt].
Qed.

Lemma annual_frame_migrated {pd : Pandas} (file : string) (df : DataFrame)
  (rs : list Annual.row) :
  Migrate.annual_frame file df = Some (Return rs) ->
  forall r, In r rs ->
            migrated (Annual.Name r) (Annual.DataType r) (Annual.Year r)
              (Annual.Registrations r).
Proof.
  unfold Migrate.annual_frame.
  destruct (position "Name" _) as [name_col | ]; [ | discriminate].
  destruct (filter Migrate.is_year_col _) as [ | c cs]; [discriminate | ].
  destruct (negb (distinct _)); [discriminate | ].
  destruct (Migrate.annual_rows _ _) as [rows | e] eqn:E; [ | discriminate].
  intros H. injection H as <-. intros r Hr. apply filter_In in Hr.
  destruct Hr as [Hr Hk].
  destruct (annual_rows_In _ _ _ E r Hr) as (Ht & Hy & _).
  apply kept_migrated; [exact Hk | | exact Hy].
  rewrite Ht. apply df_type_cases.
Qed.

Lemma monthly_frame_migrated {pd : Pandas} (file : string) (year : Z)
  (df : DataFrame) (rs : list Monthly.row) :
  0 <= year <= 9999 ->
  Migrate.monthly_frame file year df = Some (Return rs) ->
  forall r, In r rs ->
            migrated (Monthly.Name r) (Monthly.DataType r) (Monthly.Year r)
              (Monthly.MonthlyRegistrations r).
Proof.
  intros Hy. unfold Migrate.monthly_frame.
  destruct (position "Name" _) as [name_col | ]; [ | discriminate].
  destruct (filter _ (Migrate.rename_name _ _)) as [ | c cs]; [discriminate | ].
  destruct (negb (distinct _)); [discriminate | ].
  intros H. injection H as <-. intros r Hr. apply filter_In in Hr.
  destruct Hr as [Hr Hk]. apply in_map_iff in Hr.
  destruct Hr as ([[name month] value] & <- & _). simpl in *.
  apply kept_migrated; [exact Hk | apply df_type_cases | exact Hy].
Qed.

(** The [TEXT] affinity keeps a name a name. *)
Lemma migrated_text_affinity (name : cell) (data_type : string) (year : Z)
  (registrations : cell) :
  migrated name data_type year registrations ->
  migrated (text_affinity name) data_type year registrations.
Proof.
  intros (Hn & H). split; [ | exact H]. now destruct name.
Qed.

(** X8. What the migration leaves in the database: every row has a
    name, the type [Vehicle Category] or [Manufacturer], a year of four
    digits and a positive number of registrations, and no two rows of a
    table have the same natural key; whatever the database held
    before. *)
Theorem migrated_rows_are_positive :
  forall (pd : Pandas) (data_dir : option (list Migrate.csv_file))
         (d : database),
    let d' := Migrate.main data_dir d in
    (forall r, In r (annual_registrations d') ->
               migrated (Annual.Name r) (Annual.DataType r) (Annual.Year r)
                 (Annual.Registrations r)) /\
    (forall r, In r (monthly_registrations d') ->
               migrated (Monthly.Name r) (Monthly.DataType r) (Monthly.Year r)
                 (Monthly.MonthlyRegistrations r)) /\
    unique_keys d'.
Proof.
  intros pd data_dir d d'.
  assert (E : d' = Migrate.migrate_csvs (Some (listing_of data_dir)) d)
    by (subst d'; now destruct data_dir).
  rewrite E.
  destruct (migrate_csvs_from_scratch pd (listing_of data_dir) d)
    as (_ & Hscratch & Ha & Hm).
  split; [ | split].
  - intros r Hr. destruct (Ha r Hr) as (f & df & rs & _ & _ & _ & Hf & Hin).
    apply in_map_iff in Hin. destruct Hin as (r0 & <- & Hin).
    apply migrated_text_affinity.
    exact (annual_frame_migrated _ _ _ Hf r0 Hin).
  - intros r Hr.
    destruct (Hm r Hr) as (f & df & year & rs & _ & _ & _ & Hy & Hf & Hin).
    apply search_year_csv_range in Hy.
    apply in_map_iff in Hin. destruct Hin as (r0 & <- & Hin).
    apply migrated_text_affinity.
    exact (monthly_frame_migrated _ _ _ _ Hy Hf r0 Hin).
  - rewrite Hscratch. apply migrate_csvs_unique_keys. apply empty_unique_keys.
Qed.

Lemma migrated_rows_are_positive_witness :
  migrated (Str "HONDA") "Manufacturer" 2022 (Num 20).
Proof.
  apply (proj1 (migrated_rows_are_positive no_numeric_text (Some [honda_csv])
                  {| annual_registrations := [honda 2021 10];
                     monthly_registrations := [] |})
           (annual (Str "HONDA") "Manufacturer" 2022 (Num 20))).
  vm_compute. now left.
Defined.

(** ** From the CSV scraper to the migration *)

Lemma digit_chars_In (c : ascii) : Text.is_digit c = true -> In c digit_chars.
Proof.
  destruct c as [[] [] [] [] [] [] [] []]; vm_compute; intros H;
    try discriminate H; auto 12.
Qed.

Lemma year_text_cases (year : string) (n : Z) :
  String.length year = 4%nat -> Text.four_digits year = Some n ->
  exists a b c d,
    year = year_text a b c d /\
    Text.is_digit a = true /\ Text.is_digit b = true /\
    Text.is_digit c = true /\ Text.is_digit d = true.
Proof.
  destruct year as [ | a [ | b [ | c [ | d [ | e rest]]]]]; try discriminate.
  intros _. unfold Text.four_digits.
  destruct (Text.is_digit a) eqn:Ha; [ | discriminate].
  destruct (Text.is_digit b) eqn:Hb; [ | discriminate].
  destruct (Text.is_digit c) eqn:Hc; [ | discriminate].
  destruct (Text.is_digit d) eqn:Hd; [ | discriminate].
  intros _. exists a, b, c, d.
  now repeat split.
Qed.

Lemma py_int_four_digits (a b c d : ascii) :
  In a digit_chars -> In b digit_chars -> In c digit_chars -> In d digit_chars ->
  Text.py_int (year_text a b c d) = Text.four_digits (year_text a b c d).
Proof.
  assert (H : forallb
                (fun a =>
                   forallb
                     (fun b =>
                        forallb
                          (fun c =>
                             forallb
                               (fun d =>
                                  match Text.py_int (year_text a b c d),
                                        Text.four_digits (year_text a b c d) with
                                  | Some n, Some m => n =? m
                                  | _, _ => false
                                  end)
                               digit_chars)
                          digit_chars)
                     digit_chars)
                digit_chars = true) by (vm_compute; reflexivity).
  intros Ha Hb Hc Hd. rewrite forallb_forall in H.
  specialize (H a Ha). rewrite forallb_forall in H.
  specialize (H b Hb). rewrite forallb_forall in H.
  specialize (H c Hc). rewrite forallb_forall in H.
  specialize (H d Hd).
  destruct (Text.py_int (year_text a b c d)) as [n | ]; [ | discriminate H].
  destruct (Text.four_digits (year_text a b c d)) as [m | ]; [ | discriminate H].
  apply Z.eqb_eq in H. now subst.
Qed.

Lemma isalnum_digit (c : ascii) :
  Text.is_digit c = true -> CsvScraper.isalnum c = true.
Proof.
  unfold Text.is_digit, CsvScraper.isalnum. intros H. now rewrite H.
Qed.

Lemma is_digit_neq (p c : ascii) :
  Text.is_digit p = false -> Text.is_digit c = true -> p <> c.
Proof. intros Hp Hc E. subst. congruence. Qed.

(** A pattern that starts with a letter does not start at a digit. *)
Lemma prefix_digit (p : ascii) (pat : string) (c : ascii) (s : string) :
  Text.is_digit p = false -> Text.is_digit c = true ->
  String.prefix (String p pat) (String c s) = false.
Proof.
  intros Hp Hc. simpl.
  destruct (ascii_dec p c) as [E | _]; [ | reflexivity].
  now apply is_digit_neq in E.
Qed.

Lemma contains_cons_false (pat : string) (c : ascii) (s : string) :
  String.prefix pat (String c s) = false -> Text.contains pat s = false ->
  Text.contains pat (String c s) = false.
Proof. intros H1 H2. cbn [Text.contains]. now rewrite H1, H2. Qed.

Lemma endswith_append (s suffix : string) :
  Text.endswith (String.append s suffix) suffix = true.
Proof.
  induction s as [ | c s IH]; cbn [String.append].
  - destruct suffix; cbn [Text.endswith]; now rewrite String.eqb_refl.
  - cbn [Text.endswith]. rewrite IH. apply orb_true_r.
Qed.

Lemma search_year_csv_skip (c : ascii) (s : string) :
  String.prefix "Year_" (String c s) = false \/
  Text.four_digits (Text.drop 5 (String c s)) = None ->
  Text.search_year_csv (String c s) = Text.search_year_csv s.
Proof.
  intros H. cbn [Text.search_year_csv].
  destruct H as [H | H]; rewrite H; [reflexivity | ].
  now destruct (String.prefix "Year_" (String c s)).
Qed.

Lemma search_year_csv_here (s : string) (y : Z) :
  String.prefix "Year_" s = true ->
  Text.four_digits (Text.drop 5 s) = Some y ->
  String.prefix ".csv" (Text.drop 9 s) = true ->
  Text.search_year_csv s = Some y.
Proof.
  intros H1 H2 H3. destruct s as [ | c s]; [discriminate H1 | ].
  cbn [Text.search_year_csv]. now rewrite H1, H2, H3.
Qed.

Ltac contains_false :=
  repeat
    (apply contains_cons_false;
     [ first [reflexivity | apply prefix_digit; [reflexivity | assumption]] | ]);
  reflexivity.

Ltac find_year H :=
  repeat
    (rewrite search_year_csv_skip
       by (first [left; reflexivity | right; reflexivity]));
  apply search_year_csv_here; [reflexivity | exact H | reflexivity].

(** X9. A file that the CSV scraper writes for a target Y-axis option, a
    target X-axis option and a year of four digits is read by the
    migration as what it is: it is listed among the calendar-year files
    exactly when it was scraped by calendar year and among the
    month-wise files exactly when it was scraped by month, its type is
    [Manufacturer] for [Maker] and [Vehicle Category] otherwise, and
    the year read from its name is the year that was scraped. *)
Theorem scraped_csv_is_recognised :
  forall (y_axis_option x_axis_option year_to_scrape : string) (year : Z)
         (content : outcome DataFrame),
    In y_axis_option ["Vehicle Category"; "Maker"] ->
    In x_axis_option ["Calendar Year"; "Month Wise"] ->
    String.length year_to_scrape = 4%nat ->
    Text.four_digits year_to_scrape = Some year ->
    let f :=
      {| Migrate.file :=
           CsvScraper.csv_name
             (CsvScraper.combination_name y_axis_option x_axis_option
                year_to_scrape);
         Migrate.read_csv := content |} in
    Migrate.is_calendar_year_file f = (x_axis_option =? "Calendar Year")%string /\
    Migrate.is_month_wise_file f = (x_axis_option =? "Month Wise")%string /\
    Migrate.df_type (Migrate.file f)
    = (if (y_axis_option =? "Maker")%string then "Manufacturer"
       else "Vehicle Category") /\
    Text.search_year_csv (Migrate.file f) = Some year /\
    Text.py_int year_to_scrape = Some year.
Proof.
  intros y x year_to_scrape year content Hy Hx Hlen Hyear f.
  destruct (year_text_cases _ _ Hlen Hyear)
    as (a & b & c & d & -> & Ha & Hb & Hc & Hd).
  subst f. unfold Migrate.is_calendar_year_file, Migrate.is_month_wise_file,
    Migrate.df_type, Text.startswith.
  cbn [Migrate.file].
  remember (CsvScraper.csv_name (CsvScraper.combination_name y x
                                   (year_text a b c d))) as name eqn:Hname.
  assert (Hend : Text.endswith name ".csv" = true)
    by (rewrite Hname; apply endswith_append).
  rewrite Hend, (py_int_four_digits a b c d)
    by (apply digit_chars_In; assumption).
  assert (Hsafe : forall e, Text.is_digit e = true ->
                            (if CsvScraper.isalnum e then e else "_"%char) = e)
    by (intros e He; now rewrite isalnum_digit).
  destruct Hy as [<- | [<- | []]]; destruct Hx as [<- | [<- | []]];
    cbn -[CsvScraper.isalnum] in Hname;
    rewrite (Hsafe a Ha), (Hsafe b Hb), (Hsafe c Hc), (Hsafe d Hd) in Hname;
    lazy in Hname; subst name.
  all: repeat
         match goal with
         | |- context [Text.contains ?pat ?name] =>
             first
               [ assert (Text.contains pat name = true) as -> by reflexivity
               | assert (Text.contains pat name = false) as ->
                   by contains_false ]
         end.
  all: split; [reflexivity | split; [reflexivity | split; [reflexivity | ]]].
  all: split; [ | exact Hyear].
  all: find_year Hyear.
Qed.

Lemma scraped_csv_is_recognised_witness :
  Migrate.is_month_wise_file
    {| Migrate.file :=
         CsvScraper.csv_name
           (CsvScraper.combination_name "Vehicle Category" "Month Wise" "2024");
       Migrate.read_csv := Raise OSError |}
  = true
  /\ CsvScraper.csv_name
       (CsvScraper.combination_name "Vehicle Category" "Month Wise" "2024")
     = "Y_Vehicle_Category_X_Month_Wise_Year_2024.csv"
  /\ Text.search_year_csv
       (CsvScraper.csv_name
          (CsvScraper.combination_name "Vehicle Category" "Month Wise" "2024"))
     = Some 2024.
Proof.
  destruct (scraped_csv_is_recognised "Vehicle Category" "Month Wise" "2024"
              2024 (Raise OSError))
    as (_ & Hmon & _ & Hyear & _).
  - simpl. auto.
  - simpl. auto.
  - reflexivity.
  - reflexivity.
  - split; [exact Hmon | split; [reflexivity | exact Hyear]].
Defined.

Lemma same_key_in_year (k e : App.entry Z) :
  same_key Z.compare k e = in_year (App.group k) (App.period k) e.
Proof.
  destruct (same_key Z.compare k e) eqn:E; symmetry.
  - apply (same_key_true Z.compare Z_compare_antisym Z_compare_eq) in E.
    destruct E as [Hg Hp]. unfold in_year.
    now rewrite Hg, Hp, String.eqb_refl, Z.eqb_refl.
  - unfold in_year. destruct (_ && _) eqn:F; [ | reflexivity].
    apply andb_true_iff in F. destruct F as [Hg Hp].
    apply String.eqb_eq in Hg. apply Z.eqb_eq in Hp.
    rewrite <- E. symmetry.
    apply (same_key_true Z.compare Z_compare_antisym Z_compare_eq). now split.
Qed.

Lemma same_key_in_quarter (k : App.entry (Z * Z)) (m : App.monthly) :
  same_key App.compare_quarter k (quarterly m)
  = in_quarter (App.group k) (fst (App.period k)) (snd (App.period k)) m.
Proof.
  destruct (same_key App.compare_quarter k (quarterly m)) eqn:E; symmetry.
  - apply (same_key_true App.compare_quarter compare_quarter_antisym
             compare_quarter_eq) in E.
    destruct E as [Hg Hp]. unfold in_quarter. cbn in Hg, Hp.
    rewrite <- Hg, <- Hp. cbn [fst snd].
    now rewrite String.eqb_refl, !Z.eqb_refl.
  - unfold in_quarter. destruct (_ && _) eqn:F; [ | reflexivity].
    apply andb_true_iff in F. destruct F as [F Hq].
    apply andb_true_iff in F. destruct F as [Hg Hy].
    apply String.eqb_eq in Hg. apply Z.eqb_eq in Hy, Hq.
    rewrite <- E. symmetry.
    apply (same_key_true App.compare_quarter compare_quarter_antisym
             compare_quarter_eq).
    split; [exact Hg | ]. cbn. destruct (App.period k). cbn in *. now subst.
Qed.

Lemma registrations_quarterly (f : App.entry (Z * Z) -> bool)
  (df_monthly : list App.monthly) :
  registrations (filter f (map quarterly df_monthly))
  = sum_monthly (filter (fun m => f (quarterly m)) df_monthly).
Proof.
  induction df_monthly as [ | m l IH]; [reflexivity | ].
  cbn [map filter]. destruct (f (quarterly m)).
  - rewrite registrations_cons, IH. reflexivity.
  - exact IH.
Qed.

Lemma registrations_map_quarterly (df_monthly : list App.monthly) :
  registrations (map quarterly df_monthly) = sum_monthly df_monthly.
Proof.
  induction df_monthly as [ | m l IH]; [reflexivity | ].
  cbn [map]. rewrite registrations_cons, IH. reflexivity.
Qed.

(** Among registrations that are not negative, the sum of some rows is
    between zero and the sum of all. *)
Lemma registrations_filter_bounds {P : Type} (f : App.entry P -> bool)
  (df : list (App.entry P)) :
  (forall e, In e df -> 0 <= App.value e) ->
  0 <= registrations (filter f df) <= registrations df.
Proof.
  induction df as [ | e df IH]; intros Hpos; [cbn; lia | ].
  assert (He : 0 <= App.value e) by (apply Hpos; now left).
  assert (H : 0 <= registrations (filter f df) <= registrations df)
    by (apply IH; intros x Hx; apply Hpos; now right).
  cbn [filter]. destruct (f e); rewrite ?registrations_cons; lia.
Qed.

Lemma total_exact {P : Type} (cmp : P -> P -> comparison) (k : App.entry P)
  (df : list (App.entry P)) :
  (forall e, In e df -> 0 <= App.value e) ->
  registrations df < 2 ^ 63 ->
  total cmp k df = registrations (filter (same_key cmp k) df).
Proof.
  intros Hpos Hfit. unfold total. apply wrap64_small.
  pose proof (registrations_filter_bounds (same_key cmp k) df Hpos).
  assert (0 < 2 ^ 63) by reflexivity. lia.
Qed.

(** X10. On a frame in which no group has a period whose total is zero
    the growth computations return a table, and each row of the table
    holds the sum, as pandas adds [int64], of the registrations of the
    input rows of its group and period: of the year for
    [calculate_yoy_growth], of the quarter of the year for
    [calculate_qoq_growth], where the quarter of a month is
    [(month - 1) // 3 + 1].  It is the exact sum when no registration
    is negative and their total is below [2 ** 63].  Every input row is
    counted in one row of the result, every row of the result comes
    from an input row, and the grand total is kept. *)
Theorem growth_rows_sum_registrations :
  (forall df_annual : list (App.entry Z),
      no_zero_total Z.compare df_annual ->
      exists out,
        App.calculate_yoy_growth df_annual = Return out /\
        (forall r, In r out ->
                   App.value (App.row r)
                   = App.wrap64
                       (registrations
                          (filter (in_year (App.group (App.row r))
                                     (App.period (App.row r))) df_annual)) /\
                   exists e, In e df_annual /\ key_eq e (App.row r)) /\
        (forall e, In e df_annual ->
                   exists r, In r out /\ key_eq e (App.row r)) /\
        App.wrap64 (registrations (map (@App.row Z) out))
        = App.wrap64 (registrations df_annual) /\
        ((forall e, In e df_annual -> 0 <= App.value e) ->
         registrations df_annual < 2 ^ 63 ->
         forall r, In r out ->
                   App.value (App.row r)
                   = registrations
                       (filter (in_year (App.group (App.row r))
                                  (App.period (App.row r))) df_annual))) /\
  (forall df_monthly : list App.monthly,
      no_zero_total App.compare_quarter (map quarterly df_monthly) ->
      exists out,
        App.calculate_qoq_growth df_monthly = Return out /\
        (forall r, In r out ->
                   App.value (App.row r)
                   = App.wrap64
                       (sum_monthly
                          (filter (in_quarter (App.group (App.row r))
                                     (fst (App.period (App.row r)))
                                     (snd (App.period (App.row r))))
                             df_monthly)) /\
                   exists m, In m df_monthly /\ key_eq (quarterly m) (App.row r)) /\
        (forall m, In m df_monthly ->
                   exists r, In r out /\ key_eq (quarterly m) (App.row r)) /\
        App.wrap64 (registrations (map (@App.row (Z * Z)) out))
        = App.wrap64 (sum_monthly df_monthly) /\
        ((forall m, In m df_monthly -> 0 <= App.MonthlyRegistrations m) ->
         sum_monthly df_monthly < 2 ^ 63 ->
         forall r, In r out ->
                   App.value (App.row r)
                   = sum_monthly
                       (filter (in_quarter (App.group (App.row r))
                                  (fst (App.period (App.row r)))
                                  (snd (App.period (App.row r))))
                          df_monthly))).
Proof.
  split.
  - intros df Hnz. exists (growth_table Z.compare df).
    unfold App.calculate_yoy_growth.
    assert (Hrow : forall r,
               In r (growth_table Z.compare df) ->
               App.value (App.row r) = total Z.compare (App.row r) df /\
               exists e, In e df /\ key_eq e (App.row r))
      by (intros r; apply growth_table_row;
          [exact Z_compare_antisym | exact Z_compare_trans
          | exact Z_compare_eq]).
    assert (Hfilter : forall k : App.entry Z,
               filter (same_key Z.compare k) df
               = filter (in_year (App.group k) (App.period k)) df)
      by (intros k; apply filter_ext; intros e; apply same_key_in_year).
    split; [ | split; [ | split; [ | split]]].
    + apply calculate_growth_returns;
        [exact Z_compare_antisym | exact Z_compare_trans | exact Z_compare_eq
        | exact Hnz].
    + intros r Hr. destruct (Hrow r Hr) as [Hv He].
      split; [ | exact He]. rewrite Hv. unfold total. now rewrite Hfilter.
    + intros e. apply growth_table_has;
        [exact Z_compare_antisym | exact Z_compare_trans | exact Z_compare_eq].
    + apply growth_table_total;
        [exact Z_compare_antisym | exact Z_compare_trans].
    + intros Hpos Hfit r Hr. destruct (Hrow r Hr) as [Hv _].
      rewrite Hv, (total_exact Z.compare _ df Hpos Hfit). now rewrite Hfilter.
  - intros df Hnz. exists (growth_table App.compare_quarter (map quarterly df)).
    unfold App.calculate_qoq_growth.
    change (map (fun m => {| App.group := App.MappedName m;
                             App.period := (App.Year m, App.quarter m);
                             App.value := App.MonthlyRegistrations m |}) df)
      with (map quarterly df).
    assert (Hrow : forall r,
               In r (growth_table App.compare_quarter (map quarterly df)) ->
               App.value (App.row r)
               = total App.compare_quarter (App.row r) (map quarterly df) /\
               exists e, In e (map quarterly df) /\ key_eq e (App.row r))
      by (intros r; apply growth_table_row;
          [exact compare_quarter_antisym | exact compare_quarter_trans
          | exact compare_quarter_eq]).
    assert (Hfilter : forall k : App.entry (Z * Z),
               registrations
                 (filter (same_key App.compare_quarter k) (map quarterly df))
               = sum_monthly
                   (filter (in_quarter (App.group k) (fst (App.period k))
                              (snd (App.period k))) df)).
    { intros k. rewrite registrations_quarterly. f_equal. apply filter_ext.
      intros m. apply same_key_in_quarter. }
    split; [ | split; [ | split; [ | split]]].
    + apply calculate_growth_returns;
        [exact compare_quarter_antisym | exact compare_quarter_trans
        | exact compare_quarter_eq | exact Hnz].
    + intros r Hr. destruct (Hrow r Hr) as [Hv (e & He & Hk)]. split.
      * rewrite Hv. unfold total. now rewrite Hfilter.
      * apply in_map_iff in He. destruct He as (m & <- & Hm). now exists m.
    + intros m Hm.
      apply (growth_table_has App.compare_quarter compare_quarter_antisym
               compare_quarter_trans compare_quarter_eq).
      now apply in_map.
    + rewrite (growth_table_total App.compare_quarter compare_quarter_antisym
                 compare_quarter_trans).
      now rewrite registrations_map_quarterly.
    + intros Hpos Hfit r Hr. destruct (Hrow r Hr) as [Hv _].
      rewrite Hv, total_exact.
      * apply Hfilter.
      * intros e He. apply in_map_iff in He. destruct He as (m & <- & Hm).
        now apply Hpos.
      * now rewrite registrations_map_quarterly.
Qed.

Lemma growth_rows_sum_registrations_witness :
  10 = registrations
         (filter (in_year "HONDA" 2021)
            [yearly "HONDA" 2021 4; yearly "TVS" 2021 1; yearly "HONDA" 2021 6;
             yearly "HONDA" 2020 5])
  /\ exists out,
       App.calculate_yoy_growth
         [yearly "HONDA" 2021 4; yearly "TVS" 2021 1; yearly "HONDA" 2021 6;
          yearly "HONDA" 2020 5]
       = Return out /\
       map (@App.row Z) out
       = [yearly "HONDA" 2020 5; yearly "HONDA" 2021 10; yearly "TVS" 2021 1].
Proof.
  destruct (proj1 growth_rows_sum_registrations
              [yearly "HONDA" 2021 4; yearly "TVS" 2021 1;
               yearly "HONDA" 2021 6; yearly "HONDA" 2020 5])
    as (out & Hout & _ & _ & _ & Hexact).
  - intros k [<- | [<- | [<- | [<- | []]]]]; vm_compute; discriminate.
  - assert (Hrows : map (@App.row Z) out
                    = [yearly "HONDA" 2020 5; yearly "HONDA" 2021 10;
                       yearly "TVS" 2021 1]).
    { vm_compute in Hout. injection Hout as <-. reflexivity. }
    split; [ | now exists out].
    assert (Hin : exists r, In r out /\ App.row r = yearly "HONDA" 2021 10).
    { assert (H : In (yearly "HONDA" 2021 10) (map (@App.row Z) out))
        by (rewrite Hrows; right; now left).
      apply in_map_iff in H. destruct H as (r & H & Hr). now exists r. }
    destruct Hin as (r & Hr & Hrow).
    pose proof (Hexact ltac:(intros e [<- | [<- | [<- | [<- | []]]]];
                             vm_compute; discriminate)
                  eq_refl r Hr) as H.
    rewrite Hrow in H. exact H.
Defined.

(** X11. The growth tables do not depend on the order of the input
    rows: two frames with the same rows in another order give the same
    table, for the annual and for the quarterly growth. *)
Theorem growth_ignores_row_order :
  (forall df_annual df_annual' : list (App.entry Z),
      Permutation df_annual df_annual' ->
      App.calculate_yoy_growth df_annual = App.calculate_yoy_growth df_annual') /\
  (forall df_monthly df_monthly' : list App.monthly,
      Permutation df_monthly df_monthly' ->
      App.calculate_qoq_growth df_monthly = App.calculate_qoq_growth df_monthly').
Proof.
  split.
  - intros df df' Hp. unfold App.calculate_yoy_growth.
    apply calculate_growth_Permutation;
      [exact Z_compare_antisym | exact Z_compare_trans | exact Z_compare_eq
      | exact Hp].
  - intros df df' Hp. unfold App.calculate_qoq_growth.
    apply calculate_growth_Permutation;
      [exact compare_quarter_antisym | exact compare_quarter_trans
      | exact compare_quarter_eq | ].
    now apply Permutation_map.
Qed.

Lemma growth_ignores_row_order_witness :
  App.calculate_qoq_growth
    [month "2W" 2023 1 10; month "2W" 2023 5 30; month "2W" 2023 2 20]
  = App.calculate_qoq_growth
      [month "2W" 2023 5 30; month "2W" 2023 1 10; month "2W" 2023 2 20]
  /\ match
       App.calculate_qoq_growth
         [month "2W" 2023 1 10; month "2W" 2023 5 30; month "2W" 2023 2 20]
     with
     | Return out =>
         map (fun r => (App.period (App.row r), App.value (App.row r))) out
     | Raise _ => []
     end
     = [((2023, 1), 30); ((2023, 2), 30)].
Proof.
  split; [ | vm_compute; reflexivity].
  apply (proj2 growth_ignores_row_order). apply perm_swap.
Defined.

(** ** The two groupings of the vehicle categories *)

Lemma prefix_append (pat rest : string) :
  String.prefix pat (String.append pat rest) = true.
Proof.
  induction pat as [ | c pat IH]; cbn [String.append String.prefix].
  - now destruct rest.
  - destruct (ascii_dec c c) as [_ | N]; [exact IH | now elim N].
Qed.

Lemma prefix_split (pat s : string) :
  String.prefix pat s = true -> exists rest, s = String.append pat rest.
Proof.
  revert s. induction pat as [ | c pat IH]; intros s.
  - intros _. now exists s.
  - destruct s as [ | b s]; cbn [String.prefix]; [discriminate | ].
    destruct (ascii_dec c b) as [<- | _]; [ | discriminate].
    intros H. destruct (IH s H) as (rest & ->). now exists rest.
Qed.

Lemma append_assoc (a b c : string) :
  String.append (String.append a b) c = String.append a (String.append b c).
Proof. induction a as [ | x a IH]; cbn; [reflexivity | now rewrite IH]. Qed.

(** [pat in s] says that [s] is a text, [pat], and a text. *)
Lemma contains_split (pat s : string) :
  Text.contains pat s = true <->
  exists before after, s = String.append before (String.append pat after).
Proof.
  split.
  - induction s as [ | c s IH]; cbn [Text.contains]; intros H;
      apply orb_true_iff in H; destruct H as [H | H].
    + apply prefix_split in H. destruct H as (rest & ->). now exists "", rest.
    + discriminate H.
    + apply prefix_split in H. destruct H as (rest & ->). now exists "", rest.
    + destruct (IH H) as (before & after & ->).
      now exists (String c before), after.
  - intros (before & after & ->).
    induction before as [ | c before IH]; cbn [String.append].
    + destruct (String.append pat after) eqn:E; cbn [Text.contains];
        rewrite <- E, prefix_append; reflexivity.
    + cbn [Text.contains]. rewrite IH. apply orb_true_r.
Qed.

(** A text that holds a keyword holds the end of the keyword. *)
Lemma contains_end (start pat s : string) :
  Text.contains (String.append start pat) s = true -> Text.contains pat s = true.
Proof.
  intros H. apply contains_split in H. destruct H as (before & after & ->).
  apply contains_split. exists (String.append before start), after.
  now rewrite !append_assoc.
Qed.

Lemma any_keyword_In (keywords : list string) (category_name : string) :
  any_keyword keywords category_name = true <->
  exists keyword, In keyword keywords /\ Text.contains keyword category_name = true.
Proof. unfold any_keyword. apply existsb_exists. Qed.

(** A name that the keywords of [sql_app.py] take for a four-wheeler is
    one for the keywords of [csv_app.py], or names a bus, a dumper or a
    crane. *)
Lemma sql_keywords_csv (n : string) :
  any_keyword SqlApp.four_wheeler_keywords n = true ->
  any_keyword CsvApp.four_wheeler_keywords n = true \/
  any_keyword ["BUS"; "DUMPER"; "CRANE"] n = true.
Proof.
  intros H. apply any_keyword_In in H. destruct H as (k & Hk & Hc).
  assert (Hmotor : Text.contains "MOTOR VEHICLE" n = true ->
                   any_keyword CsvApp.four_wheeler_keywords n = true).
  { intros Hm. apply any_keyword_In. exists "MOTOR VEHICLE".
    split; [simpl; auto | exact Hm]. }
  cbn [SqlApp.four_wheeler_keywords In] in Hk.
  destruct Hk as [<- | [<- | [<- | [<- | [<- | [<- | [<- | [<- | [<- | [<- | [<- | []]]]]]]]]]]].
  - left. apply any_keyword_In. exists "FOUR WHEELER". split; [simpl; auto | exact Hc].
  - left. apply Hmotor. exact (contains_end "LIGHT " "MOTOR VEHICLE" n Hc).
  - left. apply Hmotor. exact (contains_end "MEDIUM " "MOTOR VEHICLE" n Hc).
  - left. apply Hmotor. exact (contains_end "HEAVY " "MOTOR VEHICLE" n Hc).
  - left. apply any_keyword_In. exists "GOODS VEHICLE". split; [simpl; auto | exact Hc].
  - left. apply any_keyword_In. exists "PASSENGER VEHICLE".
    split; [simpl; auto | exact Hc].
  - right. apply any_keyword_In. exists "BUS". split; [simpl; auto | exact Hc].
  - left. apply any_keyword_In. exists "TRAC". split; [simpl; auto 6 | exact Hc].
  - left. apply any_keyword_In. exists "EARTH MOVING".
    split; [simpl; auto 7 | exact Hc].
  - right. apply any_keyword_In. exists "DUMPER". split; [simpl; auto | exact Hc].
  - right. apply any_keyword_In. exists "CRANE". split; [simpl; auto | exact Hc].
Qed.

Lemma csv_keywords_sql (n : string) :
  any_keyword CsvApp.four_wheeler_keywords n = true ->
  any_keyword SqlApp.four_wheeler_keywords n = true \/
  Text.contains "MOTOR VEHICLE" n = true.
Proof.
  intros H. apply any_keyword_In in H. destruct H as (k & Hk & Hc).
  cbn [CsvApp.four_wheeler_keywords In] in Hk.
  destruct Hk as [<- | [<- | [<- | [<- | [<- | [<- | []]]]]]].
  - left. apply any_keyword_In. exists "FOUR WHEELER". split; [simpl; auto | exact Hc].
  - left. apply any_keyword_In. exists "GOODS VEHICLE".
    split; [simpl; auto 6 | exact Hc].
  - left. apply any_keyword_In. exists "PASSENGER VEHICLE".
    split; [simpl; auto 7 | exact Hc].
  - now right.
  - left. apply any_keyword_In. exists "TRAC". split; [simpl; auto 9 | exact Hc].
  - left. apply any_keyword_In. exists "EARTH MOVING".
    split; [simpl; auto 10 | exact Hc].
Qed.

(** X13. The grouping of the vehicle categories of [sql_app.py] and the
    one of [csv_app.py], which the migration copies, give the same
    group to a name except between [4W] and [Other]: they agree on
    [2W] and on [3W]; a name that only the first takes for [4W] names a
    bus, a dumper or a crane, and a name that only the second takes for
    [4W] holds [MOTOR VEHICLE]. *)
Theorem category_groupings_agree :
  forall category_name : string,
    let sql := SqlApp.map_vehicle_category category_name in
    let csv := CsvApp.map_vehicle_category category_name in
    In sql ["2W"; "3W"; "4W"; "Other"] /\
    (sql = "2W" <-> csv = "2W") /\
    (sql = "3W" <-> csv = "3W") /\
    (sql <> csv ->
     (sql = "4W" /\ csv = "Other" /\
      any_keyword ["BUS"; "DUMPER"; "CRANE"] (normalized category_name) = true)
     \/
     (sql = "Other" /\ csv = "4W" /\
      Text.contains "MOTOR VEHICLE" (normalized category_name) = true)).
Proof.
  intros category_name. unfold SqlApp.map_vehicle_category,
    CsvApp.map_vehicle_category, normalized.
  set (n := upper (Text.strip category_name)). cbv zeta.
  destruct (Text.contains "TWO WHEELER" n).
  { repeat split; try (simpl; now auto); try congruence. }
  destruct (Text.contains "THREE WHEELER" n).
  { repeat split; try (simpl; now auto); try congruence. }
  pose proof (sql_keywords_csv n) as Hsql.
  pose proof (csv_keywords_sql n) as Hcsv.
  destruct (any_keyword SqlApp.four_wheeler_keywords n),
    (any_keyword CsvApp.four_wheeler_keywords n).
  - repeat split; try (simpl; now auto 6); try congruence.
  - split; [simpl; now auto 6 | ].
    split; [split; discriminate | split; [split; discriminate | ]].
    intros _. left. destruct (Hsql eq_refl) as [H | H]; [discriminate H | now auto].
  - split; [simpl; now auto 6 | ].
    split; [split; discriminate | split; [split; discriminate | ]].
    intros _. right. destruct (Hcsv eq_refl) as [H | H]; [discriminate H | now auto].
  - repeat split; try (simpl; now auto 6); try congruence.
Qed.

Lemma category_groupings_agree_witness :
  (SqlApp.map_vehicle_category " Bus " = "4W" /\
   CsvApp.map_vehicle_category " Bus " = "Other" /\
   any_keyword ["BUS"; "DUMPER"; "CRANE"] (normalized " Bus ") = true)
  \/
  (SqlApp.map_vehicle_category " Bus " = "Other" /\
   CsvApp.map_vehicle_category " Bus " = "4W" /\
   Text.contains "MOTOR VEHICLE" (normalized " Bus ") = true).
Proof.
  apply (proj2 (proj2 (proj2 (category_groupings_agree " Bus ")))).
  vm_compute. discriminate.
Defined.

(** ** The cleaned table *)

Lemma clean_column_length {pd : Pandas} (cs : list cell) :
  List.length (Scraper.clean_column cs) = List.length cs.
Proof.
  unfold Scraper.clean_column.
  destruct (existsb Scraper.is_text cs); [ | reflexivity].
  destruct (forallb _ _); now rewrite !length_map.
Qed.

(** A cleaned column holds texts only, or no text. *)
Lemma clean_column_cases {pd : Pandas} (cs : list cell) :
  all_text (Scraper.clean_column cs) \/ no_text (Scraper.clean_column cs).
Proof.
  unfold Scraper.clean_column.
  destruct (existsb Scraper.is_text cs) eqn:E.
  - destruct (forallb _ _).
    + right. intros c Hc. apply in_map_iff in Hc. destruct Hc as (s & <- & _).
      now destruct (to_numeric_text s) as [[n | ] | ].
    + left. intros c Hc. apply in_map_iff in Hc. now destruct Hc as (s & <- & _).
  - right. intros c Hc.
    destruct (Scraper.is_text c) eqn:F; [ | reflexivity].
    rewrite <- E. symmetry. apply existsb_exists. now exists c.
Qed.

Lemma nth_map_seq {A : Type} (f : nat -> A) (n j : nat) (d : A) :
  (j < n)%nat -> nth j (map f (seq 0 n)) d = f j.
Proof.
  intros Hj. rewrite (nth_indep _ d (f O)) by (now rewrite length_map, length_seq).
  rewrite map_nth. now rewrite seq_nth.
Qed.

Lemma map_nth_seq {A : Type} (l : list A) (d : A) :
  map (fun i => nth i l d) (seq 0 (List.length l)) = l.
Proof.
  induction l as [ | c l IH]; [reflexivity | ].
  cbn [List.length seq map nth]. f_equal.
  rewrite <- seq_shift, map_map. exact IH.
Qed.

(** The column [j] of the cleaned rows is the cleaned column [j]. *)
Lemma clean_rows_column {pd : Pandas} (ncols : nat) (rs : list (list cell))
  (j : nat) :
  (j < ncols)%nat ->
  map (at_column j) (Scraper.clean_rows ncols rs)
  = Scraper.clean_column (map (at_column j) rs).
Proof.
  intros Hj. unfold Scraper.clean_rows. rewrite map_map.
  transitivity
    (map (fun i => nth i (Scraper.clean_column (map (at_column j) rs)) NaN)
       (seq 0 (List.length rs))).
  - apply map_ext_in. intros i _.
    exact (nth_map_seq
             (fun j0 => nth i (Scraper.clean_column (map (at_column j0) rs)) NaN)
             ncols j NaN Hj).
  - rewrite <- (length_map (at_column j) rs), <- clean_column_length.
    apply map_nth_seq.
Qed.

(** X14. The frame that the scraper builds from the chosen table: its
    labels are distinct, it has the rows of the table, every row has
    one cell per label, and every column holds texts only or no text at
    all, so that a column is numeric or textual as a whole. *)
Theorem cleaned_frame_is_regular :
  forall (pd : Pandas) (best : table) (data_df : DataFrame),
    Scraper.clean best = Return data_df ->
    columns data_df = Scraper.flatten_columns best /\
    distinct (columns data_df) = true /\
    shape0 data_df = table_shape0 best /\
    (forall row, In row (rows data_df) -> List.length row = shape1 data_df) /\
    (forall j, (j < shape1 data_df)%nat ->
               column_cells j data_df
               = Scraper.clean_column (map (at_column j) (body best)) /\
               (all_text (column_cells j data_df) \/
                no_text (column_cells j data_df))).
Proof.
  intros pd best data_df. unfold Scraper.clean.
  destruct (distinct (Scraper.flatten_columns best)) eqn:Hd; [ | discriminate].
  intros H. injection H as <-. cbn [columns rows].
  unfold shape0, shape1, table_shape0, column_cells. cbn [columns rows].
  split; [reflexivity | split; [exact Hd | split; [ | split]]].
  - unfold Scraper.clean_rows. now rewrite length_map, length_seq.
  - intros row Hrow. unfold Scraper.clean_rows in Hrow.
    apply in_map_iff in Hrow. destruct Hrow as (i & <- & _).
    now rewrite length_map, length_seq.
  - intros j Hj. rewrite (clean_rows_column _ _ j Hj).
    split; [reflexivity | apply clean_column_cases].
Qed.

Lemma cleaned_frame_is_regular_witness :
  shape0
    {| columns := Scraper.flatten_columns month_wise_table;
       rows := Scraper.clean_rows (pd := no_numeric_text) 6
                 (body month_wise_table) |}
  = 2%nat.
Proof.
  destruct (cleaned_frame_is_regular no_numeric_text month_wise_table
              {| columns := Scraper.flatten_columns month_wise_table;
                 rows := Scraper.clean_rows (pd := no_numeric_text) 6
                           (body month_wise_table) |} eq_refl)
    as (_ & _ & H & _).
  exact H.
Defined.
